(** * The xinference worker actor ([xinference/core/worker.py])

    A shallow embedding of [WorkerActor]: the device accountant, the launch
    pipeline, termination, cancellation and the recover callback, followed by
    the properties of the worker's specification that they decide.

    Conventions.
    - Python dictionaries keyed by GPU index or by model uid are [gmap]s; the
      two [defaultdict(set)] maps keep the difference between a missing key
      and a key bound to the empty set, as the code tests [dev in d].
    - [_model_uid_to_addr] is iterated in insertion order by
      [recover_sub_pool], so it is an ordered dictionary ([PyDict]).
    - A coroutine is cut at its [await]s on external collaborators; what the
      collaborator answers is an argument of the embedded function.
    - An exception is a [Raise e] result, the worker state reached so far is
      always returned with it. *)

From stdpp Require Import gmap strings list fin_maps sorting.
From Stdlib Require Import ZArith.

Local Open Scope Z_scope.

(** ** Exceptions and results *)

(** The exceptions the worker raises, named after the error kinds of the
    specification; the Python class and the raising site are given for each. *)
Inductive error : Type :=
| InvalidArg    (* ValueError: n_gpu, PEFT target, model_path (launch_builtin_model) *)
| Conflict      (* AssertionError / ValueError "is running"; RuntimeError "occupied with a vLLM model" *)
| NoSlot        (* RuntimeError "No available slot found ..." *)
| BadDevice     (* ValueError "cannot use the GPUs with these indexes" *)
| Unsupported   (* ValueError "... model can't run on Darwin system." *)
| Busy          (* ValueError "<uid> is launching" (terminate_model) *)
| NotLaunching  (* RuntimeError "Model is not launching, ..." (cancel_launch_model) *)
| Cancelled     (* downloader.raise_error("Launch cancelled") *)
| Downstream    (* an exception of a collaborator: pool, downloader, factory, actor *)
| Transient     (* the supervisor cannot be reached (get_supervisor_ref) *)
| BadUid        (* parse_replica_model_uid raised *)
| KeyErr        (* KeyError of a dict lookup or del *)
| AssertErr.    (* AssertionError of "assert self._status_guard_ref is not None" *)

Inductive result (A : Type) : Type :=
| Ok (a : A)
| Raise (e : error).
Arguments Ok {A} a.
Arguments Raise {A} e.

Global Instance error_eq_dec : EqDecision error.
Proof. solve_decision. Defined.

Global Instance result_eq_dec `{EqDecision A} : EqDecision (result A).
Proof. solve_decision. Defined.

Definition is_ok {A} (r : result A) : bool :=
  match r with Ok _ => true | Raise _ => false end.

(** ** Python helpers *)

(** [l[:n]]: the first [n] elements, or all but the last [-n] when [n < 0]. *)
Definition py_slice_to {A} (l : list A) (n : Z) : list A :=
  if 0 <=? n then take (Z.to_nat n) l
  else take (length l - Z.to_nat (- n))%nat l.

(** [sorted(l)] on integers. *)
Definition sorted (l : list Z) : list Z := merge_sort Z.le l.

(** [model_type in ["embedding", "rerank"]]. *)
Definition is_embedding_or_rerank (model_type : string) : bool :=
  (model_type =? "embedding")%string || (model_type =? "rerank")%string.

(** The order of a Python iteration that follows a rank. *)
Definition rank_le {A} (rank : A → nat) (a b : A) : Prop := (rank a ≤ rank b)%nat.

Global Instance rank_le_dec {A} (rank : A → nat) (a b : A) : Decision (rank_le rank a b).
Proof. unfold rank_le. apply _. Defined.

(** [d[k].add(x)] on a [defaultdict(set)]: a missing key is created. *)
Definition defaultdict_add `{Countable K} `{Countable V}
    (k : K) (x : V) (d : gmap K (gset V)) : gmap K (gset V) :=
  <[k := default ∅ (d !! k) ∪ {[x]}]> d.

(** ** Device maps *)

Record DeviceMaps : Type := mkDeviceMaps {
  (* self._total_gpu_devices: static *)
  total_gpu_devices : list Z;
  (* self._gpu_to_model_uid: Dict[int, str] *)
  gpu_to_model_uid : gmap Z string;
  (* self._gpu_to_embedding_model_uids: Dict[int, Set[str]] = defaultdict(set) *)
  gpu_to_embedding_model_uids : gmap Z (gset string);
  (* self._user_specified_gpu_to_model_uids: gpu_index: {(replica_model_uid, model_type)} *)
  user_specified_gpu_to_model_uids : gmap Z (gset (string * string));
}.

Definition set_gpu_to_model_uid (m : gmap Z string) (d : DeviceMaps) : DeviceMaps :=
  mkDeviceMaps (total_gpu_devices d) m
    (gpu_to_embedding_model_uids d) (user_specified_gpu_to_model_uids d).

Definition set_gpu_to_embedding_model_uids (m : gmap Z (gset string))
    (d : DeviceMaps) : DeviceMaps :=
  mkDeviceMaps (total_gpu_devices d) (gpu_to_model_uid d)
    m (user_specified_gpu_to_model_uids d).

Definition set_user_specified_gpu_to_model_uids
    (m : gmap Z (gset (string * string))) (d : DeviceMaps) : DeviceMaps :=
  mkDeviceMaps (total_gpu_devices d) (gpu_to_model_uid d)
    (gpu_to_embedding_model_uids d) m.

(** ** The device accountant *)

(** The inner loop of [allocate_devices]: some model pinned on the device is
    neither an embedding nor a rerank model. *)
Definition allocated_non_embedding_rerank_models
    (model_infos : gset (string * string)) : bool :=
  existsb (λ info, negb (is_embedding_or_rerank info.2)) (elements model_infos).

Definition user_specified_allocated_devices (d : DeviceMaps) : gset Z :=
  dom (filter (λ kv, Is_true (allocated_non_embedding_rerank_models kv.2))
         (user_specified_gpu_to_model_uids d)).

(** The comprehension of [allocate_devices] before it is sliced. *)
Definition free_devices (d : DeviceMaps) : list Z :=
  filter (λ dev, gpu_to_model_uid d !! dev = None
                 ∧ dev ∉ user_specified_allocated_devices d)
    (total_gpu_devices d).

Definition assign_devices (model_uid : string) (devices : list Z)
    (m : gmap Z string) : gmap Z string :=
  foldl (λ acc dev, <[dev := model_uid]> acc) m devices.

Definition allocate_devices (model_uid : string) (n_gpu : Z) (d : DeviceMaps)
    : DeviceMaps * result (list Z) :=
  let allocated_devices :=
    dom (gpu_to_model_uid d) ∪ user_specified_allocated_devices d in
  if Z.of_nat (length (total_gpu_devices d)) - Z.of_nat (size allocated_devices)
     <? n_gpu
  then (d, Raise NoSlot)
  else
    let devices := py_slice_to (free_devices d) n_gpu in
    (set_gpu_to_model_uid (assign_devices model_uid devices (gpu_to_model_uid d)) d,
     Ok (sorted devices)).

Definition release_devices (model_uid : string) (d : DeviceMaps) : DeviceMaps :=
  mkDeviceMaps (total_gpu_devices d)
    (filter (λ kv, kv.2 ≠ model_uid) (gpu_to_model_uid d))
    ((λ uids, uids ∖ {[model_uid]}) <$> gpu_to_embedding_model_uids d)
    ((λ infos, filter (λ info, info.1 ≠ model_uid) infos)
       <$> user_specified_gpu_to_model_uids d).

Section Accountant.

(** [is_model_vllm_backend]: the probe answered by the supervisor and the
    model actor ("is this replica vLLM-backed?").  It parses the uid and
    awaits the supervisor and the model actor, and raises when one of them
    does. *)
Variable is_model_vllm_backend : string → result bool.

(** The order in which Python iterates over a set follows the hash table of
    the set: [set_order infos info] is the rank of [info] in the iteration
    over [infos]. *)
Variable set_order : gset (string * string) → string * string → nat.

(* for info in infos *)
Definition iterate (infos : gset (string * string)) : list (string * string) :=
  merge_sort (rank_le (set_order infos)) (elements infos).

(** The loop of [allocate_devices_for_embedding] over the models pinned on a
    device: it stops at the first one that is vLLM-backed, and a probe that
    raises ends the call. *)
Fixpoint probe_pinned (infos : list (string * string)) : result bool :=
  match infos with
  | [] => Ok false
  | info :: infos =>
      match is_model_vllm_backend info.1 with
      | Raise e => Raise e
      | Ok true => Ok true
      | Ok false => probe_pinned infos
      end
  end.

(** [has_vllm_model] as computed for one device by
    [allocate_devices_for_embedding]. *)
Definition has_vllm_model (d : DeviceMaps) (dev : Z) : result bool :=
  let has_vllm_model :=
    match gpu_to_model_uid d !! dev with
    | Some existing_model_uid => is_model_vllm_backend existing_model_uid
    | None => Ok false
    end in
  match has_vllm_model with
  | Raise e => Raise e
  | Ok true => Ok true
  | Ok false =>
      match user_specified_gpu_to_model_uids d !! dev with
      | Some infos => probe_pinned (iterate infos)
      | None => Ok false
      end
  end.

Definition embedding_candidate (d : DeviceMaps) (dev : Z) : result bool :=
  match gpu_to_model_uid d !! dev, user_specified_gpu_to_model_uids d !! dev with
  | None, None => Ok true
  | _, _ =>
      match has_vllm_model d dev with
      | Raise e => Raise e
      | Ok has_vllm_model => Ok (negb has_vllm_model)
      end
  end.

(* the loop that fills [candidates], device by device *)
Fixpoint embedding_candidates_of (d : DeviceMaps) (devs : list Z) : result (list Z) :=
  match devs with
  | [] => Ok []
  | dev :: devs =>
      match embedding_candidate d dev with
      | Raise e => Raise e
      | Ok candidate =>
          match embedding_candidates_of d devs with
          | Raise e => Raise e
          | Ok candidates => Ok (if candidate then dev :: candidates else candidates)
          end
      end
  end.

Definition embedding_candidates (d : DeviceMaps) : result (list Z) :=
  embedding_candidates_of d (total_gpu_devices d).

(** [existing_cnt] of the selection loop. *)
Definition existing_cnt (d : DeviceMaps) (dev : Z) : Z :=
  match gpu_to_embedding_model_uids d !! dev with
  | Some uids => Z.of_nat (size uids) | None => 0 end
  + match gpu_to_model_uid d !! dev with Some _ => 1 | None => 0 end
  + match user_specified_gpu_to_model_uids d !! dev with
    | Some infos => Z.of_nat (size infos) | None => 0 end.

(** One turn of the selection loop on [(device, min_cnt)]. *)
Definition pick_step (d : DeviceMaps) (acc : Z * Z) (dev : Z) : Z * Z :=
  let cnt := existing_cnt d dev in
  if (acc.2 =? -1) || (cnt <? acc.2) then (dev, cnt) else acc.

(** The selection loop, started from [device, min_cnt = -1, -1]. *)
Definition pick_device (d : DeviceMaps) (candidates : list Z) : Z * Z :=
  foldl (pick_step d) (-1, -1) candidates.

Definition allocate_devices_for_embedding (model_uid : string) (d : DeviceMaps)
    : DeviceMaps * result Z :=
  match embedding_candidates d with
  | Raise e => (d, Raise e)
  | Ok candidates =>
      if (length candidates =? 0)%nat then (d, Raise NoSlot)
      else
        let device := (pick_device d candidates).1 in
        (set_gpu_to_embedding_model_uids
           (defaultdict_add device model_uid (gpu_to_embedding_model_uids d)) d,
         Ok device)
  end.

(** The test of [allocate_devices_with_gpu_idx] on one requested index: its
    exclusive owner, if it has one, is probed. *)
Definition occupied_with_vllm (d : DeviceMaps) (idx : Z) : result bool :=
  match gpu_to_model_uid d !! idx with
  | Some rep_uid => is_model_vllm_backend rep_uid
  | None => Ok false
  end.

(** The checking loop: the first requested index whose exclusive owner is
    vLLM-backed stops it with an error, and so does a probe that raises. *)
Fixpoint check_gpu_idx (d : DeviceMaps) (gpu_idx : list Z) : result unit :=
  match gpu_idx with
  | [] => Ok tt
  | idx :: gpu_idx =>
      match occupied_with_vllm d idx with
      | Raise e => Raise e
      | Ok true => Raise Conflict
      | Ok false => check_gpu_idx d gpu_idx
      end
  end.

Definition pin_devices (model_uid model_type : string) (gpu_idx : list Z)
    (m : gmap Z (gset (string * string))) : gmap Z (gset (string * string)) :=
  foldl (λ acc idx, defaultdict_add idx (model_uid, model_type) acc) m gpu_idx.

Definition allocate_devices_with_gpu_idx (model_uid model_type : string)
    (gpu_idx : list Z) (d : DeviceMaps) : DeviceMaps * result (list Z) :=
  if negb (bool_decide (list_to_set gpu_idx ⊆@{gset Z} list_to_set (total_gpu_devices d)))
  then (d, Raise BadDevice)
  else
    match check_gpu_idx d gpu_idx with
    | Raise e => (d, Raise e)
    | Ok _ =>
        (set_user_specified_gpu_to_model_uids
           (pin_devices model_uid model_type gpu_idx
              (user_specified_gpu_to_model_uids d)) d,
         Ok (sorted gpu_idx))
    end.

End Accountant.

(** ** Ordered dictionaries

    [Dict[str, str]] with Python's insertion order, which the scan of
    [recover_sub_pool] over [_model_uid_to_addr.items()] depends on. *)
Module PyDict.

Definition t : Type := list (string * string).

(* d.get(k) *)
Fixpoint get (k : string) (d : t) : option string :=
  match d with
  | [] => None
  | (k', v) :: d' => if decide (k = k') then Some v else get k d'
  end.

(* d[k] = v: an existing key keeps its position, a new one goes last *)
Fixpoint set (k v : string) (d : t) : t :=
  match d with
  | [] => [(k, v)]
  | (k', v') :: d' =>
      if decide (k = k') then (k, v) :: d' else (k', v') :: set k v d'
  end.

(* d.pop(k, None); a dictionary binds a key once, and every binding of [k]
   is dropped so that the list need not be assumed free of repeated keys *)
Fixpoint pop (k : string) (d : t) : t :=
  match d with
  | [] => []
  | (k', v') :: d' => if decide (k = k') then pop k d' else (k', v') :: pop k d'
  end.

(* the first key, in iteration order, bound to [v] *)
Fixpoint first_key_of (v : string) (d : t) : option string :=
  match d with
  | [] => None
  | (k', v') :: d' => if decide (v' = v) then Some k' else first_key_of v d'
  end.

End PyDict.

(** ** Worker state *)

(* xo.ActorRefType: the actor class, its uid and the address it lives at *)
Inductive actor_class : Type := ModelActor | Rank0ModelActor.

Record ActorRef : Type := mkActorRef {
  actor_cls : actor_class;
  actor_uid : string;
  actor_address : string;
}.

(* model.model_family.to_description(): Dict[str, Any], opaque to the worker *)
Definition description : Type := list (string * string).

Record ModelStatus : Type := mkModelStatus { last_error : string }.

(* status_guard.LaunchStatus, the members the worker uses *)
Inductive LaunchStatus : Type :=
| CREATING | READY | TERMINATING | TERMINATED | ERROR.

Record LaunchInfo : Type := mkLaunchInfo {
  cancel_event : bool;            (* threading.Event: is_set() *)
  virtual_env_manager : bool;     (* Optional[VirtualEnvManager] is not None *)
  downloader : bool;              (* Optional[CancellableDownloader] is not None *)
  sub_pools : option (list string);
}.

(* LaunchInfo() *)
Definition new_launch_info : LaunchInfo := mkLaunchInfo false false false None.

Inductive n_gpu_arg : Type := NGpuInt (n : Z) | NGpuStr (s : string).
Inductive gpu_idx_arg : Type := GpuIdxInt (i : Z) | GpuIdxList (l : list Z).

(** The parameters of [launch_builtin_model], as [locals()] snapshots them.
    [other_args] stands for the parameters the worker only forwards
    (size, quantization, engine, driver_info, request_limits, download_hub,
    virtual_env_packages, envs and the remaining kwargs). *)
Record LaunchArgs : Type := mkLaunchArgs {
  model_uid : string;
  model_name : string;
  model_format : option string;
  model_type : string;
  n_gpu : option n_gpu_arg;
  n_worker : Z;
  shard : Z;
  peft_model_config : bool;          (* is not None *)
  gpu_idx : option gpu_idx_arg;
  model_path : option string;
  enable_virtual_env : option bool;
  xavier_config : bool;              (* kwargs.get("xavier_config") is not None *)
  other_args : list (string * string);
}.

Record Worker : Type := mkWorker {
  devices : DeviceMaps;
  (* self._model_uid_launching_guard: uid to a reference to its LaunchInfo *)
  model_uid_launching_guard : gmap string nat;
  (* the LaunchInfo objects, by reference: shared between the guard, the
     launch coroutine that created them and cancel_launch_model *)
  launch_infos : list LaunchInfo;
  model_uid_to_model : gmap string ActorRef;
  model_uid_to_model_spec : gmap string description;
  model_uid_to_model_status : gmap string ModelStatus;
  model_uid_to_addr : PyDict.t;
  model_uid_to_recover_count : gmap string (option Z);
  model_uid_to_launch_args : gmap string LaunchArgs;
  (* self._main_pool: the addresses of its sub-processes *)
  main_pool : gset string;
  (* self._supervisor_ref / self._status_guard_ref is not None *)
  supervisor_ref : bool;
  status_guard_ref : bool;
  (* what the Status Guard received through update_instance_info, oldest first *)
  status_guard : list (string * LaunchStatus);
}.

Definition set_devices (x : DeviceMaps) (w : Worker) : Worker :=
  mkWorker x (model_uid_launching_guard w) (launch_infos w) (model_uid_to_model w)
    (model_uid_to_model_spec w) (model_uid_to_model_status w) (model_uid_to_addr w)
    (model_uid_to_recover_count w) (model_uid_to_launch_args w) (main_pool w)
    (supervisor_ref w) (status_guard_ref w) (status_guard w).

Definition set_model_uid_launching_guard (x : gmap string nat) (w : Worker) : Worker :=
  mkWorker (devices w) x (launch_infos w) (model_uid_to_model w)
    (model_uid_to_model_spec w) (model_uid_to_model_status w) (model_uid_to_addr w)
    (model_uid_to_recover_count w) (model_uid_to_launch_args w) (main_pool w)
    (supervisor_ref w) (status_guard_ref w) (status_guard w).

Definition set_launch_infos (x : list LaunchInfo) (w : Worker) : Worker :=
  mkWorker (devices w) (model_uid_launching_guard w) x (model_uid_to_model w)
    (model_uid_to_model_spec w) (model_uid_to_model_status w) (model_uid_to_addr w)
    (model_uid_to_recover_count w) (model_uid_to_launch_args w) (main_pool w)
    (supervisor_ref w) (status_guard_ref w) (status_guard w).

Definition set_model_uid_to_model (x : gmap string ActorRef) (w : Worker) : Worker :=
  mkWorker (devices w) (model_uid_launching_guard w) (launch_infos w) x
    (model_uid_to_model_spec w) (model_uid_to_model_status w) (model_uid_to_addr w)
    (model_uid_to_recover_count w) (model_uid_to_launch_args w) (main_pool w)
    (supervisor_ref w) (status_guard_ref w) (status_guard w).

Definition set_model_uid_to_model_spec (x : gmap string description) (w : Worker) : Worker :=
  mkWorker (devices w) (model_uid_launching_guard w) (launch_infos w) (model_uid_to_model w)
    x (model_uid_to_model_status w) (model_uid_to_addr w)
    (model_uid_to_recover_count w) (model_uid_to_launch_args w) (main_pool w)
    (supervisor_ref w) (status_guard_ref w) (status_guard w).

Definition set_model_uid_to_model_status (x : gmap string ModelStatus) (w : Worker) : Worker :=
  mkWorker (devices w) (model_uid_launching_guard w) (launch_infos w) (model_uid_to_model w)
    (model_uid_to_model_spec w) x (model_uid_to_addr w)
    (model_uid_to_recover_count w) (model_uid_to_launch_args w) (main_pool w)
    (supervisor_ref w) (status_guard_ref w) (status_guard w).

Definition set_model_uid_to_addr (x : PyDict.t) (w : Worker) : Worker :=
  mkWorker (devices w) (model_uid_launching_guard w) (launch_infos w) (model_uid_to_model w)
    (model_uid_to_model_spec w) (model_uid_to_model_status w) x
    (model_uid_to_recover_count w) (model_uid_to_launch_args w) (main_pool w)
    (supervisor_ref w) (status_guard_ref w) (status_guard w).

Definition set_model_uid_to_recover_count (x : gmap string (option Z)) (w : Worker) : Worker :=
  mkWorker (devices w) (model_uid_launching_guard w) (launch_infos w) (model_uid_to_model w)
    (model_uid_to_model_spec w) (model_uid_to_model_status w) (model_uid_to_addr w)
    x (model_uid_to_launch_args w) (main_pool w)
    (supervisor_ref w) (status_guard_ref w) (status_guard w).

Definition set_model_uid_to_launch_args (x : gmap string LaunchArgs) (w : Worker) : Worker :=
  mkWorker (devices w) (model_uid_launching_guard w) (launch_infos w) (model_uid_to_model w)
    (model_uid_to_model_spec w) (model_uid_to_model_status w) (model_uid_to_addr w)
    (model_uid_to_recover_count w) x (main_pool w)
    (supervisor_ref w) (status_guard_ref w) (status_guard w).

Definition set_main_pool (x : gset string) (w : Worker) : Worker :=
  mkWorker (devices w) (model_uid_launching_guard w) (launch_infos w) (model_uid_to_model w)
    (model_uid_to_model_spec w) (model_uid_to_model_status w) (model_uid_to_addr w)
    (model_uid_to_recover_count w) (model_uid_to_launch_args w) x
    (supervisor_ref w) (status_guard_ref w) (status_guard w).

Definition set_refs (sup sg : bool) (w : Worker) : Worker :=
  mkWorker (devices w) (model_uid_launching_guard w) (launch_infos w) (model_uid_to_model w)
    (model_uid_to_model_spec w) (model_uid_to_model_status w) (model_uid_to_addr w)
    (model_uid_to_recover_count w) (model_uid_to_launch_args w) (main_pool w)
    sup sg (status_guard w).

Definition set_status_guard (x : list (string * LaunchStatus)) (w : Worker) : Worker :=
  mkWorker (devices w) (model_uid_launching_guard w) (launch_infos w) (model_uid_to_model w)
    (model_uid_to_model_spec w) (model_uid_to_model_status w) (model_uid_to_addr w)
    (model_uid_to_recover_count w) (model_uid_to_launch_args w) (main_pool w)
    (supervisor_ref w) (status_guard_ref w) x.

(** The worker as [__init__] leaves it. *)
Definition init_worker (gpu_devices : list Z) : Worker :=
  mkWorker (mkDeviceMaps gpu_devices ∅ ∅ ∅) ∅ [] ∅ ∅ ∅ [] ∅ ∅ ∅ false false [].

(** ** The host and the collaborators *)

(** What the worker reads from its host and from modules of the repository
    that it only calls: [device_utils.gpu_count], the supervisor probe behind
    [is_model_vllm_backend] (an answer, or the exception it raises), the
    order in which a set of pinned models is iterated,
    [utils.parse_replica_model_uid] ([None] when it raises),
    [os.path.exists], [platform.system() == "Darwin"], and the two
    configuration constants. *)
Record Host : Type := mkHost {
  gpu_count : Z;
  is_model_vllm_backend : string → result bool;
  set_order : gset (string * string) → string * string → nat;
  parse_replica_model_uid : string → option (string * Z);
  path_exists : string → bool;
  platform_is_darwin : bool;
  MODEL_ACTOR_AUTO_RECOVER_LIMIT : option Z;
  XINFERENCE_ENABLE_VIRTUAL_ENV : bool;
}.

(* the model object returned by create_model_instance, as far as the worker
   looks into it *)
Record ModelObj : Type := mkModelObj {
  need_create_pools : bool;
  to_description : description;
}.

Inductive load_outcome : Type :=
| LoadOk              (* model_ref.load() returned *)
| LoadServerClosed    (* it raised xo.ServerClosed *)
| LoadFailed.         (* it raised anything else *)

(** The suspension points of [launch_builtin_model]: the coroutine waits for
    [_create_virtual_env_manager], for [append_sub_pool] (inside
    [_create_subpool]), for [create_model_instance], for
    [_prepare_virtual_env], for [xo.create_actor], for the gathered
    [append_sub_pool] calls, for [model_ref.load()]. *)
Inductive stage : Type :=
| AtVirtualEnv
| AtSubPool
| AtDownload
| AtInstall (model : ModelObj)
| AtActor (model : ModelObj)
| AtExtraPools (model : ModelObj)
| AtLoad (model : ModelObj).

Definition stage_index (s : stage) : nat :=
  match s with
  | AtVirtualEnv => 0 | AtSubPool => 1 | AtDownload => 2 | AtInstall _ => 3
  | AtActor _ => 4 | AtExtraPools _ => 5 | AtLoad _ => 6
  end.

(** What the collaborators answer to one launch. A launch reads, at each
    suspension point, the field of that point only. *)
Record LaunchEnv : Type := mkLaunchEnv {
  env_supervisor : bool;                        (* xo.actor_ref reaches the supervisor *)
  env_create_virtual_env : bool;                (* _create_virtual_env_manager returns *)
  env_append_sub_pool : option string;          (* append_sub_pool: address, or it raises *)
  env_create_model_instance : option ModelObj;  (* progressor, factory, update_cache_status *)
  env_prepare_virtual_env : bool;
  env_create_actor : bool;                      (* xo.create_actor and need_create_pools *)
  env_extra_pools : list (option string);       (* the gathered append_sub_pool calls, per device *)
  env_set_pool_addresses : bool;
  env_load : load_outcome;
  env_model_ability : bool;                     (* _get_model_ability returns *)
  env_update_instance_info : bool;              (* the READY push returns *)
  (* cancel_launch_model is called while the launch waits at this point *)
  env_cancel_at : nat → bool;
  env_cancel_update_instance_info : bool;       (* the ERROR push of that call returns *)
}.

(** The local variables of a suspended [launch_builtin_model]. *)
Record Task : Type := mkTask {
  launch_args : LaunchArgs;
  origin_uid : string;
  at_stage : stage;
  launch_info : nat;                    (* reference into launch_infos *)
  has_virtual_env_manager : bool;       (* virtual_env_manager is not None *)
  subpool_address : string;
  task_devices : list Z;
  all_subpool_addresses : list string;
}.

Definition at_next (s : stage) (t : Task) : Task :=
  mkTask (launch_args t) (origin_uid t) s (launch_info t)
    (has_virtual_env_manager t) (subpool_address t) (task_devices t)
    (all_subpool_addresses t).

Inductive progress : Type :=
| Suspended (t : Task)
| Returned (r : result string).

(* what the collaborators answer to terminate_model: whether the supervisor
   can be reached, what get_pool_addresses returns, and whether the two
   calls of update_instance_info return *)
Record TerminateEnv : Type := mkTerminateEnv {
  term_supervisor : bool;
  term_pool_addresses : option (list string);
  term_terminating_pushed : bool;     (* the TERMINATING push returns *)
  term_final_pushed : bool;           (* the ERROR or TERMINATED push returns *)
}.

(* the local variables of a suspended launch_rank0_model *)
Record Rank0Task : Type := mkRank0Task {
  rep_model_uid : string;
  rank0_subpool_address : string;
}.

(** ** String helpers *)

(* sub in s *)
Fixpoint contains (sub s : string) : bool :=
  String.prefix sub s
  || match s with EmptyString => false | String _ s' => contains sub s' end.

(* s.endswith(suffix) *)
Definition endswith (s suffix : string) : bool :=
  (String.length suffix <=? String.length s)%nat
  && (String.substring (String.length s - String.length suffix)
        (String.length suffix) s =? suffix)%string.

(* s.removesuffix(suffix) *)
Definition removesuffix (s suffix : string) : string :=
  if endswith s suffix
  then String.substring 0 (String.length s - String.length suffix) s
  else s.

(** ** The worker's operations *)

Section WorkerActor.

Context (host : Host).

(** [get_supervisor_ref]: returns at once when the reference is held, else
    resolves the supervisor and the actors that live with it. *)
Definition get_supervisor_ref (reachable : bool) (w : Worker) : Worker * result unit :=
  if supervisor_ref w then (w, Ok tt)
  else if reachable then (set_refs true true w, Ok tt)
  else (w, Raise Transient).

(* await self._status_guard_ref.update_instance_info(uid, {"status": status}):
   a call to a remote actor, which returns or raises *)
Definition update_instance_info (returns : bool) (uid : string)
    (status : LaunchStatus) (w : Worker) : Worker * result unit :=
  if returns then (set_status_guard (status_guard w ++ [(uid, status)]) w, Ok tt)
  else (w, Raise Downstream).

(* self._main_pool.append_sub_pool(...) *)
Definition append_sub_pool (answer : option string) (w : Worker)
    : Worker * result string :=
  match answer with
  | Some address => (set_main_pool ({[address]} ∪ main_pool w) w, Ok address)
  | None => (w, Raise Downstream)
  end.

(* self._main_pool.remove_sub_pool(address): KeyError for an unknown address *)
Definition remove_sub_pool (address : string) (w : Worker) : Worker * result unit :=
  if decide (address ∈ main_pool w)
  then (set_main_pool (main_pool w ∖ {[address]}) w, Ok tt)
  else (w, Raise KeyErr).

(* for addr in addresses: try: remove_sub_pool(addr) except KeyError: continue *)
Definition remove_sub_pools (addresses : list string) (w : Worker) : Worker :=
  foldl (λ w addr, (remove_sub_pool addr w).1) w addresses.

(* asyncio.gather over remove_sub_pool: every call runs, the first error is raised *)
Definition gather_step (acc : Worker * result unit) (addr : string)
    : Worker * result unit :=
  let r := remove_sub_pool addr acc.1 in
  (r.1, match acc.2 with Raise e => Raise e | Ok _ => r.2 end).

Definition gather_remove_sub_pools (addresses : list string) (w : Worker)
    : Worker * result unit :=
  foldl gather_step (w, Ok tt) addresses.

Definition release_worker_devices (uid : string) (w : Worker) : Worker :=
  set_devices (release_devices uid (devices w)) w.

Definition pop_model_entries (uid : string) (w : Worker) : Worker :=
  let w := set_model_uid_to_model (delete uid (model_uid_to_model w)) w in
  let w := set_model_uid_to_model_spec (delete uid (model_uid_to_model_spec w)) w in
  let w := release_worker_devices uid w in
  let w := set_model_uid_to_addr (PyDict.pop uid (model_uid_to_addr w)) w in
  let w := set_model_uid_to_recover_count (delete uid (model_uid_to_recover_count w)) w in
  set_model_uid_to_launch_args (delete uid (model_uid_to_launch_args w)) w.

(* the origin uid as terminate_model computes it *)
Definition terminate_origin_uid (uid : string) : option string :=
  if endswith uid "-rank0" then Some (removesuffix uid "-rank0")
  else fst <$> parse_replica_model_uid host uid.

(* the try block of terminate_model that removes the sub-pools: a missing
   address (KeyError) or a failing removal is logged *)
Definition terminate_remove_sub_pools (uid : string)
    (pool_addresses : option (list string)) (w : Worker) : Worker :=
  match PyDict.get uid (model_uid_to_addr w) with
  | Some subpool_address =>
      (gather_remove_sub_pools (subpool_address :: default [] pool_addresses) w).1
  | None => w
  end.

(* its finally block *)
Definition terminate_finally (env : TerminateEnv) (uid origin : string)
    (is_model_die : bool) (w : Worker) : Worker * result unit :=
  let w := pop_model_entries uid w in
  let status := if is_model_die then ERROR else TERMINATED in
  let w := if is_model_die then w
           else set_model_uid_to_model_status
                  (delete uid (model_uid_to_model_status w)) w in
  match (if status_guard_ref w then (w, Ok tt)
         else get_supervisor_ref (term_supervisor env) w) with
  | (w, Raise e) => (w, Raise e)
  | (w, Ok _) =>
      if status_guard_ref w
      then update_instance_info (term_final_pushed env) origin status w
      else (w, Raise AssertErr)  (* assert self._status_guard_ref is not None *)
  end.

Definition terminate_model (env : TerminateEnv) (uid : string)
    (is_model_die : bool) (w : Worker) : Worker * result unit :=
  match model_uid_launching_guard w !! uid with
  | Some _ => (w, Raise Busy)
  | None =>
    match terminate_origin_uid uid with
    | None => (w, Raise BadUid)
    | Some origin =>
      (* try: get_supervisor_ref(); report_event(...) except Exception: log *)
      let w := (get_supervisor_ref (term_supervisor env) w).1 in
      (* the TERMINATING push is in no try block: when it raises, the call
         ends here *)
      match (if status_guard_ref w
             then update_instance_info (term_terminating_pushed env)
                    origin TERMINATING w
             else (w, Ok tt)) with
      | (w, Raise e) => (w, Raise e)
      | (w, Ok _) =>
          let pool_addresses :=
            match model_uid_to_model w !! uid with
            | Some _ => term_pool_addresses env
            | None => None
            end in
          (* xo.destroy_actor(model_ref), waited for 5 seconds: failure is logged *)
          terminate_finally env uid origin is_model_die
            (terminate_remove_sub_pools uid pool_addresses w)
      end
    end
  end.

Definition get_model_launch_status (uid : string) (w : Worker) : option LaunchStatus :=
  match model_uid_launching_guard w !! uid with
  | Some _ => Some CREATING
  | None => match model_uid_to_model w !! uid with
            | Some _ => Some READY
            | None => None
            end
  end.

(* list_models: the keys it returns *)
Definition list_models (w : Worker) : gmap string description :=
  model_uid_to_model_spec w.

Definition set_cancel_event (i : LaunchInfo) : LaunchInfo :=
  mkLaunchInfo true (virtual_env_manager i) (downloader i) (sub_pools i).
Definition set_downloader (i : LaunchInfo) : LaunchInfo :=
  mkLaunchInfo (cancel_event i) (virtual_env_manager i) true (sub_pools i).
Definition set_virtual_env_manager (i : LaunchInfo) : LaunchInfo :=
  mkLaunchInfo (cancel_event i) true (downloader i) (sub_pools i).
Definition set_sub_pools (l : list string) (i : LaunchInfo) : LaunchInfo :=
  mkLaunchInfo (cancel_event i) (virtual_env_manager i) (downloader i) (Some l).

(* a write through a reference to a LaunchInfo *)
Definition update_launch_info (ref : nat) (f : LaunchInfo → LaunchInfo)
    (w : Worker) : Worker :=
  set_launch_infos (alter f ref (launch_infos w)) w.

(* self._model_uid_launching_guard[uid] = LaunchInfo() *)
Definition insert_launching_guard (uid : string) (w : Worker) : Worker * nat :=
  let ref := length (launch_infos w) in
  (set_launch_infos (launch_infos w ++ [new_launch_info])
     (set_model_uid_launching_guard (<[uid := ref]> (model_uid_launching_guard w)) w),
   ref).

(* del self._model_uid_launching_guard[uid] *)
Definition del_launching_guard (uid : string) (w : Worker) : Worker * result unit :=
  match model_uid_launching_guard w !! uid with
  | Some _ =>
      (set_model_uid_launching_guard (delete uid (model_uid_launching_guard w)) w, Ok tt)
  | None => (w, Raise KeyErr)
  end.

(* [pushed]: the ERROR push returns *)
Definition cancel_launch_model (pushed : bool) (uid : string) (w : Worker)
    : Worker * result unit :=
  match model_uid_launching_guard w !! uid with
  | None => (w, Raise NotLaunching)          (* KeyError, turned into RuntimeError *)
  | Some ref =>
    let w := update_launch_info ref set_cancel_event w in
    (* downloader.cancel(), virtual_env_manager.cancel_install() *)
    let pools := default [] (launch_infos w !! ref ≫= sub_pools) in
    match gather_remove_sub_pools pools w with
    | (w, Raise _) => (w, Raise NotLaunching) (* KeyError of remove_sub_pool *)
    | (w, Ok _) =>
        if status_guard_ref w then
          match parse_replica_model_uid host uid with
          | Some (origin, _) => update_instance_info pushed origin ERROR w
          | None => (w, Raise BadUid)
          end
        else (w, Ok tt)
    end
  end.

(** *** Pre-validation of [launch_builtin_model] *)

(* if isinstance(gpu_idx, int): gpu_idx = [gpu_idx] *)
Definition coerce_gpu_idx (g : option gpu_idx_arg) : option (list Z) :=
  match g with
  | None => None
  | Some (GpuIdxInt i) => Some [i]
  | Some (GpuIdxList l) => Some l
  end.

Definition validate_n_gpu (n : option n_gpu_arg) : result unit :=
  match n with
  | None => Ok tt
  | Some (NGpuInt n) =>
      if (n <=? 0) || (gpu_count host <? n) then Raise InvalidArg else Ok tt
  | Some (NGpuStr s) =>
      if negb (s =? "auto")%string then Raise InvalidArg else Ok tt
  end.

Definition validate_peft (args : LaunchArgs) : result unit :=
  if peft_model_config args then
    if is_embedding_or_rerank (model_type args) then Raise InvalidArg
    else if (model_type args =? "LLM")%string
            && bool_decide (model_format args = Some "ggufv2")
    then Raise InvalidArg
    else Ok tt
  else Ok tt.

Definition validate_model_path (args : LaunchArgs) : result unit :=
  match model_path args with
  | Some path => if path_exists host path then Ok tt else Raise InvalidArg
  | None => Ok tt
  end.

(* _check_model_is_valid *)
Definition check_model_is_valid (name : string) (format : option string)
    : result unit :=
  if platform_is_darwin host && bool_decide (format = Some "pytorch")
     && contains "baichuan" name
  then Raise Unsupported
  else Ok tt.

(** The checks between the event report and the insertion into the
    launching guard, in the order of the code. *)
Definition pre_validate (args : LaunchArgs) (w : Worker) : result unit :=
  match validate_n_gpu (n_gpu args) with
  | Raise e => Raise e
  | Ok _ =>
  match validate_peft args with
  | Raise e => Raise e
  | Ok _ =>
  match validate_model_path args with
  | Raise e => Raise e
  | Ok _ =>
  match model_uid_to_model w !! model_uid args with
  | Some _ => Raise Conflict     (* assert model_uid not in self._model_uid_to_model *)
  | None =>
  match check_model_is_valid (model_name args) (model_format args) with
  | Raise e => Raise e
  | Ok _ =>
  match get_model_launch_status (model_uid args) w with
  | Some _ => Raise Conflict     (* ValueError "<uid> is running" *)
  | None => Ok tt
  end end end end end end.

(** [launch_builtin_model] up to its first suspension point. *)
Definition launch_builtin_model_begin (reachable : bool) (args : LaunchArgs)
    (w : Worker) : Worker * result Task :=
  match parse_replica_model_uid host (model_uid args) with
  | None => (w, Raise BadUid)
  | Some (origin, _) =>
    (* try: get_supervisor_ref(); report_event("Launch model") except: log *)
    let w := (get_supervisor_ref reachable w).1 in
    match pre_validate args w with
    | Raise e => (w, Raise e)
    | Ok _ =>
        let '(w, ref) := insert_launching_guard (model_uid args) w in
        (w, Ok (mkTask args origin AtVirtualEnv ref false "" [] []))
    end
  end.

(** *** [_create_subpool]: the device allocation before [append_sub_pool] *)
Definition create_subpool_devices (uid type : string) (n : option n_gpu_arg)
    (idx : option (list Z)) (d : DeviceMaps) : DeviceMaps * result (list Z) :=
  let allocate gpu_cnt :=
    if is_embedding_or_rerank type then
      match allocate_devices_for_embedding (is_model_vllm_backend host)
              (set_order host) uid d with
      | (d', Ok dev) => (d', Ok [dev])
      | (d', Raise e) => (d', Raise e)
      end
    else allocate_devices uid gpu_cnt d in
  match idx with
  | None =>
      match n with
      | Some (NGpuInt k) => allocate k
      | Some (NGpuStr s) =>
          if (s =? "auto")%string && (0 <? gpu_count host)
          then allocate 1 else (d, Ok [])
      | None => (d, Ok [])
      end
  | Some gpu_idx =>
      allocate_devices_with_gpu_idx (is_model_vllm_backend host) uid type gpu_idx d
  end.

(** *** The exits of the launch *)

(* the outer "finally: del self._model_uid_launching_guard[model_uid]" *)
Definition leave (uid : string) (r : result string) (w : Worker) : Worker * progress :=
  match del_launching_guard uid w with
  | (w', Ok _) => (w', Returned r)
  | (w', Raise e) => (w', Returned (Raise e))
  end.

(* the "except:" of the inner try (release, remove the recorded sub-pools,
   re-raise), then the outer finally *)
Definition failure_path (t : Task) (e : error) (w : Worker) : Worker * progress :=
  let uid := model_uid (launch_args t) in
  let w := release_worker_devices uid w in
  let w := remove_sub_pools (all_subpool_addresses t) w in
  leave uid (Raise e) w.

(* downloader.cancelled: the cancel event of the launch's own LaunchInfo *)
Definition cancelled (t : Task) (w : Worker) : bool :=
  match launch_infos w !! launch_info t with
  | Some i => cancel_event i
  | None => false
  end.

(* dict.setdefault *)
Definition setdefault {V} (k : string) (v : V) (m : gmap string V) : gmap string V :=
  match m !! k with Some _ => m | None => <[k := v]> m end.

(* the assignments between the inner try and the outer finally *)
Definition commit (t : Task) (model : ModelObj) (w : Worker) : Worker :=
  let uid := model_uid (launch_args t) in
  let w := set_model_uid_to_model
             (<[uid := mkActorRef ModelActor uid (subpool_address t)]>
                (model_uid_to_model w)) w in
  let w := set_model_uid_to_model_spec
             (<[uid := to_description model]> (model_uid_to_model_spec w)) w in
  let w := set_model_uid_to_model_status
             (<[uid := mkModelStatus ""]> (model_uid_to_model_status w)) w in
  let w := set_model_uid_to_addr
             (PyDict.set uid (subpool_address t) (model_uid_to_addr w)) w in
  let w := set_model_uid_to_recover_count
             (setdefault uid (MODEL_ACTOR_AUTO_RECOVER_LIMIT host)
                (model_uid_to_recover_count w)) w in
  set_model_uid_to_launch_args
    (<[uid := launch_args t]> (model_uid_to_launch_args w)) w.

(* after the finally: abilities, READY to the Status Guard, the address *)
Definition after_commit (env : LaunchEnv) (t : Task) (w : Worker)
    : Worker * result string :=
  if negb (env_model_ability env) then (w, Raise Downstream)
  else
    match get_supervisor_ref (env_supervisor env) w with
    | (w, Raise e) => (w, Raise e)
    | (w, Ok _) =>
        if status_guard_ref w
        then
          match update_instance_info (env_update_instance_info env)
                  (origin_uid t) READY w with
          | (w, Raise e) => (w, Raise e)
          | (w, Ok _) => (w, Ok (subpool_address t))
          end
        else (w, Raise AssertErr)
    end.

(** *** The launch, from one suspension point to the next *)

(* the last cancellation check, then launch_info.sub_pools = all_subpool_addresses *)
Definition before_load (model : ModelObj) (t : Task) (w : Worker) : Worker * progress :=
  if cancelled t w then failure_path t Cancelled w
  else (update_launch_info (launch_info t)
          (set_sub_pools (all_subpool_addresses t)) w,
        Suspended (at_next (AtLoad model) t)).

(* the answers to the append_sub_pool calls gathered for the devices *)
Definition extra_pool_answers (env : LaunchEnv) (t : Task) : list (option string) :=
  (λ i, mjoin (env_extra_pools env !! i)) <$> seq 0 (length (task_devices t)).

(* every gathered call runs: the sub-pools that were created join the pool *)
Definition gather_append_sub_pools (answers : list (option string)) (w : Worker)
    : Worker :=
  foldl (λ w answer, (append_sub_pool answer w).1) w answers.

(* pool_addresses, when no gathered call raised *)
Definition gathered (answers : list (option string)) : option (list string) :=
  mapM id answers.

Definition launch_builtin_model_step (env : LaunchEnv) (t : Task) (w : Worker)
    : Worker * progress :=
  let args := launch_args t in
  let uid := model_uid args in
  match at_stage t with
  | AtVirtualEnv =>
      if negb (env_create_virtual_env env) then leave uid (Raise Downstream) w
      else
        let manager := default (XINFERENCE_ENABLE_VIRTUAL_ENV host)
                         (enable_virtual_env args) in
        match create_subpool_devices uid (model_type args) (n_gpu args)
                (coerce_gpu_idx (gpu_idx args)) (devices w) with
        | (d, Raise e) => leave uid (Raise e) (set_devices d w)
        | (d, Ok devs) =>
            (set_devices d w,
             Suspended (mkTask args (origin_uid t) AtSubPool (launch_info t)
                          manager "" devs []))
        end
  | AtSubPool =>
      match append_sub_pool (env_append_sub_pool env) w with
      | (w, Raise e) => leave uid (Raise e) w
      | (w, Ok address) =>
          (* all_subpool_addresses = [subpool_address]; the inner try begins *)
          (update_launch_info (launch_info t) set_downloader w,
           Suspended (mkTask args (origin_uid t) AtDownload (launch_info t)
                        (has_virtual_env_manager t) address (task_devices t)
                        [address]))
      end
  | AtDownload =>
      match env_create_model_instance env with
      | None => failure_path t Downstream w
      | Some model =>
          if cancelled t w then failure_path t Cancelled w
          else if has_virtual_env_manager t
          then (w, Suspended (at_next (AtInstall model) t))
          else (w, Suspended (at_next (AtActor model) t))
      end
  | AtInstall model =>
      if negb (env_prepare_virtual_env env) then failure_path t Downstream w
      else
        let w := update_launch_info (launch_info t) set_virtual_env_manager w in
        if cancelled t w then failure_path t Cancelled w
        else (w, Suspended (at_next (AtActor model) t))
  | AtActor model =>
      if negb (env_create_actor env) then failure_path t Downstream w
      else if need_create_pools model
              && ((1 <? length (task_devices t))%nat || (1 <? n_worker args))
      then (w, Suspended (at_next (AtExtraPools model) t))
      else before_load model t w
  | AtExtraPools model =>
      let answers := extra_pool_answers env t in
      let w := gather_append_sub_pools answers w in
      match gathered answers with
      | None => failure_path t Downstream w
      | Some pool_addresses =>
          let t := mkTask args (origin_uid t) (at_stage t) (launch_info t)
                     (has_virtual_env_manager t) (subpool_address t)
                     (task_devices t)
                     (all_subpool_addresses t ++ pool_addresses) in
          if negb (env_set_pool_addresses env) then failure_path t Downstream w
          else before_load model t w
      end
  | AtLoad model =>
      match env_load env with
      | LoadOk =>
          match leave uid (Ok (subpool_address t)) (commit t model w) with
          | (w, Returned (Ok _)) => let '(w, r) := after_commit env t w in (w, Returned r)
          | (w, p) => (w, p)
          end
      | LoadServerClosed =>
          if cancelled t w then failure_path t Cancelled w
          else failure_path t Downstream w
      | LoadFailed => failure_path t Downstream w
      end
  end.

(** The whole coroutine: the steps in turn, with [cancel_launch_model]
    called in between where [env_cancel_at] says so. *)
Fixpoint run_launch (fuel : nat) (env : LaunchEnv) (t : Task) (w : Worker)
    : Worker * option (result string) :=
  match fuel with
  | O => (w, None)
  | S fuel =>
      let w := if env_cancel_at env (stage_index (at_stage t))
               then (cancel_launch_model (env_cancel_update_instance_info env)
                       (model_uid (launch_args t)) w).1
               else w in
      match launch_builtin_model_step env t w with
      | (w, Returned r) => (w, Some r)
      | (w, Suspended t) => run_launch fuel env t w
      end
  end.

Definition launch_builtin_model (env : LaunchEnv) (args : LaunchArgs) (w : Worker)
    : Worker * option (result string) :=
  match launch_builtin_model_begin (env_supervisor env) args w with
  | (w, Raise e) => (w, Some (Raise e))
  | (w, Ok t) => run_launch 7 env t w
  end.

(** *** [launch_rank0_model] *)

(* the call suspends at once, at "await self._main_pool.append_sub_pool()";
   this is the coroutine from the answer of append_sub_pool up to
   "await xo.create_actor(Rank0ModelActor, ...)" *)
Definition launch_rank0_model_begin (answer : option string) (uid : string)
    (w : Worker) : Worker * result Rank0Task :=
  match append_sub_pool answer w with
  | (w, Raise e) => (w, Raise e)
  | (w, Ok address) =>
      ((insert_launching_guard uid w).1, Ok (mkRank0Task uid address))
  end.

(* from the answer of xo.create_actor to the return *)
Definition launch_rank0_model_finish (created : bool) (t : Rank0Task) (w : Worker)
    : Worker * result string :=
  let uid := rep_model_uid t in
  let '(w, r) :=
    if created then
      let w := set_model_uid_to_model
                 (<[uid := mkActorRef Rank0ModelActor uid (rank0_subpool_address t)]>
                    (model_uid_to_model w)) w in
      (set_model_uid_to_addr
         (PyDict.set uid (rank0_subpool_address t) (model_uid_to_addr w)) w,
       Ok (rank0_subpool_address t))
    else
      match remove_sub_pool (rank0_subpool_address t) w with
      | (w, Raise e) => (w, Raise e)
      | (w, Ok _) => (w, Raise Downstream)
      end in
  match del_launching_guard uid w with
  | (w, Ok _) => (w, r)
  | (w, Raise e) => (w, Raise e)
  end.


(** *** [recover_sub_pool] *)

Inductive recovery : Type :=
| NoModelAtAddress                              (* the scan finds no uid *)
| DownDuringLaunch (uid : string)               (* no stored launch args *)
| StopRecreating (uid : string)                 (* the counter is used up *)
| Recreate (uid : string) (args : LaunchArgs).  (* recover_model(launch_args) *)

(** [recover_sub_pool] up to the call of [recover_model]. *)
Definition recover_sub_pool_decide (env : TerminateEnv) (address : string)
    (w : Worker) : Worker * recovery :=
  (* try: remove_sub_pool(address) except Exception: pass *)
  let w := (remove_sub_pool address w).1 in
  match PyDict.first_key_of address (model_uid_to_addr w) with
  | None => (w, NoModelAtAddress)
  | Some uid =>
      match model_uid_to_launch_args w !! uid with
      | None => (w, DownDuringLaunch uid)
      | Some args =>
          (* .get(): None for a missing key and for a stored None *)
          let recover_count := mjoin (model_uid_to_recover_count w !! uid) in
          (* try: terminate_model(uid, is_model_die=True) except Exception: pass *)
          let w := (terminate_model env uid true w).1 in
          match recover_count with
          | Some n =>
              if 0 <? n then
                (set_model_uid_to_recover_count
                   (<[uid := Some (n - 1)]> (model_uid_to_recover_count w)) w,
                 Recreate uid args)
              else (w, StopRecreating uid)
          | None => (w, Recreate uid args)
          end
      end
  end.

(* recover_model: the supervisor reference, then launch_builtin_model with the stored arguments *)
Definition recover_model (env : LaunchEnv) (args : LaunchArgs) (w : Worker)
    : Worker * option (result string) :=
  match get_supervisor_ref (env_supervisor env) w with
  | (w, Raise e) => (w, Some (Raise e))
  | (w, Ok _) => launch_builtin_model env args w
  end.

Definition recover_sub_pool (tenv : TerminateEnv) (env : LaunchEnv)
    (address : string) (w : Worker) : Worker * recovery :=
  match recover_sub_pool_decide tenv address w with
  | (w, Recreate uid args) => ((recover_model env args w).1, Recreate uid args)
  | (w, r) => (w, r)
  end.

End WorkerActor.

(** ** The worker with its suspended coroutines

    The worker serves its callers on one cooperative loop: a launch that
    waits for a collaborator is suspended, and other operations run in
    between.  A [System] is the worker state with the launches that are
    suspended; an [event] is a call that runs up to its return or to its
    next suspension, or the resumption of a suspended launch. *)

Record System : Type := mkSystem {
  worker : Worker;
  launches : list Task;
  (* the calls of launch_rank0_model that wait for their sub-pool *)
  rank0_calls : list string;
  (* those that wait for their actor *)
  rank0_launches : list Rank0Task;
}.

Inductive event : Type :=
| CallLaunch (reachable : bool) (args : LaunchArgs)
| ResumeLaunch (i : nat) (env : LaunchEnv)
| CallLaunchRank0 (uid : string)
| ResumeLaunchRank0SubPool (i : nat) (answer : option string)
| ResumeLaunchRank0 (i : nat) (created : bool)
| CallCancel (pushed : bool) (uid : string)
| CallTerminate (env : TerminateEnv) (uid : string) (is_model_die : bool)
| SubPoolDown (env : TerminateEnv) (reachable : bool) (address : string).

Section Interleaving.

Context (host : Host).

(* a call of launch_builtin_model, up to its first suspension *)
Definition spawn_launch (reachable : bool) (args : LaunchArgs) (s : System) : System :=
  match launch_builtin_model_begin host reachable args (worker s) with
  | (w, Ok t) => mkSystem w (launches s ++ [t]) (rank0_calls s) (rank0_launches s)
  | (w, Raise _) => mkSystem w (launches s) (rank0_calls s) (rank0_launches s)
  end.

Definition react (e : event) (s : System) : System :=
  match e with
  | CallLaunch reachable args => spawn_launch reachable args s
  | ResumeLaunch i env =>
      match launches s !! i with
      | Some t =>
          match launch_builtin_model_step host env t (worker s) with
          | (w, Suspended t') =>
              mkSystem w (<[i := t']> (launches s)) (rank0_calls s) (rank0_launches s)
          | (w, Returned _) =>
              mkSystem w (delete i (launches s)) (rank0_calls s) (rank0_launches s)
          end
      | None => s
      end
  | CallLaunchRank0 uid =>
      mkSystem (worker s) (launches s) (rank0_calls s ++ [uid]) (rank0_launches s)
  | ResumeLaunchRank0SubPool i answer =>
      match rank0_calls s !! i with
      | Some uid =>
          match launch_rank0_model_begin answer uid (worker s) with
          | (w, Ok t) =>
              mkSystem w (launches s) (delete i (rank0_calls s)) (rank0_launches s ++ [t])
          | (w, Raise _) =>
              mkSystem w (launches s) (delete i (rank0_calls s)) (rank0_launches s)
          end
      | None => s
      end
  | ResumeLaunchRank0 i created =>
      match rank0_launches s !! i with
      | Some t =>
          mkSystem (launch_rank0_model_finish created t (worker s)).1
            (launches s) (rank0_calls s) (delete i (rank0_launches s))
      | None => s
      end
  | CallCancel pushed uid =>
      mkSystem (cancel_launch_model host pushed uid (worker s)).1
        (launches s) (rank0_calls s) (rank0_launches s)
  | CallTerminate env uid is_model_die =>
      mkSystem (terminate_model host env uid is_model_die (worker s)).1
        (launches s) (rank0_calls s) (rank0_launches s)
  | SubPoolDown env reachable address =>
      match recover_sub_pool_decide host env address (worker s) with
      | (w, Recreate _ args) =>
          (* recover_model: the supervisor reference, then the launch *)
          match get_supervisor_ref reachable w with
          | (w, Ok _) =>
              spawn_launch reachable args
                (mkSystem w (launches s) (rank0_calls s) (rank0_launches s))
          | (w, Raise _) => mkSystem w (launches s) (rank0_calls s) (rank0_launches s)
          end
      | (w, _) => mkSystem w (launches s) (rank0_calls s) (rank0_launches s)
      end
  end.

Definition run_events (events : list event) (s : System) : System :=
  foldl (λ s e, react e s) s events.

(** When a call of [launch_rank0_model] gets its sub-pool and enters the
    guard, its uid is not in the Model Table (the check that
    [launch_builtin_model] makes for itself before it enters the guard). *)
Fixpoint rank0_calls_fresh (events : list event) (s : System) : Prop :=
  match events with
  | [] => True
  | e :: events =>
      match e with
      | ResumeLaunchRank0SubPool i _ =>
          match rank0_calls s !! i with
          | Some uid => model_uid_to_model (worker s) !! uid = None
          | None => True
          end
      | _ => True
      end
      ∧ rank0_calls_fresh events (react e s)
  end.

(** Repeated sub-pool deaths, each handled by [recover_sub_pool] up to the
    return of the re-launch it starts. *)
Fixpoint sub_pool_deaths (deaths : list (TerminateEnv * LaunchEnv * string))
    (w : Worker) : Worker * list recovery :=
  match deaths with
  | [] => (w, [])
  | (tenv, env, address) :: deaths =>
      let '(w, r) := recover_sub_pool host tenv env address w in
      let '(w, rs) := sub_pool_deaths deaths w in
      (w, r :: rs)
  end.

End Interleaving.

(* the decision is a re-launch of [uid] *)
Definition recreates (uid : string) (r : recovery) : bool :=
  match r with
  | Recreate u _ => bool_decide (u = uid)
  | _ => false
  end.

(* the number of re-launches of [uid] among the decisions of the callback *)
Definition recreations (uid : string) (rs : list recovery) : nat :=
  length (List.filter (recreates uid) rs).

Definition start (gpu_devices : list Z) : System :=
  mkSystem (init_worker gpu_devices) [] [] [].

(** ** Queries on the tables *)

(* what get_model and describe_model raise *)
Inductive query_error : Type :=
| LastError (msg : string)   (* Exception(model_status.last_error) *)
| NotFound.                  (* ValueError "Model not found ..." *)

(* "model_status and model_status.last_error": the error that get_model raises first *)
Definition recorded_error (uid : string) (w : Worker) : option string :=
  match model_uid_to_model_status w !! uid with
  | Some model_status =>
      if (last_error model_status =? "")%string then None
      else Some (last_error model_status)
  | None => None
  end.

Definition get_model (uid : string) (w : Worker) : query_error + ActorRef :=
  match recorded_error uid w with
  | Some msg => inl (LastError msg)
  | None =>
      match model_uid_to_model w !! uid with
      | Some model_ref => inr model_ref
      | None => inl NotFound
      end
  end.

Definition describe_model (uid : string) (w : Worker) : query_error + description :=
  match model_uid_to_model_spec w !! uid with
  | Some model_desc => inr model_desc
  | None => inl NotFound
  end.

Definition get_model_status (uid : string) (w : Worker) : option ModelStatus :=
  model_uid_to_model_status w !! uid.

(* setattr(model_status, k, v): [last_error] is the one field of ModelStatus;
   an attribute of another name is added to the object and read by nothing
   in the worker *)
Definition setattr_model_status (model_status : ModelStatus) (kv : string * string)
    : ModelStatus :=
  if (kv.1 =? "last_error")%string then mkModelStatus kv.2 else model_status.

Definition update_model_status (uid : string) (kwargs : list (string * string))
    (w : Worker) : Worker :=
  match model_uid_to_model_status w !! uid with
  | Some model_status =>
      set_model_uid_to_model_status
        (<[uid := foldl setattr_model_status model_status kwargs]>
           (model_uid_to_model_status w)) w
  | None => w
  end.

(** ** [_prepare_virtual_env] *)

(* the value of a field of the settings or of an entry of the pip
   configuration *)
Inductive pyval : Type :=
| PyNone | PyBool (b : bool) | PyStr (s : string) | PyList (l : list string).

(* bool(v) *)
Definition truthy (v : pyval) : bool :=
  match v with
  | PyNone => false
  | PyBool b => b
  | PyStr s => negb (s =? "")%string
  | PyList l => negb (bool_decide (l = []))
  end.

(* getattr on the fields of an object, in declaration order *)
Fixpoint getattr (k : string) (fields : list (string * pyval)) : option pyval :=
  match fields with
  | [] => None
  | (k', v) :: fields => if decide (k = k') then Some v else getattr k fields
  end.

(* setattr on a field that exists, which is where the worker calls it *)
Fixpoint setattr (k : string) (v : pyval) (fields : list (string * pyval))
    : list (string * pyval) :=
  match fields with
  | [] => []
  | (k', v') :: fields =>
      if decide (k = k') then (k, v) :: fields else (k', v') :: setattr k v fields
  end.

(** [VirtualEnvSettings], a pydantic model: the two fields the worker reads
    by name, and the other fields with their values. *)
Record VirtualEnvSettings : Type := mkVirtualEnvSettings {
  packages : option (list string);
  inherit_pip_config : bool;
  pip_options : list (string * pyval);
}.

(* "if hasattr(settings, k) and not getattr(settings, k): setattr(settings, k, v)"
   where [packages] and [inherit_pip_config] are true at this point *)
Definition inherit_pip_config_item (fields : list (string * pyval))
    (kv : string * pyval) : list (string * pyval) :=
  if (kv.1 =? "packages")%string || (kv.1 =? "inherit_pip_config")%string
  then fields
  else match getattr kv.1 fields with
       | Some v => if truthy v then fields else setattr kv.1 kv.2 fields
       | None => fields
       end.

(** [_prepare_virtual_env]: the settings as the call leaves them, and the
    arguments of [install_packages] when it is called.  [pip_config] is what
    [get_pip_config_args()] returns. *)
Definition prepare_virtual_env (pip_config : list (string * pyval))
    (settings : option VirtualEnvSettings)
    (virtual_env_packages : option (list string))
    : option VirtualEnvSettings * option (list string * list (string * pyval)) :=
  match settings with
  | None => (None, None)
  | Some s =>
      match packages s with
      | None | Some [] => (settings, None)
      | Some pkgs =>
          let conf :=
            if inherit_pip_config s
            then foldl inherit_pip_config_item (pip_options s) pip_config
            else pip_options s in
          (Some (mkVirtualEnvSettings (Some pkgs) (inherit_pip_config s) conf),
           Some (pkgs ++ default [] virtual_env_packages, conf))
      end
  end.

(** ** Scenarios of the specification *)

(** Device-allocator determinism: [total_gpus = [0,1,2,3]], nothing allocated. *)
Definition four_gpus : DeviceMaps := mkDeviceMaps [0; 1; 2; 3] ∅ ∅ ∅.

(** Embedding placement: occupants [{0: A_llm, 1: ∅, 2: B_embed}]. *)
Definition embedding_scenario : DeviceMaps :=
  mkDeviceMaps [0; 1; 2] {[0 := "A_llm"]} {[2 := {["B_embed"]}]} ∅.

(** ** Predicates of the specification *)

(** Some device map refers to the uid: as exclusive owner, as embedding
    tenant, or as user-pinned tenant. *)
Definition holds_device (uid : string) (d : DeviceMaps) : Prop :=
  (∃ dev, gpu_to_model_uid d !! dev = Some uid)
  ∨ (∃ dev uids, gpu_to_embedding_model_uids d !! dev = Some uids ∧ uid ∈ uids)
  ∨ (∃ dev infos type,
       user_specified_gpu_to_model_uids d !! dev = Some infos ∧ (uid, type) ∈ infos).

(** A GPU that [AllocateExclusive] may pick, in the words of the
    specification: it is (a) not in the map from GPU to replica uid, and (b)
    not in the user-pinned map with any non-embedding/rerank model. *)
Definition exclusively_free (d : DeviceMaps) (dev : Z) : Prop :=
  gpu_to_model_uid d !! dev = None
  ∧ set_Forall (λ info : string * string, info.2 = "embedding" ∨ info.2 = "rerank")
      (default ∅ (user_specified_gpu_to_model_uids d !! dev)).

Global Instance exclusively_free_dec d dev : Decision (exclusively_free d dev).
Proof. unfold exclusively_free. apply _. Defined.

(** The free GPUs, in the order of [total_gpus]. *)
Definition free_gpus (d : DeviceMaps) : list Z :=
  filter (exclusively_free d) (total_gpu_devices d).

(** The models that [AllocateForEmbedding] asks about on a GPU, in the words
    of the specification: its current exclusive and user-pinned models. *)
Definition occupant (d : DeviceMaps) (dev : Z) (uid : string) : Prop :=
  gpu_to_model_uid d !! dev = Some uid
  ∨ ∃ type, (uid, type) ∈ default ∅ (user_specified_gpu_to_model_uids d !! dev).

(** The current tenants of a GPU, in the words of the specification: the sum
    of the exclusive, embedding and user-pinned counts. *)
Definition tenant_count (d : DeviceMaps) (dev : Z) : Z :=
  (if gpu_to_model_uid d !! dev is Some _ then 1 else 0)
  + Z.of_nat (size (default ∅ (gpu_to_embedding_model_uids d !! dev)))
  + Z.of_nat (size (default ∅ (user_specified_gpu_to_model_uids d !! dev))).

(** The TERMINATING status of [terminate_model] is pushed when the Status
    Guard is known after the first [get_supervisor_ref]; the push raises when
    the Status Guard does not answer it. *)
Definition terminating_push_raises (env : TerminateEnv) (w : Worker) : bool :=
  status_guard_ref (get_supervisor_ref (term_supervisor env) w).1
  && negb (term_terminating_pushed env).

(** Data-model invariant 1: no uid is both in the Launching Guard and in the
    Model Table. *)
Definition guard_excludes_table (w : Worker) : Prop :=
  ∀ uid, model_uid_launching_guard w !! uid = None
         ∨ model_uid_to_model w !! uid = None.

(** The six tables written at the commit point hold the same in both states. *)
Definition same_tables (w w' : Worker) : Prop :=
  model_uid_to_model w' = model_uid_to_model w
  ∧ model_uid_to_model_spec w' = model_uid_to_model_spec w
  ∧ model_uid_to_model_status w' = model_uid_to_model_status w
  ∧ model_uid_to_addr w' = model_uid_to_addr w
  ∧ model_uid_to_recover_count w' = model_uid_to_recover_count w
  ∧ model_uid_to_launch_args w' = model_uid_to_launch_args w.

(** The stored launch arguments are those of the uid they are stored under. *)
Definition launch_args_keyed (w : Worker) : Prop :=
  map_Forall (λ uid args, model_uid args = uid) (model_uid_to_launch_args w).

(** The recovery budget of [uid] is at most [k]: its counter is a number not
    above [k], or the uid has neither a counter nor stored launch arguments. *)
Definition recover_budget (uid : string) (k : Z) (w : Worker) : Prop :=
  (∃ n, model_uid_to_recover_count w !! uid = Some (Some n) ∧ n ≤ k)
  ∨ (model_uid_to_recover_count w !! uid = None
     ∧ model_uid_to_launch_args w !! uid = None).

(** The values of [n_gpu] that pre-validation lets through. *)
Definition n_gpu_accepted (host : Host) (n : option n_gpu_arg) : Prop :=
  match n with
  | None => True
  | Some (NGpuInt k) => 1 ≤ k ≤ gpu_count host
  | Some (NGpuStr s) => s = "auto"
  end.


(** ** A host and collaborators for the scenarios *)

(* the replica uid is split at its last dash; the part after it is read as
   a decimal numeral; a uid without dash is its own origin, with index -1 *)
Fixpoint split_at_last (c : Ascii.ascii) (s : string) : option (string * string) :=
  match s with
  | EmptyString => None
  | String a s' =>
      match split_at_last c s' with
      | Some (p, q) => Some (String a p, q)
      | None => if Ascii.eqb a c then Some (EmptyString, s') else None
      end
  end.

Fixpoint decimal_value (s : string) (acc : Z) : option Z :=
  match s with
  | EmptyString => Some acc
  | String a s' =>
      let n := Z.of_nat (Ascii.nat_of_ascii a) in
      if (48 <=? n) && (n <=? 57) then decimal_value s' (10 * acc + (n - 48))
      else None
  end.

(** Modelled from the spec: [utils.parse_replica_model_uid], which is not in
    the source at hand ("a utility splits it into (origin_uid,
    replica_index)").  It only instantiates the scenarios: every theorem is
    stated for an arbitrary [Host]. *)
Definition scenario_parse_replica_model_uid (uid : string) : option (string * Z) :=
  match split_at_last (Ascii.ascii_of_nat 45) uid with
  | None => Some (uid, -1)
  | Some (origin, EmptyString) => None
  | Some (origin, index) => (λ n, (origin, n)) <$> decimal_value index 0
  end.

(* four GPUs, the probe answers and "A_llm" is the one vLLM-backed replica,
   every path exists, not macOS, recover limit 1, virtual environments off *)
Definition scenario_host : Host :=
  mkHost 4 (λ uid, Ok (uid =? "A_llm")%string) (λ _ _, 0%nat)
    scenario_parse_replica_model_uid (λ _, true) false (Some 1) false.

(* launch(uid, name="x", type="LLM", n_gpu="auto") *)
Definition scenario_args (uid : string) : LaunchArgs :=
  mkLaunchArgs uid "x" None "LLM" (Some (NGpuStr "auto")) 1 0 false None None None
    false [].

(* the same with n_gpu and gpu_idx given *)
Definition scenario_args_gpu (uid : string) (n : option n_gpu_arg)
    (idx : option gpu_idx_arg) : LaunchArgs :=
  mkLaunchArgs uid "x" None "LLM" n 1 0 false idx None None false [].

(* every collaborator answers; the sub-pool gets [address] *)
Definition scenario_env (address : string) : LaunchEnv :=
  mkLaunchEnv true true (Some address) (Some (mkModelObj false [])) true true []
    true LoadOk true true (λ _, false) true.

(* append_sub_pool raises inside _create_subpool *)
Definition env_append_sub_pool_raises : LaunchEnv :=
  mkLaunchEnv true true None (Some (mkModelObj false [])) true true []
    true LoadOk true true (λ _, false) true.

(* the model needs one pool per device; the first gathered append_sub_pool
   returns "pool-1", the second raises *)
Definition env_second_extra_pool_raises : LaunchEnv :=
  mkLaunchEnv true true (Some "sub-0") (Some (mkModelObj true [])) true true
    [Some "pool-1"; None] true LoadOk true true (λ _, false) true.

(* the supervisor is reached and both status pushes return *)
Definition scenario_terminate_env : TerminateEnv := mkTerminateEnv true None true true.

(** ** Predicates of the properties beyond the specification *)

(** Every key of the three device maps is a GPU of the worker. *)
Definition devices_within_total (d : DeviceMaps) : Prop :=
  (∀ dev, is_Some (gpu_to_model_uid d !! dev) → dev ∈ total_gpu_devices d)
  ∧ (∀ dev, is_Some (gpu_to_embedding_model_uids d !! dev) → dev ∈ total_gpu_devices d)
  ∧ (∀ dev, is_Some (user_specified_gpu_to_model_uids d !! dev)
       → dev ∈ total_gpu_devices d).

(** Every GPU has the same tenants in both device maps; a GPU bound to the
    empty set in a [defaultdict(set)] has the tenants of an unbound one. *)
Definition same_tenants (d d' : DeviceMaps) : Prop :=
  total_gpu_devices d' = total_gpu_devices d
  ∧ gpu_to_model_uid d' = gpu_to_model_uid d
  ∧ (∀ dev, default ∅ (gpu_to_embedding_model_uids d' !! dev)
            = default ∅ (gpu_to_embedding_model_uids d !! dev))
  ∧ (∀ dev, default ∅ (user_specified_gpu_to_model_uids d' !! dev)
            = default ∅ (user_specified_gpu_to_model_uids d !! dev)).

(** The tenant counts of any two GPUs differ by at most one. *)
Definition balanced (d : DeviceMaps) : Prop :=
  ∀ a b, a ∈ total_gpu_devices d → b ∈ total_gpu_devices d →
         existing_cnt d a ≤ existing_cnt d b + 1.

(** The local variables of a suspended launch agree with what the
    collaborators answered at the suspension points it has passed. *)
Definition task_follows (env : LaunchEnv) (t : Task) : Prop :=
  match at_stage t with
  | AtVirtualEnv | AtSubPool => True
  | AtDownload => env_append_sub_pool env = Some (subpool_address t)
  | AtInstall m | AtActor m | AtExtraPools m | AtLoad m =>
      env_append_sub_pool env = Some (subpool_address t)
      ∧ env_create_model_instance env = Some m
  end.

(** Every LaunchInfo of [w] is still there in [w'], and a cancel event that
    was set is still set. *)
Definition flags_kept (w w' : Worker) : Prop :=
  ∀ ref i, launch_infos w !! ref = Some i →
    ∃ i', launch_infos w' !! ref = Some i'
          ∧ (cancel_event i = true → cancel_event i' = true).

(** The tables written at the commit point go together: a uid with a
    description has a model reference, a status record and stored launch
    arguments, one with launch arguments has a recovery counter, and the
    Model Table and the address map bind the same uids. *)
Definition tables_consistent (w : Worker) : Prop :=
  ∀ uid,
    (is_Some (model_uid_to_model_spec w !! uid) → is_Some (model_uid_to_model w !! uid))
    ∧ (is_Some (model_uid_to_model_spec w !! uid)
       → is_Some (model_uid_to_model_status w !! uid))
    ∧ (is_Some (model_uid_to_model_spec w !! uid)
       ↔ is_Some (model_uid_to_launch_args w !! uid))
    ∧ (is_Some (model_uid_to_launch_args w !! uid)
       → is_Some (model_uid_to_recover_count w !! uid))
    ∧ (is_Some (model_uid_to_model w !! uid)
       ↔ is_Some (PyDict.get uid (model_uid_to_addr w))).

(** ** Scenarios of the properties beyond the specification *)

(* two GPUs, the embedding model "e-0" on the first *)
Definition balanced_scenario : DeviceMaps :=
  mkDeviceMaps [0; 1] ∅ {[0 := {["e-0"]}]} ∅.

(* three GPUs: an LLM pinned on GPU 0, an embedding model pinned on GPU 1 *)
Definition pinned_scenario : DeviceMaps :=
  mkDeviceMaps [0; 1; 2] ∅ ∅
    {[0 := {[("p-0", "LLM")]}; 1 := {[("e-0", "embedding")]}]}.

(* the worker after launch("m-0") has returned "sub-0" *)
Definition launched_scenario : Worker :=
  (launch_builtin_model scenario_host (scenario_env "sub-0") (scenario_args "m-0")
     (init_worker [0])).1.

(* every collaborator answers, _get_model_ability raises *)
Definition env_ability_raises : LaunchEnv :=
  mkLaunchEnv true true (Some "sub-0") (Some (mkModelObj false [])) true true []
    true LoadOk false true (λ _, false) true.

(* cancel_launch_model is called while the launch waits for its sub-pool *)
Definition env_cancelled_early : LaunchEnv :=
  mkLaunchEnv true true (Some "sub-0") (Some (mkModelObj false [])) true true []
    true LoadOk true true (λ i, bool_decide (i = 1%nat)) true.

(* settings with one package, an unset and a set option *)
Definition scenario_settings : VirtualEnvSettings :=
  mkVirtualEnvSettings (Some ["torch"]) true
    [("index_url", PyNone); ("extra_index_url", PyStr "https://own")].

Definition scenario_pip_config : list (string * pyval) :=
  [("index_url", PyStr "https://pip"); ("extra_index_url", PyStr "https://other")].

(** ** Proof automation *)

(* closes [same_tables w w'] when the tables of [w'] reduce to those of [w] *)
Ltac same := by repeat split.

(** * Properties *)

(** ** The device accountant *)

Lemma assign_devices_lookup uid devs (m : gmap Z string) dev :
  assign_devices uid devs m !! dev
  = if decide (dev ∈ devs) then Some uid else m !! dev.
Proof.
  unfold assign_devices. revert m.
  induction devs as [|x devs IH]; intros m; simpl.
  - destruct (decide (dev ∈ [])) as [Hin|]; [by apply elem_of_nil in Hin | done].
  - rewrite IH. clear IH. rewrite lookup_insert.
    destruct (decide (dev ∈ devs)) as [Hin|Hnin].
    + by rewrite decide_True by (apply elem_of_cons; auto).
    + destruct (decide (x = dev)) as [->|Hne].
      * by rewrite decide_True by (apply elem_of_cons; auto).
      * rewrite decide_False; [done|].
        rewrite elem_of_cons. intros [|]; congruence.
Qed.

Lemma sorted_Permutation l : sorted l ≡ₚ l.
Proof. apply merge_sort_Permutation. Qed.

Lemma sorted_Sorted l : Sorted Z.le (sorted l).
Proof. apply (Sorted_merge_sort Z.le). Qed.

Lemma NoDup_length_le_size (l : list Z) (X : gset Z) :
  NoDup l → (∀ x, x ∈ l → x ∈ X) → (length l ≤ size X)%nat.
Proof.
  intros Hnd Hsub. rewrite <- (size_list_to_set (C := gset Z) l) by done.
  apply subseteq_size. intros x Hx. apply Hsub. by apply elem_of_list_to_set in Hx.
Qed.

Lemma free_devices_enough d :
  NoDup (total_gpu_devices d) →
  (length (total_gpu_devices d)
   ≤ length (free_devices d)
     + size (dom (gpu_to_model_uid d) ∪ user_specified_allocated_devices d))%nat.
Proof.
  intros Hnd. unfold free_devices.
  set (P := λ dev : Z, gpu_to_model_uid d !! dev = None
                 ∧ dev ∉ user_specified_allocated_devices d).
  rewrite <- (Permutation_length (filter_app_complement P (total_gpu_devices d))).
  rewrite length_app. apply Nat.add_le_mono_l.
  apply NoDup_length_le_size.
  - by apply NoDup_filter.
  - intros x [Hx _]%list_elem_of_filter. unfold P in Hx.
    apply elem_of_union. destruct (gpu_to_model_uid d !! x) eqn:E.
    + left. apply elem_of_dom. eauto.
    + right. destruct (decide (x ∈ user_specified_allocated_devices d)); [done|].
      exfalso. apply Hx. done.
Qed.

Lemma py_slice_to_nonneg {A} (l : list A) n :
  0 ≤ n → py_slice_to l n = take (Z.to_nat n) l.
Proof. intros Hn. unfold py_slice_to. by rewrite (proj2 (Z.leb_le 0 n) Hn). Qed.

Lemma is_embedding_or_rerank_true (type : string) :
  is_embedding_or_rerank type = true ↔ type = "embedding" ∨ type = "rerank".
Proof.
  unfold is_embedding_or_rerank. rewrite orb_true_iff, !String.eqb_eq. done.
Qed.

Lemma allocated_non_embedding_rerank_models_false (infos : gset (string * string)) :
  allocated_non_embedding_rerank_models infos = false ↔
  set_Forall (λ info : string * string, info.2 = "embedding" ∨ info.2 = "rerank") infos.
Proof.
  unfold allocated_non_embedding_rerank_models. split.
  - intros Hex info Hin. apply is_embedding_or_rerank_true.
    destruct (is_embedding_or_rerank info.2) eqn:E; [done|].
    assert (existsb (λ info : string * string, negb (is_embedding_or_rerank info.2))
              (elements infos) = true) as Hex'; [|congruence].
    apply existsb_exists. exists info. split; [|by rewrite E].
    by apply list_elem_of_In, elem_of_elements.
  - intros Hall. apply not_true_is_false.
    intros (info & Hin & Hne)%existsb_exists.
    apply list_elem_of_In, elem_of_elements in Hin.
    apply Hall, is_embedding_or_rerank_true in Hin. by rewrite Hin in Hne.
Qed.

Lemma elem_of_user_specified_allocated_devices d dev :
  dev ∈ user_specified_allocated_devices d ↔
  allocated_non_embedding_rerank_models
    (default ∅ (user_specified_gpu_to_model_uids d !! dev)) = true.
Proof.
  unfold user_specified_allocated_devices. rewrite elem_of_dom.
  destruct (user_specified_gpu_to_model_uids d !! dev) as [s|] eqn:E; simpl.
  - split.
    + intros [x [Hx Hp]%map_lookup_filter_Some]. simpl in Hp.
      rewrite E in Hx. injection Hx as ->. by apply Is_true_true.
    + intros Hp. exists s. apply map_lookup_filter_Some. split; [done|].
      simpl. by apply Is_true_true.
  - split.
    + intros [x [Hx _]%map_lookup_filter_Some]. congruence.
    + unfold allocated_non_embedding_rerank_models. by rewrite elements_empty.
Qed.

(** The comprehension of [allocate_devices] keeps the GPUs that the
    specification calls free. *)
Lemma free_devices_free_gpus d : free_devices d = free_gpus d.
Proof.
  unfold free_devices, free_gpus. apply list_filter_iff. intros dev.
  unfold exclusively_free.
  rewrite elem_of_user_specified_allocated_devices,
    <- allocated_non_embedding_rerank_models_false.
  destruct (allocated_non_embedding_rerank_models _); split; intros [? ?]; by split.
Qed.

(** When every recorded GPU is a GPU of the worker, the count that
    [allocate_devices] compares with [n_gpu] is the number of free GPUs. *)
Lemma free_devices_exact d :
  NoDup (total_gpu_devices d) → devices_within_total d →
  length (total_gpu_devices d)
  = (length (free_devices d)
     + size (dom (gpu_to_model_uid d) ∪ user_specified_allocated_devices d))%nat.
Proof.
  intros Hnd (Hg & _ & Hp). unfold free_devices.
  set (P := λ dev : Z, gpu_to_model_uid d !! dev = None
                 ∧ dev ∉ user_specified_allocated_devices d).
  rewrite <- (Permutation_length (filter_app_complement P (total_gpu_devices d))).
  rewrite length_app. f_equal.
  rewrite <- (size_list_to_set (C := gset Z)) by (by apply NoDup_filter).
  f_equal. apply set_eq. intros x.
  rewrite elem_of_list_to_set, list_elem_of_filter, elem_of_union, elem_of_dom.
  unfold P. split.
  - intros [Hx _]. destruct (gpu_to_model_uid d !! x) eqn:E; [left; eauto|].
    right. destruct (decide (x ∈ user_specified_allocated_devices d)); [done|].
    exfalso. by apply Hx.
  - intros [Hx|Hx].
    + split; [|by apply Hg]. intros [Hnone _]. rewrite Hnone in Hx. by destruct Hx.
    + split; [by intros [_ Hn]|]. apply Hp.
      unfold user_specified_allocated_devices in Hx.
      apply elem_of_dom in Hx as [s [Hs _]%map_lookup_filter_Some]. eauto.
Qed.

(** C4.  The exclusive allocator is deterministic and first-fit in the order
    of [total_gpus].  On [total_gpus = [0,1,2,3]] with nothing allocated,
    [allocate_devices A 2] returns [[0,1]], then [allocate_devices B 1]
    returns [[2]], and after [release_devices A], [allocate_devices C 2]
    returns [[0,1]] again.  In general, a GPU is free when it has no exclusive
    owner and every model pinned on it is an embedding or a rerank model;
    for distinct GPU indices and [0 <= n]: the call raises NoSlot and changes
    nothing when fewer than [n] GPUs of [total_gpus] are free; when at least
    [n] are free (and every recorded GPU is one of [total_gpus]) it returns;
    and a call that returns gives the first [n] free GPUs of [total_gpus],
    sorted ascending, each recorded as owned by the uid and no other entry
    changed. *)
Theorem allocate_devices_first_fit :
  (let '(d1, a) := allocate_devices "A" 2 four_gpus in
   let '(d2, b) := allocate_devices "B" 1 d1 in
   let '(_, c) := allocate_devices "C" 2 (release_devices "A" d2) in
   a = Ok [0; 1] ∧ b = Ok [2] ∧ c = Ok [0; 1])
  ∧ ∀ (uid : string) (n : Z) (d : DeviceMaps),
      NoDup (total_gpu_devices d) → 0 ≤ n →
      let free :=
        filter (λ dev,
                  gpu_to_model_uid d !! dev = None
                  ∧ set_Forall (λ info : string * string,
                                  info.2 = "embedding" ∨ info.2 = "rerank")
                      (default ∅ (user_specified_gpu_to_model_uids d !! dev)))
          (total_gpu_devices d) in
      let chosen := take (Z.to_nat n) free in
      (Z.of_nat (length free) < n →
         allocate_devices uid n d = (d, Raise NoSlot))
      ∧ (devices_within_total d → n ≤ Z.of_nat (length free) →
           ∃ d', allocate_devices uid n d = (d', Ok (sorted chosen)))
      ∧ (∀ d' devs, allocate_devices uid n d = (d', Ok devs) →
           devs = sorted chosen ∧ devs ≡ₚ chosen ∧ Sorted Z.le devs
           ∧ Z.of_nat (length devs) = n
           ∧ (∀ dev, dev ∈ devs →
                dev ∈ total_gpu_devices d ∧ gpu_to_model_uid d !! dev = None
                ∧ (∀ infos info,
                     user_specified_gpu_to_model_uids d !! dev = Some infos →
                     info ∈ infos → info.2 = "embedding" ∨ info.2 = "rerank")
                ∧ gpu_to_model_uid d' !! dev = Some uid)
           ∧ (∀ dev, dev ∉ devs →
                gpu_to_model_uid d' !! dev = gpu_to_model_uid d !! dev)
           ∧ total_gpu_devices d' = total_gpu_devices d
           ∧ gpu_to_embedding_model_uids d' = gpu_to_embedding_model_uids d
           ∧ user_specified_gpu_to_model_uids d' = user_specified_gpu_to_model_uids d).
Proof.
  split; [vm_compute; done|].
  intros uid n d Hnd Hn free chosen.
  assert (free = free_devices d) as Hfree_eq by (by rewrite free_devices_free_gpus).
  pose proof (free_devices_enough d Hnd) as Hfree.
  unfold allocate_devices.
  destruct (Z.ltb_spec
    (Z.of_nat (length (total_gpu_devices d))
     - Z.of_nat (size (dom (gpu_to_model_uid d) ∪ user_specified_allocated_devices d)))
    n) as [Hlt|Hge].
  - split_and!; [done| |by intros d' devs [=]].
    intros Hin Hle. pose proof (free_devices_exact d Hnd Hin). rewrite Hfree_eq in Hle. lia.
  - rewrite py_slice_to_nonneg by done. rewrite <- Hfree_eq. fold chosen.
    split_and!; [rewrite Hfree_eq; intros Hfew; lia|by eauto|].
    intros d' devs [= <- <-].
    assert (Hlen : length chosen = Z.to_nat n).
    { unfold chosen. rewrite length_take, Hfree_eq. lia. }
    assert (Hin : ∀ dev, dev ∈ sorted chosen ↔ dev ∈ chosen).
    { intros dev. by rewrite (sorted_Permutation chosen). }
    split_and!; try done.
    + apply sorted_Permutation.
    + apply sorted_Sorted.
    + rewrite (Permutation_length (sorted_Permutation chosen)). lia.
    + intros dev Hdev%Hin. simpl. rewrite assign_devices_lookup.
      rewrite decide_True by done.
      pose proof (subseteq_take _ _ _ Hdev) as Hdev'.
      apply list_elem_of_filter in Hdev' as [[Hnone Hpin] Htot].
      split_and!; [done..| |done].
      intros infos info Hi Hinfo. rewrite Hi in Hpin. by apply Hpin.
    + intros dev Hdev. simpl. rewrite assign_devices_lookup.
      rewrite decide_False; [done|]. by rewrite <- Hin.
Qed.

Section AccountantFacts.
Variable probe : string → result bool.
Variable order : gset (string * string) → string * string → nat.

Lemma existing_cnt_nonneg d dev : 0 ≤ existing_cnt d dev.
Proof.
  unfold existing_cnt.
  destruct (gpu_to_embedding_model_uids d !! dev),
    (gpu_to_model_uid d !! dev), (user_specified_gpu_to_model_uids d !! dev); lia.
Qed.

(** The count of the selection loop is the tenant count of the
    specification. *)
Lemma existing_cnt_tenant_count d dev : existing_cnt d dev = tenant_count d dev.
Proof.
  unfold existing_cnt, tenant_count.
  destruct (gpu_to_embedding_model_uids d !! dev),
    (gpu_to_model_uid d !! dev), (user_specified_gpu_to_model_uids d !! dev);
    cbn [default from_option id]; rewrite ?size_empty; lia.
Qed.

(** Whatever the order of the iteration, it visits the members of the set. *)
Lemma elem_of_iterate infos info : info ∈ iterate order infos ↔ info ∈ infos.
Proof.
  unfold iterate. rewrite (merge_sort_Permutation _ (elements infos)).
  apply elem_of_elements.
Qed.

Lemma probe_pinned_false l :
  probe_pinned probe l = Ok false ↔ ∀ info, info ∈ l → probe info.1 = Ok false.
Proof.
  induction l as [|x l IH]; simpl.
  - split; [|done]. intros _ info Hin. by apply elem_of_nil in Hin.
  - destruct (probe x.1) as [[|]|e] eqn:E.
    + split; [done|]. intros H. specialize (H x (list_elem_of_here _ _)). congruence.
    + rewrite IH. split.
      * intros H info [->|Hin]%elem_of_cons; [done|by apply H].
      * intros H info Hin. apply H. by apply list_elem_of_further.
    + split; [done|]. intros H. specialize (H x (list_elem_of_here _ _)). congruence.
Qed.

Lemma probe_pinned_outcome l r :
  probe_pinned probe l = r → r ≠ Ok false →
  ∃ info, info ∈ l ∧ probe info.1 = r.
Proof.
  induction l as [|x l IH]; simpl; [by intros <-|].
  destruct (probe x.1) as [[|]|e] eqn:E.
  - intros <- _. exists x. split; [apply list_elem_of_here|done].
  - intros Hr Hne. destruct (IH Hr Hne) as (info & Hin & Hp).
    exists info. split; [by apply list_elem_of_further|done].
  - intros <- _. exists x. split; [apply list_elem_of_here|done].
Qed.

Lemma probe_pinned_answers l :
  (∀ info, info ∈ l → ∃ b, probe info.1 = Ok b) → ∃ b, probe_pinned probe l = Ok b.
Proof.
  induction l as [|x l IH]; simpl; [by eauto|]. intros H.
  destruct (H x (list_elem_of_here _ _)) as [[|] ->]; [by eauto|].
  apply IH. intros info Hin. apply H. by apply list_elem_of_further.
Qed.

Lemma occupant_pinned d dev infos info :
  user_specified_gpu_to_model_uids d !! dev = Some infos → info ∈ infos →
  occupant d dev info.1.
Proof. intros Hi Hin. right. exists info.2. rewrite Hi. by destruct info. Qed.

Lemma has_vllm_model_false d dev :
  has_vllm_model probe order d dev = Ok false ↔
  ∀ uid, occupant d dev uid → probe uid = Ok false.
Proof.
  unfold has_vllm_model, occupant. split.
  - intros Hv uid [Ho|[type Hp]].
    + rewrite Ho in Hv. by destruct (probe uid) as [[|]|].
    + destruct (match gpu_to_model_uid d !! dev with
                | Some u => probe u | None => Ok false end) as [[|]|]; [done| |done].
      destruct (user_specified_gpu_to_model_uids d !! dev) as [infos|];
        [|by apply not_elem_of_empty in Hp].
      cbn [default from_option id] in Hp.
      apply (proj1 (probe_pinned_false _) Hv (uid, type)). by apply elem_of_iterate.
  - intros Hall.
    assert (match gpu_to_model_uid d !! dev with
            | Some u => probe u | None => Ok false end = Ok false) as ->.
    { destruct (gpu_to_model_uid d !! dev) as [u|]; [|done]. apply Hall. by left. }
    destruct (user_specified_gpu_to_model_uids d !! dev) as [infos|] eqn:E; [|done].
    apply probe_pinned_false. intros [uid type] Hin%elem_of_iterate.
    apply Hall. right. by exists type.
Qed.

Lemma has_vllm_model_outcome d dev r :
  has_vllm_model probe order d dev = r → r ≠ Ok false →
  ∃ uid, occupant d dev uid ∧ probe uid = r.
Proof.
  unfold has_vllm_model. intros Hr Hne.
  destruct (gpu_to_model_uid d !! dev) as [u|] eqn:Eo.
  - destruct (probe u) as [[|]|e] eqn:Eu;
      [exists u; split; [by left|congruence]| |exists u; split; [by left|congruence]].
    destruct (user_specified_gpu_to_model_uids d !! dev) as [infos|] eqn:E; [|congruence].
    destruct (probe_pinned_outcome _ _ Hr Hne) as (info & Hin%elem_of_iterate & Hp).
    exists info.1. split; [by eapply occupant_pinned|done].
  - destruct (user_specified_gpu_to_model_uids d !! dev) as [infos|] eqn:E; [|congruence].
    destruct (probe_pinned_outcome _ _ Hr Hne) as (info & Hin%elem_of_iterate & Hp).
    exists info.1. split; [by eapply occupant_pinned|done].
Qed.

Lemma has_vllm_model_answers d dev :
  (∀ uid, occupant d dev uid → ∃ b, probe uid = Ok b) →
  ∃ b, has_vllm_model probe order d dev = Ok b.
Proof.
  intros Hall. unfold has_vllm_model.
  assert (∃ b, match gpu_to_model_uid d !! dev with
               | Some u => probe u | None => Ok false end = Ok b) as [b ->].
  { destruct (gpu_to_model_uid d !! dev) as [u|] eqn:E; [|by eauto].
    apply Hall. by left. }
  destruct b; [by eauto|].
  destruct (user_specified_gpu_to_model_uids d !! dev) as [infos|] eqn:E; [|by eauto].
  apply probe_pinned_answers. intros info Hin%elem_of_iterate.
  apply Hall. by eapply occupant_pinned.
Qed.

Lemma embedding_candidate_has_vllm_model d dev :
  embedding_candidate probe order d dev
  = match has_vllm_model probe order d dev with
    | Raise e => Raise e
    | Ok has_vllm_model => Ok (negb has_vllm_model)
    end.
Proof.
  unfold embedding_candidate, has_vllm_model.
  by destruct (gpu_to_model_uid d !! dev),
    (user_specified_gpu_to_model_uids d !! dev).
Qed.

Lemma embedding_candidate_true d dev :
  embedding_candidate probe order d dev = Ok true ↔
  ∀ uid, occupant d dev uid → probe uid = Ok false.
Proof.
  rewrite embedding_candidate_has_vllm_model, <- has_vllm_model_false.
  destruct (has_vllm_model probe order d dev) as [[|]|]; simpl; split; congruence.
Qed.

Lemma embedding_candidate_false d dev :
  embedding_candidate probe order d dev = Ok false →
  ∃ uid, occupant d dev uid ∧ probe uid = Ok true.
Proof.
  rewrite embedding_candidate_has_vllm_model.
  destruct (has_vllm_model probe order d dev) as [[|]|] eqn:E; simpl; try done.
  intros _. by apply (has_vllm_model_outcome d dev (Ok true)).
Qed.

Lemma embedding_candidate_raise d dev e :
  embedding_candidate probe order d dev = Raise e →
  ∃ uid, occupant d dev uid ∧ probe uid = Raise e.
Proof.
  rewrite embedding_candidate_has_vllm_model.
  destruct (has_vllm_model probe order d dev) as [[|]|e'] eqn:E; simpl; try done.
  intros [= <-]. by apply (has_vllm_model_outcome d dev (Raise e')).
Qed.

Lemma embedding_candidate_answers d dev :
  (∀ uid, occupant d dev uid → ∃ b, probe uid = Ok b) →
  ∃ b, embedding_candidate probe order d dev = Ok b.
Proof.
  intros [b Hb]%has_vllm_model_answers.
  rewrite embedding_candidate_has_vllm_model, Hb. eauto.
Qed.

(** The loop that fills [candidates] keeps, in their order, the devices
    whose test says so. *)
Lemma embedding_candidates_of_ok d devs candidates :
  embedding_candidates_of probe order d devs = Ok candidates →
  candidates
  = filter (λ dev, embedding_candidate probe order d dev = Ok true) devs
  ∧ ∀ dev, dev ∈ devs → ∃ b, embedding_candidate probe order d dev = Ok b.
Proof.
  revert candidates. induction devs as [|x devs IH]; intros candidates; simpl.
  - intros [= <-]. split; [done|]. intros dev Hin. by apply elem_of_nil in Hin.
  - destruct (embedding_candidate probe order d x) as [b|e] eqn:E; [|done].
    destruct (embedding_candidates_of probe order d devs) as [l|e]; [|done].
    intros [= <-]. destruct (IH l eq_refl) as [-> Hall]. split.
    + destruct b.
      * by rewrite filter_cons_True.
      * rewrite filter_cons_False; [done|]. by rewrite E.
    + intros dev [->|Hin]%elem_of_cons; [by eauto|by apply Hall].
Qed.

Lemma embedding_candidates_of_raise d devs e :
  embedding_candidates_of probe order d devs = Raise e →
  ∃ dev, dev ∈ devs ∧ embedding_candidate probe order d dev = Raise e.
Proof.
  induction devs as [|x devs IH]; simpl; [done|].
  destruct (embedding_candidate probe order d x) as [b|e'] eqn:E.
  - destruct (embedding_candidates_of probe order d devs) as [l|e'']; [done|].
    intros [= <-]. destruct (IH eq_refl) as (dev & Hin & Hr).
    exists dev. split; [by apply list_elem_of_further|done].
  - intros [= <-]. exists x. split; [apply list_elem_of_here|done].
Qed.

Lemma embedding_candidates_of_answers d devs :
  (∀ dev, dev ∈ devs → ∃ b, embedding_candidate probe order d dev = Ok b) →
  ∃ candidates, embedding_candidates_of probe order d devs = Ok candidates.
Proof.
  induction devs as [|x devs IH]; simpl; [by eauto|]. intros H.
  destruct (H x (list_elem_of_here _ _)) as [b ->].
  destruct IH as [l ->]; [|by eauto].
  intros dev Hin. apply H. by apply list_elem_of_further.
Qed.

Lemma elem_of_embedding_candidates d candidates dev :
  embedding_candidates probe order d = Ok candidates →
  dev ∈ candidates ↔
  dev ∈ total_gpu_devices d ∧ ∀ uid, occupant d dev uid → probe uid = Ok false.
Proof.
  intros [-> _]%embedding_candidates_of_ok.
  rewrite list_elem_of_filter, embedding_candidate_true. tauto.
Qed.

(** The selection loop keeps a device whose count is minimal so far. *)
Lemma pick_device_from d candidates dev0 :
  let r := foldl (pick_step d) (dev0, existing_cnt d dev0) candidates in
  r.2 = existing_cnt d r.1
  ∧ (r.1 = dev0 ∨ r.1 ∈ candidates)
  ∧ r.2 ≤ existing_cnt d dev0
  ∧ ∀ c, c ∈ candidates → r.2 ≤ existing_cnt d c.
Proof.
  revert dev0. induction candidates as [|x l IH]; intros dev0; simpl.
  - split_and!; [done|by left|lia|]. intros c Hc. by apply elem_of_nil in Hc.
  - pose proof (existing_cnt_nonneg d dev0) as H0.
    assert (pick_step d (dev0, existing_cnt d dev0) x
            = if existing_cnt d x <? existing_cnt d dev0
              then (x, existing_cnt d x) else (dev0, existing_cnt d dev0)) as ->.
    { unfold pick_step. simpl.
      destruct (Z.eqb_spec (existing_cnt d dev0) (-1)) as [Heq|_]; [lia|done]. }
    destruct (Z.ltb_spec (existing_cnt d x) (existing_cnt d dev0)) as [Hlt|Hge].
    + destruct (IH x) as (H1 & H2 & H3 & H4). split_and!; [done| |lia|].
      * right. destruct H2 as [->|]; [left|right]; done.
      * intros c [->|Hc]%elem_of_cons; [done|by apply H4].
    + destruct (IH dev0) as (H1 & H2 & H3 & H4). split_and!; [done| |lia|].
      * destruct H2 as [|]; [by left|right; by right].
      * intros c [->|Hc]%elem_of_cons; [lia|by apply H4].
Qed.

Lemma pick_device_min d candidates :
  candidates ≠ [] →
  (pick_device d candidates).1 ∈ candidates
  ∧ ∀ c, c ∈ candidates →
      existing_cnt d (pick_device d candidates).1 ≤ existing_cnt d c.
Proof.
  destruct candidates as [|x l]; [done|]. intros _.
  unfold pick_device. simpl.
  change (pick_step d (-1, -1) x) with (x, existing_cnt d x).
  destruct (pick_device_from d l x) as (H1 & H2 & H3 & H4).
  rewrite <- H1. split.
  - destruct H2 as [->|]; [left|right]; done.
  - intros c [->|Hc]%elem_of_cons; [done|by apply H4].
Qed.

(** What [allocate_devices_for_embedding] does with the candidates it found. *)
Lemma allocate_devices_for_embedding_ok uid d d' dev :
  allocate_devices_for_embedding probe order uid d = (d', Ok dev) →
  ∃ candidates,
    embedding_candidates probe order d = Ok candidates
    ∧ candidates ≠ []
    ∧ dev = (pick_device d candidates).1
    ∧ d' = set_gpu_to_embedding_model_uids
             (defaultdict_add dev uid (gpu_to_embedding_model_uids d)) d.
Proof.
  unfold allocate_devices_for_embedding.
  destruct (embedding_candidates probe order d) as [candidates|e]; [|done].
  destruct candidates as [|x l]; [done|].
  simpl length. simpl Nat.eqb. cbv iota. intros [= <- <-]. by eauto.
Qed.

Lemma allocate_devices_for_embedding_raise uid d d' e :
  allocate_devices_for_embedding probe order uid d = (d', Raise e) →
  d' = d
  ∧ (embedding_candidates probe order d = Raise e
     ∨ (e = NoSlot ∧ embedding_candidates probe order d = Ok [])).
Proof.
  unfold allocate_devices_for_embedding.
  destruct (embedding_candidates probe order d) as [candidates|e'].
  - destruct candidates as [|x l]; [|done]. simpl. intros [= <- <-]. auto.
  - intros [= <- <-]. auto.
Qed.

End AccountantFacts.

(** C5.  [allocate_devices_for_embedding]: a GPU of [total_gpus] is a
    candidate when the probe says of each of its occupants, its exclusive
    owner and the models pinned on it, that it is not vLLM-backed (a GPU
    with no owner and no pinned model is one).  A call that returns gives a
    candidate whose number of tenants (exclusive, embedding and user-pinned)
    is the least among the candidates, and adds the uid to its embedding
    tenants.  When the probe answers for every occupant, the call raises
    NoSlot if there is no candidate and returns otherwise.  A call that
    raises changes nothing, and it raises NoSlot with no candidate or the
    exception of a probe.  With occupants
    [{0: a vLLM-backed LLM, 1: none, 2: an embedding model}] it returns 1. *)
Theorem allocate_devices_for_embedding_fewest_tenants :
  (∀ (probe : string → result bool)
     (order : gset (string * string) → string * string → nat)
     (uid : string) (d : DeviceMaps),
     let candidate dev :=
       dev ∈ total_gpu_devices d ∧ ∀ u, occupant d dev u → probe u = Ok false in
     (∀ d' dev,
        allocate_devices_for_embedding probe order uid d = (d', Ok dev) →
        candidate dev
        ∧ (∀ c, candidate c → tenant_count d dev ≤ tenant_count d c)
        ∧ d' = set_gpu_to_embedding_model_uids
                 (defaultdict_add dev uid (gpu_to_embedding_model_uids d)) d)
     ∧ ((∀ dev u, dev ∈ total_gpu_devices d → occupant d dev u →
           ∃ b, probe u = Ok b) →
        ((∀ dev, ¬ candidate dev) →
           allocate_devices_for_embedding probe order uid d = (d, Raise NoSlot))
        ∧ ((∃ dev, candidate dev) →
             ∃ d' dev, allocate_devices_for_embedding probe order uid d = (d', Ok dev)))
     ∧ (∀ d' e,
          allocate_devices_for_embedding probe order uid d = (d', Raise e) →
          d' = d
          ∧ ((e = NoSlot ∧ ∀ dev, ¬ candidate dev)
             ∨ ∃ dev u, dev ∈ total_gpu_devices d ∧ occupant d dev u
                        ∧ probe u = Raise e)))
  ∧ (∀ (probe : string → result bool)
       (order : gset (string * string) → string * string → nat),
       probe "A_llm" = Ok true →
       (allocate_devices_for_embedding probe order "X" embedding_scenario).2 = Ok 1).
Proof.
  split.
  - intros probe order uid d candidate. split_and!.
    + intros d' dev (candidates & Hc & Hne & -> & ->)%allocate_devices_for_embedding_ok.
      destruct (pick_device_min d candidates Hne) as [Hin Hmin].
      split_and!; [|intros c Hcand|done].
      * by apply (elem_of_embedding_candidates probe order d candidates).
      * rewrite <- !existing_cnt_tenant_count. apply Hmin.
        by apply (elem_of_embedding_candidates probe order d candidates).
    + intros Hans.
      destruct (embedding_candidates_of_answers probe order d (total_gpu_devices d))
        as [candidates Hc].
      { intros dev Hdev. apply embedding_candidate_answers. intros u. by apply Hans. }
      unfold allocate_devices_for_embedding. fold (embedding_candidates probe order d) in Hc.
      rewrite Hc. split.
      * intros Hnone. destruct candidates as [|x l]; [done|]. exfalso.
        apply (Hnone x), (elem_of_embedding_candidates probe order d _ x Hc).
        apply list_elem_of_here.
      * intros [dev Hdev].
        apply (elem_of_embedding_candidates probe order d _ dev Hc) in Hdev.
        destruct candidates as [|x l]; [by apply elem_of_nil in Hdev|].
        simpl. by eauto.
    + intros d' e [-> [Hr|[-> Hnil]]]%allocate_devices_for_embedding_raise;
        (split; [done|]).
      * right. apply embedding_candidates_of_raise in Hr as (dev & Hdev & Hr).
        apply embedding_candidate_raise in Hr as (u & Hu & Hr). by eauto.
      * left. split; [done|]. intros dev Hdev.
        apply (elem_of_embedding_candidates probe order d _ dev Hnil) in Hdev.
        by apply elem_of_nil in Hdev.
  - intros probe order HA. unfold allocate_devices_for_embedding.
    assert (embedding_candidates probe order embedding_scenario = Ok [1; 2]) as ->.
    { unfold embedding_candidates. cbn [total_gpu_devices embedding_scenario].
      cbn [embedding_candidates_of].
      assert (embedding_candidate probe order embedding_scenario 0 = Ok false) as ->.
      { unfold embedding_candidate, has_vllm_model.
        change (gpu_to_model_uid embedding_scenario !! 0) with (Some "A_llm").
        change (user_specified_gpu_to_model_uids embedding_scenario !! 0)
          with (@None (gset (string * string))).
        cbv beta iota zeta. by rewrite HA. }
      assert (embedding_candidate probe order embedding_scenario 1 = Ok true) as ->
        by done.
      assert (embedding_candidate probe order embedding_scenario 2 = Ok true) as ->
        by done.
      done. }
    reflexivity.
Qed.

Lemma pin_devices_lookup (uid type : string) (idx : list Z)
    (m : gmap Z (gset (string * string))) (i : Z) :
  pin_devices uid type idx m !! i
  = if decide (i ∈ idx) then Some (default ∅ (m !! i) ∪ {[(uid, type)]})
    else m !! i.
Proof.
  unfold pin_devices. revert m.
  induction idx as [|x l IH]; intros m; simpl.
  - destruct (decide (i ∈ [])) as [Hin|]; [by apply elem_of_nil in Hin|done].
  - rewrite IH. clear IH. unfold defaultdict_add. rewrite lookup_insert.
    destruct (decide (x = i)) as [->|Hne].
    + rewrite (decide_True (P := i ∈ i :: l)) by (apply elem_of_cons; auto).
      destruct (decide (i ∈ l)); [|done]. simpl.
      by rewrite <- (assoc_L (∪)), (idemp_L (∪)).
    + destruct (decide (i ∈ l)) as [Hin|Hnin].
      * by rewrite decide_True by (apply elem_of_cons; auto).
      * rewrite decide_False; [done|].
        rewrite elem_of_cons. intros [|]; congruence.
Qed.

Lemma check_gpu_idx_ok (probe : string → result bool) (d : DeviceMaps)
    (idx : list Z) :
  check_gpu_idx probe d idx = Ok tt ↔
  ∀ i rep, i ∈ idx → gpu_to_model_uid d !! i = Some rep → probe rep = Ok false.
Proof.
  induction idx as [|x l IH]; simpl.
  - split; [|done]. intros _ i rep Hin. by apply elem_of_nil in Hin.
  - unfold occupied_with_vllm at 1.
    destruct (gpu_to_model_uid d !! x) as [rep|] eqn:E.
    + destruct (probe rep) as [[|]|e] eqn:Ep.
      * split; [done|]. intros H.
        specialize (H x rep (list_elem_of_here _ _) E). congruence.
      * rewrite IH. split.
        -- intros H i rep' [->|Hin]%elem_of_cons; [congruence|by apply H].
        -- intros H i rep' Hin. apply H. by apply list_elem_of_further.
      * split; [done|]. intros H.
        specialize (H x rep (list_elem_of_here _ _) E). congruence.
    + rewrite IH. split.
      * intros H i rep' [->|Hin]%elem_of_cons; [congruence|by apply H].
      * intros H i rep' Hin. apply H. by apply list_elem_of_further.
Qed.

Lemma check_gpu_idx_raise (probe : string → result bool) (d : DeviceMaps)
    (idx : list Z) (e : error) :
  check_gpu_idx probe d idx = Raise e →
  ∃ i rep, i ∈ idx ∧ gpu_to_model_uid d !! i = Some rep
           ∧ (probe rep = Raise e ∨ (probe rep = Ok true ∧ e = Conflict)).
Proof.
  induction idx as [|x l IH]; simpl; [done|].
  unfold occupied_with_vllm at 1.
  destruct (gpu_to_model_uid d !! x) as [rep|] eqn:E.
  - destruct (probe rep) as [[|]|e'] eqn:Ep.
    + intros [= <-]. exists x, rep. split_and!; [apply list_elem_of_here|done|auto].
    + intros (i & rep' & Hin & Hr)%IH. exists i, rep'.
      split; [by apply list_elem_of_further|done].
    + intros [= <-]. exists x, rep. split_and!; [apply list_elem_of_here|done|auto].
  - intros (i & rep' & Hin & Hr)%IH. exists i, rep'.
    split; [by apply list_elem_of_further|done].
Qed.

(** What [allocate_devices_with_gpu_idx] does: it raises BadDevice when some
    requested index is not in [total_gpus]; else it probes the exclusive
    owners ([gpu_to_model_uid]) of the requested GPUs, and raises Conflict at
    the first that is vLLM-backed or the exception of a probe; in these cases
    no device map changes.  When every owner is probed as not vLLM-backed it
    adds [(uid, model_type)] to the pinned tenants of every requested GPU,
    changes nothing else, and returns the indices sorted ascending. *)
Lemma allocate_devices_with_gpu_idx_pinned
    (probe : string → result bool) (uid type : string) (idx : list Z) (d : DeviceMaps) :
  let r := allocate_devices_with_gpu_idx probe uid type idx d in
  let visible := ∀ i, i ∈ idx → i ∈ total_gpu_devices d in
  let owners_not_vllm :=
    ∀ i rep, i ∈ idx → gpu_to_model_uid d !! i = Some rep → probe rep = Ok false in
  (¬ visible → r = (d, Raise BadDevice))
  ∧ (visible → ¬ owners_not_vllm →
       ∃ e i rep, r = (d, Raise e) ∧ i ∈ idx ∧ gpu_to_model_uid d !! i = Some rep
                  ∧ (probe rep = Raise e ∨ (probe rep = Ok true ∧ e = Conflict)))
  ∧ (visible → owners_not_vllm →
       ∃ d', r = (d', Ok (sorted idx))
         ∧ sorted idx ≡ₚ idx ∧ Sorted Z.le (sorted idx)
         ∧ (∀ i, i ∈ idx →
              user_specified_gpu_to_model_uids d' !! i
              = Some (default ∅ (user_specified_gpu_to_model_uids d !! i)
                      ∪ {[(uid, type)]}))
         ∧ (∀ i, i ∉ idx →
              user_specified_gpu_to_model_uids d' !! i
              = user_specified_gpu_to_model_uids d !! i)
         ∧ total_gpu_devices d' = total_gpu_devices d
         ∧ gpu_to_model_uid d' = gpu_to_model_uid d
         ∧ gpu_to_embedding_model_uids d' = gpu_to_embedding_model_uids d).
Proof.
  intros r visible owners_not_vllm. subst r. unfold allocate_devices_with_gpu_idx.
  assert (Hsub : list_to_set idx ⊆@{gset Z} list_to_set (total_gpu_devices d)
                 ↔ visible).
  { unfold visible. split.
    - intros Hs i Hi. apply (elem_of_list_to_set (C := gset Z)), Hs.
      by apply elem_of_list_to_set.
    - intros Hv i Hi%elem_of_list_to_set. apply elem_of_list_to_set. by apply Hv. }
  destruct (decide (list_to_set idx ⊆@{gset Z} list_to_set (total_gpu_devices d)))
    as [Hs|Hns].
  - rewrite bool_decide_eq_true_2 by done. simpl.
    destruct (check_gpu_idx probe d idx) as [[]|e] eqn:Hocc.
    + pose proof (proj1 (check_gpu_idx_ok _ _ _) Hocc) as Hok.
      split_and!; [intros Hnv; exfalso; apply Hnv, Hsub, Hs|done|].
      intros _ _. eexists. split_and!; [reflexivity| | | | |done..].
      * apply merge_sort_Permutation.
      * apply (Sorted_merge_sort Z.le).
      * intros i Hi. simpl. rewrite pin_devices_lookup. by rewrite decide_True.
      * intros i Hi. simpl. rewrite pin_devices_lookup. by rewrite decide_False.
    + pose proof Hocc as (i & rep & Hin & Hrep & Hp)%check_gpu_idx_raise.
      split_and!; [intros Hnv; exfalso; apply Hnv, Hsub, Hs|by eauto 7|].
      intros _ Hfree. apply (proj2 (check_gpu_idx_ok _ _ _)) in Hfree. congruence.
  - rewrite bool_decide_eq_false_2 by done. simpl.
    split_and!; [done|intros Hv; exfalso; apply Hns, Hsub, Hv..].
Qed.

(** C6.  The check of [allocate_devices_with_gpu_idx] looks at the exclusive
    owner of a requested GPU only.  On [total_gpus = [0,1]] where the
    vLLM-backed replica A_llm was itself pinned on GPU 1, pinning X on GPU 1
    does not raise Conflict: it returns [[1]] and records X beside A_llm,
    although GPU 1 is held by a vLLM-backed replica.  The embedding allocator
    does probe the pinned models: for it GPU 1 is no candidate. *)
Theorem pinned_vllm_tenant_is_not_probed :
  let pinned := mkDeviceMaps [0; 1] ∅ ∅ {[1 := {[("A_llm", "LLM")]}]} in
  let probe := is_model_vllm_backend scenario_host in
  probe "A_llm" = Ok true
  ∧ occupant pinned 1 "A_llm"
  ∧ (allocate_devices_with_gpu_idx probe "X" "LLM" [1] pinned).2 = Ok [1]
  ∧ user_specified_gpu_to_model_uids
      (allocate_devices_with_gpu_idx probe "X" "LLM" [1] pinned).1 !! 1
    = Some {[("A_llm", "LLM"); ("X", "LLM")]}
  ∧ embedding_candidates probe (set_order scenario_host) pinned = Ok [0].
Proof.
  split_and!; [done| |vm_compute; reflexivity| |vm_compute; reflexivity].
  - right. exists "LLM". vm_compute. reflexivity.
  - apply (bool_decide_unpack _). vm_compute. exact I.
Qed.

(** ** Dictionaries and device release *)

Lemma release_devices_clears uid d : ¬ holds_device uid (release_devices uid d).
Proof.
  unfold holds_device, release_devices. simpl.
  intros [(dev & H)|[(dev & uids & H & Hin)|(dev & infos & type & H & Hin)]].
  - apply map_lookup_filter_Some in H as [_ Hne]. by apply Hne.
  - rewrite lookup_fmap in H.
    destruct (gpu_to_embedding_model_uids d !! dev) as [s|]; simplify_eq/=.
    apply elem_of_difference in Hin as [_ Hne]. apply Hne. by apply elem_of_singleton.
  - rewrite lookup_fmap in H.
    destruct (user_specified_gpu_to_model_uids d !! dev) as [s|]; simplify_eq/=.
    apply elem_of_filter in Hin as [Hne _]. by apply Hne.
Qed.

Lemma release_devices_absent uid d :
  ¬ holds_device uid d → release_devices uid d = d.
Proof.
  intros Habs. destruct d as [tot g e u]. unfold release_devices. simpl.
  unfold holds_device in Habs. simpl in Habs. f_equal.
  - apply map_filter_id. intros dev x Hx. simpl. intros ->. apply Habs. left. eauto.
  - apply map_eq. intros dev. rewrite lookup_fmap.
    destruct (e !! dev) as [s|] eqn:E; [|done]. simpl. f_equal.
    apply set_eq. intros x. rewrite elem_of_difference, elem_of_singleton.
    split; [tauto|]. intros Hx. split; [done|]. intros ->.
    apply Habs. right. left. eauto.
  - apply map_eq. intros dev. rewrite lookup_fmap.
    destruct (u !! dev) as [s|] eqn:E; [|done]. simpl. f_equal.
    apply set_eq. intros [x ty]. rewrite elem_of_filter. simpl.
    split; [tauto|]. intros Hx. split; [|done]. intros ->.
    apply Habs. right. right. eauto.
Qed.

Lemma PyDict_get_pop (k k' : string) (d : PyDict.t) :
  PyDict.get k' (PyDict.pop k d) = if decide (k' = k) then None else PyDict.get k' d.
Proof.
  induction d as [|[k0 v0] d IH]; simpl.
  - by destruct (decide (k' = k)).
  - destruct (decide (k = k0)) as [->|Hne]; simpl.
    + rewrite IH. destruct (decide (k' = k0)); done.
    + rewrite IH. destruct (decide (k' = k0)) as [->|]; [|done].
      by rewrite decide_False.
Qed.

Lemma PyDict_get_set (k k' v : string) (d : PyDict.t) :
  PyDict.get k' (PyDict.set k v d) = if decide (k' = k) then Some v else PyDict.get k' d.
Proof.
  induction d as [|[k0 v0] d IH]; simpl.
  - destruct (decide (k' = k)); done.
  - destruct (decide (k = k0)) as [->|Hne]; simpl.
    + destruct (decide (k' = k0)); done.
    + rewrite IH. destruct (decide (k' = k0)) as [->|]; [|done].
      by rewrite decide_False.
Qed.

Lemma PyDict_pop_absent (k : string) (d : PyDict.t) :
  PyDict.get k d = None → PyDict.pop k d = d.
Proof.
  induction d as [|[k0 v0] d IH]; simpl; [done|].
  destruct (decide (k = k0)); [done|]. intros H. by rewrite IH.
Qed.


Lemma set_main_pool_id w : set_main_pool (main_pool w) w = w.
Proof. by destruct w. Qed.

Lemma set_main_pool_twice a b w : set_main_pool a (set_main_pool b w) = set_main_pool a w.
Proof. done. Qed.

Section TerminateFacts.
Context (host : Host).

Lemma remove_sub_pool_frame address w :
  (remove_sub_pool address w).1
  = set_main_pool (main_pool (remove_sub_pool address w).1) w.
Proof.
  unfold remove_sub_pool. destruct (decide (address ∈ main_pool w)); simpl; [done|].
  by rewrite set_main_pool_id.
Qed.

Lemma remove_sub_pools_frame addresses w :
  remove_sub_pools addresses w
  = set_main_pool (main_pool (remove_sub_pools addresses w)) w.
Proof.
  unfold remove_sub_pools. revert w.
  induction addresses as [|a l IH]; intros w; simpl.
  - by rewrite set_main_pool_id.
  - rewrite IH. rewrite (remove_sub_pool_frame a w) at 2. done.
Qed.

Lemma gather_remove_sub_pools_fst addresses w :
  (gather_remove_sub_pools addresses w).1 = remove_sub_pools addresses w.
Proof.
  unfold gather_remove_sub_pools, remove_sub_pools.
  generalize (Ok tt : result unit). revert w.
  induction addresses as [|a l IH]; intros w r; simpl; [done|].
  unfold gather_step at 2. simpl. apply IH.
Qed.

(** C8.  For a uid in the Launching Guard, [terminate_model] raises Busy and
    returns the worker state it was given: guard, Model Table, device maps,
    sub-pools and the Status Guard's log are unchanged. *)
Theorem terminate_model_while_launching
    (env : TerminateEnv) (uid : string) (is_model_die : bool) (w : Worker) :
  is_Some (model_uid_launching_guard w !! uid) →
  terminate_model host env uid is_model_die w = (w, Raise Busy).
Proof. intros [ref Href]. unfold terminate_model. by rewrite Href. Qed.

Lemma get_supervisor_ref_fst reachable w :
  (get_supervisor_ref reachable w).1 = w
  ∨ (get_supervisor_ref reachable w).1 = set_refs true true w.
Proof.
  unfold get_supervisor_ref.
  destruct (supervisor_ref w), reachable; simpl; auto.
Qed.

Lemma get_supervisor_ref_connects reachable w :
  status_guard_ref w = true ∨ (supervisor_ref w = false ∧ reachable = true) →
  status_guard_ref (get_supervisor_ref reachable w).1 = true.
Proof.
  unfold get_supervisor_ref.
  intros [H|[-> ->]]; [|done].
  destruct (supervisor_ref w), reachable; simpl; auto.
Qed.

Lemma terminate_remove_sub_pools_frame uid pool_addresses w :
  terminate_remove_sub_pools uid pool_addresses w
  = set_main_pool (main_pool (terminate_remove_sub_pools uid pool_addresses w)) w.
Proof.
  unfold terminate_remove_sub_pools.
  destruct (PyDict.get uid (model_uid_to_addr w)).
  - rewrite gather_remove_sub_pools_fst. apply remove_sub_pools_frame.
  - by rewrite set_main_pool_id.
Qed.

Lemma update_instance_info_fst returns uid status w :
  (update_instance_info returns uid status w).1
  = set_status_guard (status_guard (update_instance_info returns uid status w).1) w.
Proof. unfold update_instance_info. destruct returns; simpl; [done|by destruct w]. Qed.

Lemma terminate_finally_connected env uid origin is_model_die w :
  status_guard_ref w = true →
  term_final_pushed env = true →
  ∃ w',
    terminate_finally env uid origin is_model_die w = (w', Ok tt)
    ∧ status_guard w'
      = status_guard w ++ [(origin, if is_model_die then ERROR else TERMINATED)]
    ∧ status_guard_ref w' = true
    ∧ model_uid_launching_guard w' = model_uid_launching_guard w
    ∧ main_pool w' = main_pool w
    ∧ devices w' = release_devices uid (devices w)
    ∧ model_uid_to_model w' = delete uid (model_uid_to_model w)
    ∧ model_uid_to_model_spec w' = delete uid (model_uid_to_model_spec w)
    ∧ model_uid_to_addr w' = PyDict.pop uid (model_uid_to_addr w)
    ∧ model_uid_to_recover_count w' = delete uid (model_uid_to_recover_count w)
    ∧ model_uid_to_launch_args w' = delete uid (model_uid_to_launch_args w).
Proof.
  intros Hsg Hpush. unfold terminate_finally, update_instance_info. rewrite Hpush.
  destruct is_model_die; simpl; rewrite Hsg; simpl; rewrite Hsg;
    eexists; (split; [reflexivity|]); simpl; split_and!; done.
Qed.

(** Terminating a uid that is neither launching nor in the Model Table, when
    the Status Guard is reached and its two calls return. *)
Lemma terminate_model_unknown
    (env : TerminateEnv) (uid origin : string) (is_model_die : bool) (w : Worker) :
  model_uid_launching_guard w !! uid = None →
  model_uid_to_model w !! uid = None →
  terminate_origin_uid host uid = Some origin →
  status_guard_ref w = true ∨ (supervisor_ref w = false ∧ term_supervisor env = true) →
  term_terminating_pushed env = true →
  term_final_pushed env = true →
  ∃ w',
    terminate_model host env uid is_model_die w = (w', Ok tt)
    ∧ status_guard w'
      = status_guard w
        ++ [(origin, TERMINATING); (origin, if is_model_die then ERROR else TERMINATED)]
    ∧ status_guard_ref w' = true
    ∧ model_uid_launching_guard w' = model_uid_launching_guard w
    ∧ devices w' = release_devices uid (devices w)
    ∧ model_uid_to_model w' = delete uid (model_uid_to_model w)
    ∧ model_uid_to_model_spec w' = delete uid (model_uid_to_model_spec w)
    ∧ model_uid_to_addr w' = PyDict.pop uid (model_uid_to_addr w)
    ∧ model_uid_to_recover_count w' = delete uid (model_uid_to_recover_count w)
    ∧ model_uid_to_launch_args w' = delete uid (model_uid_to_launch_args w)
    ∧ (PyDict.get uid (model_uid_to_addr w) = None → main_pool w' = main_pool w).
Proof.
  intros Hguard Hmodel Horigin Hsg Hpush1 Hpush2.
  unfold terminate_model. rewrite Hguard, Horigin.
  pose proof (get_supervisor_ref_connects _ _ Hsg) as Hconn.
  set (w1 := (get_supervisor_ref (term_supervisor env) w).1) in *.
  assert (Hsame : w1 = set_refs (supervisor_ref w1) (status_guard_ref w1) w).
  { destruct (get_supervisor_ref_fst (term_supervisor env) w) as [H|H];
      subst w1; rewrite H; [by destruct w|done]. }
  rewrite Hconn, Hpush1. unfold update_instance_info at 1. cbn zeta iota beta.
  set (w2 := set_status_guard (status_guard w1 ++ [(origin, TERMINATING)]) w1).
  set (w3 := terminate_remove_sub_pools uid _ w2).
  pose proof (terminate_remove_sub_pools_frame uid
    (match model_uid_to_model w2 !! uid with
     | Some _ => term_pool_addresses env | None => None end) w2) as Hw3.
  fold w3 in Hw3.
  destruct (terminate_finally_connected env uid origin is_model_die w3)
    as (w' & -> & Hst & Hsg' & Hg & Hp & Hd & Hm & Hsp & Ha & Hc & Hl);
    [by rewrite Hw3|done|].
  exists w'. split; [done|].
  rewrite Hst, Hd, Hm, Hsp, Ha, Hc, Hl, Hg, Hp.
  rewrite Hw3. subst w2. simpl. rewrite Hsame. simpl.
  split_and!; try done.
  - by rewrite <- app_assoc.
  - intros Hnone. subst w3. unfold terminate_remove_sub_pools.
    simpl. rewrite Hsame. simpl. by rewrite Hnone.
Qed.

(** When the Status Guard is reached and its calls return, [terminate_model]
    on a uid that is neither in the Launching Guard nor in the Model Table
    does what the specification asks of it: it does not raise, sends
    TERMINATING and then ERROR (when [is_model_die]) or TERMINATED, and
    leaves no entry for the uid; a second call does not raise either, sends
    the two statuses again and changes none of the tables, nor the device
    maps, the sub-pools or the guard. *)
Lemma terminate_model_idempotent
    (env env2 : TerminateEnv) (uid origin : string) (is_model_die again_die : bool)
    (w : Worker) :
  model_uid_launching_guard w !! uid = None →
  model_uid_to_model w !! uid = None →
  terminate_origin_uid host uid = Some origin →
  status_guard_ref w = true ∨ (supervisor_ref w = false ∧ term_supervisor env = true) →
  term_terminating_pushed env = true → term_final_pushed env = true →
  term_terminating_pushed env2 = true → term_final_pushed env2 = true →
  ∃ w' w'',
    terminate_model host env uid is_model_die w = (w', Ok tt)
    ∧ status_guard w'
      = status_guard w
        ++ [(origin, TERMINATING); (origin, if is_model_die then ERROR else TERMINATED)]
    ∧ model_uid_to_model w' !! uid = None
    ∧ model_uid_to_model_spec w' !! uid = None
    ∧ PyDict.get uid (model_uid_to_addr w') = None
    ∧ model_uid_to_recover_count w' !! uid = None
    ∧ model_uid_to_launch_args w' !! uid = None
    ∧ ¬ holds_device uid (devices w')
    ∧ terminate_model host env2 uid again_die w' = (w'', Ok tt)
    ∧ status_guard w''
      = status_guard w'
        ++ [(origin, TERMINATING); (origin, if again_die then ERROR else TERMINATED)]
    ∧ devices w'' = devices w'
    ∧ model_uid_to_model w'' = model_uid_to_model w'
    ∧ model_uid_to_model_spec w'' = model_uid_to_model_spec w'
    ∧ model_uid_to_addr w'' = model_uid_to_addr w'
    ∧ model_uid_to_recover_count w'' = model_uid_to_recover_count w'
    ∧ model_uid_to_launch_args w'' = model_uid_to_launch_args w'
    ∧ main_pool w'' = main_pool w'
    ∧ model_uid_launching_guard w'' = model_uid_launching_guard w'.
Proof.
  intros Hguard Hmodel Horigin Hsg Hpush1 Hpush2 Hpush3 Hpush4.
  destruct (terminate_model_unknown env uid origin is_model_die w)
    as (w' & Ht & Hst & Hsg' & Hg & Hd & Hm & Hsp & Ha & Hc & Hl & _); try done.
  assert (A1 : model_uid_to_model w' !! uid = None) by (by rewrite Hm, lookup_delete_eq).
  assert (A2 : model_uid_to_model_spec w' !! uid = None) by (by rewrite Hsp, lookup_delete_eq).
  assert (A3 : PyDict.get uid (model_uid_to_addr w') = None).
  { by rewrite Ha, PyDict_get_pop, decide_True. }
  assert (A4 : model_uid_to_recover_count w' !! uid = None) by (by rewrite Hc, lookup_delete_eq).
  assert (A5 : model_uid_to_launch_args w' !! uid = None) by (by rewrite Hl, lookup_delete_eq).
  assert (A6 : ¬ holds_device uid (devices w')).
  { rewrite Hd. apply release_devices_clears. }
  destruct (terminate_model_unknown env2 uid origin again_die w')
    as (w'' & Ht2 & Hst2 & _ & Hg2 & Hd2 & Hm2 & Hsp2 & Ha2 & Hc2 & Hl2 & Hp2);
    [by rewrite Hg|done|done|by left|done|done|].
  exists w', w''. split_and!; try done.
  - rewrite Hd2. by apply release_devices_absent.
  - rewrite Hm2. by apply delete_id.
  - rewrite Hsp2. by apply delete_id.
  - rewrite Ha2. by apply PyDict_pop_absent.
  - rewrite Hc2. by apply delete_id.
  - rewrite Hl2. by apply delete_id.
  - by apply Hp2.
Qed.

End TerminateFacts.

(** C9.  [terminate_model] is not idempotent without raising.  For the
    unknown uid u-0 on a worker that holds no reference to the supervisor,
    with the supervisor out of reach: the failure of [get_supervisor_ref] in
    the first try block is caught, no TERMINATING is sent, and the call to
    [get_supervisor_ref] in the finally block raises; nothing has been sent
    to the Status Guard.  And when u-0 has been terminated once, with every
    collaborator answering, a second call in which the TERMINATING push
    raises does raise, and sends nothing. *)
Theorem terminate_model_raises_for_unknown_uid :
  let unreachable := mkTerminateEnv false None true true in
  let push_raises := mkTerminateEnv true None false true in
  let w := init_worker [0] in
  let r := terminate_model scenario_host unreachable "u-0" false w in
  let w1 := (terminate_model scenario_host scenario_terminate_env "u-0" false w).1 in
  let r2 := terminate_model scenario_host push_raises "u-0" false w1 in
  model_uid_launching_guard w !! "u-0" = None
  ∧ model_uid_to_model w !! "u-0" = None
  ∧ r.2 = Raise Transient
  ∧ status_guard r.1 = []
  ∧ (terminate_model scenario_host scenario_terminate_env "u-0" false w).2 = Ok tt
  ∧ status_guard w1 = [("u", TERMINATING); ("u", TERMINATED)]
  ∧ r2.2 = Raise Downstream
  ∧ status_guard r2.1 = status_guard w1.
Proof. vm_compute. done. Qed.

(** ** The launch pipeline, step by step *)

(** ** The exits of a launch *)

Lemma set_model_uid_launching_guard_id w :
  set_model_uid_launching_guard (model_uid_launching_guard w) w = w.
Proof. by destruct w. Qed.

Lemma del_launching_guard_fst uid w :
  (del_launching_guard uid w).1
  = set_model_uid_launching_guard (delete uid (model_uid_launching_guard w)) w.
Proof.
  unfold del_launching_guard.
  destruct (model_uid_launching_guard w !! uid) eqn:E; simpl; [done|].
  by rewrite delete_id, set_model_uid_launching_guard_id.
Qed.

Lemma leave_fst uid r w :
  (leave uid r w).1
  = set_model_uid_launching_guard (delete uid (model_uid_launching_guard w)) w.
Proof.
  unfold leave. rewrite <- del_launching_guard_fst.
  by destruct (del_launching_guard uid w) as [w' []].
Qed.

Lemma leave_returns uid r w : ∃ r', (leave uid r w).2 = Returned r'.
Proof.
  unfold leave. destruct (del_launching_guard uid w) as [w' []]; simpl; eauto.
Qed.

Lemma append_sub_pool_frame answer w :
  (append_sub_pool answer w).1
  = set_main_pool (main_pool (append_sub_pool answer w).1) w.
Proof. destruct answer; simpl; [done|]. by rewrite set_main_pool_id. Qed.

Lemma gather_append_sub_pools_frame answers w :
  gather_append_sub_pools answers w
  = set_main_pool (main_pool (gather_append_sub_pools answers w)) w.
Proof.
  unfold gather_append_sub_pools. revert w.
  induction answers as [|a l IH]; intros w; simpl.
  - by rewrite set_main_pool_id.
  - rewrite IH. rewrite (append_sub_pool_frame a w) at 2. done.
Qed.

Lemma main_pool_remove_sub_pools_devices l d w :
  main_pool (remove_sub_pools l (set_devices d w)) = main_pool (remove_sub_pools l w).
Proof.
  unfold remove_sub_pools. revert w.
  induction l as [|a l IH]; intros w; simpl; [done|].
  rewrite (remove_sub_pool_frame a (set_devices d w)), (remove_sub_pool_frame a w).
  assert (main_pool (remove_sub_pool a (set_devices d w)).1
          = main_pool (remove_sub_pool a w).1) as ->.
  { unfold remove_sub_pool. simpl. by destruct (decide (a ∈ main_pool w)). }
  apply (IH (set_main_pool _ w)).
Qed.

Lemma failure_path_fst t e w :
  (failure_path t e w).1
  = set_model_uid_launching_guard
      (delete (model_uid (launch_args t)) (model_uid_launching_guard w))
      (set_main_pool
         (main_pool (remove_sub_pools (all_subpool_addresses t) w))
         (set_devices (release_devices (model_uid (launch_args t)) (devices w)) w)).
Proof.
  unfold failure_path. rewrite leave_fst.
  rewrite (remove_sub_pools_frame (all_subpool_addresses t)).
  unfold release_worker_devices.
  rewrite main_pool_remove_sub_pools_devices. done.
Qed.

Lemma failure_path_returns t e w : ∃ r, (failure_path t e w).2 = Returned (Raise r).
Proof.
  unfold failure_path, leave.
  destruct (del_launching_guard _ _) as [w' []]; simpl; eauto.
Qed.

Section LaunchFacts.
Context (host : Host).

Lemma after_commit_frame env t w :
  let w' := (after_commit env t w).1 in
  w' = set_status_guard (status_guard w')
         (set_refs (supervisor_ref w') (status_guard_ref w') w).
Proof.
  unfold after_commit, get_supervisor_ref, update_instance_info.
  destruct (env_model_ability env); simpl; [|by destruct w].
  destruct (supervisor_ref w) eqn:Es; simpl.
  - destruct (status_guard_ref w) eqn:Eg, (env_update_instance_info env); simpl;
      destruct w; simpl in *; subst; reflexivity.
  - destruct (env_supervisor env), (env_update_instance_info env); simpl;
      destruct w; simpl in *; subst; reflexivity.
Qed.

Lemma before_load_fst model t w :
  (before_load model t w).1 = (failure_path t Cancelled w).1
  ∨ (before_load model t w).1
    = update_launch_info (launch_info t) (set_sub_pools (all_subpool_addresses t)) w.
Proof. unfold before_load. destruct (cancelled t w); auto. Qed.

Lemma same_tables_refl w : same_tables w w.
Proof. by repeat split. Qed.

Lemma same_tables_trans w1 w2 w3 :
  same_tables w1 w2 → same_tables w2 w3 → same_tables w1 w3.
Proof.
  unfold same_tables. intros (?&?&?&?&?&?) (?&?&?&?&?&?).
  repeat split; congruence.
Qed.

Lemma same_tables_commit t m w1 w2 :
  same_tables w1 w2 → same_tables (commit host t m w1) (commit host t m w2).
Proof.
  unfold same_tables, commit. simpl. intros (->&->&->&->&->&->). done.
Qed.

(** What a step of the launch does to the tables and to the guard: the
    tables are left as they are and at most the launch's own guard entry is
    removed, or the tables are committed and the guard entry is removed. *)
Lemma launch_step_tables env t w :
  let uid := model_uid (launch_args t) in
  let w' := (launch_builtin_model_step host env t w).1 in
  (same_tables w w'
   ∧ (model_uid_launching_guard w' = model_uid_launching_guard w
      ∨ model_uid_launching_guard w' = delete uid (model_uid_launching_guard w)))
  ∨ (∃ m, at_stage t = AtLoad m
     ∧ same_tables (commit host t m w) w'
     ∧ model_uid_launching_guard w' = delete uid (model_uid_launching_guard w)).
Proof.
  intros uid w'. subst w'. unfold launch_builtin_model_step. cbv zeta. fold uid.
  destruct (at_stage t) as [| | |m|m|m|m].
  - destruct (env_create_virtual_env env); simpl.
    + destruct (create_subpool_devices _ _ _ _ _ _) as [d [devs|e]]; simpl.
      * left. split; [same|auto].
      * rewrite leave_fst. left. split; [same|auto].
    + rewrite leave_fst. left. split; [same|auto].
  - destruct (env_append_sub_pool env); simpl.
    + left. split; [same|auto].
    + rewrite leave_fst. left. split; [same|auto].
  - destruct (env_create_model_instance env).
    + destruct (cancelled t w); [rewrite failure_path_fst; left; split; [same|auto]|].
      destruct (has_virtual_env_manager t); left; split; solve [same|auto].
    + rewrite failure_path_fst; left; split; [same|auto].
  - destruct (env_prepare_virtual_env env); simpl.
    + destruct (cancelled _ _); [rewrite failure_path_fst|]; left; split; solve [same|auto].
    + rewrite failure_path_fst; left; split; [same|auto].
  - destruct (env_create_actor env); simpl;
      [|rewrite failure_path_fst; left; split; [same|auto]].
    destruct (_ && _); [left; split; [same|auto]|].
    destruct (before_load_fst m t w) as [-> | ->];
      [rewrite failure_path_fst|]; left; split; solve [same|auto].
  - rewrite (gather_append_sub_pools_frame (extra_pool_answers env t) w).
    set (w1 := set_main_pool _ w).
    destruct (gathered _) as [pool_addresses|];
      [|rewrite failure_path_fst; left; split; [same|auto]].
    destruct (env_set_pool_addresses env); simpl;
      [|rewrite failure_path_fst; left; split; [same|auto]].
    match goal with |- context [before_load m ?t' w1] =>
      destruct (before_load_fst m t' w1) as [-> | ->] end;
      [rewrite failure_path_fst|]; left; split; solve [same|auto].
  - destruct (env_load env).
    + right. exists m. split; [done|].
      pose proof (leave_fst uid (Ok (subpool_address t)) (commit host t m w)) as Hl.
      destruct (leave uid (Ok (subpool_address t)) (commit host t m w))
        as [w1 [t1|[a|e]]] eqn:El; simpl in Hl; subst w1.
      * split; [same|done].
      * pose proof (after_commit_frame env t
          (set_model_uid_launching_guard
             (delete uid (model_uid_launching_guard (commit host t m w)))
             (commit host t m w))) as Hac.
        destruct (after_commit env t _) as [w2 r2]. simpl in Hac. rewrite Hac.
        split; [same|done].
      * split; [same|done].
    + destruct (cancelled t w); rewrite failure_path_fst; left; split; solve [same|auto].
    + rewrite failure_path_fst; left; split; [same|auto].
Qed.

(** A step either suspends the launch further down the pipeline, or returns
    with the launch's guard entry removed. *)
Lemma launch_step_progress env t w :
  match (launch_builtin_model_step host env t w).2 with
  | Suspended t' =>
      launch_args t' = launch_args t
      ∧ (stage_index (at_stage t) < stage_index (at_stage t'))%nat
  | Returned _ =>
      model_uid_launching_guard (launch_builtin_model_step host env t w).1
        !! model_uid (launch_args t) = None
  end.
Proof.
  assert (Hleave : ∀ uid r w0,
    ∃ r', (leave uid r w0).2 = Returned r'
          ∧ model_uid_launching_guard (leave uid r w0).1 !! uid = None).
  { intros uid r w0. rewrite leave_fst. simpl.
    destruct (leave_returns uid r w0) as [r' ->]. eexists. split; [done|].
    apply lookup_delete_eq. }
  assert (Hfail : ∀ t0 e w0,
    ∃ r', (failure_path t0 e w0).2 = Returned r'
          ∧ model_uid_launching_guard (failure_path t0 e w0).1
              !! model_uid (launch_args t0) = None).
  { intros t0 e w0. unfold failure_path. apply Hleave. }
  assert (Hload : ∀ m t0 w0, launch_args t0 = launch_args t →
    (stage_index (at_stage t) < 6)%nat →
    match (before_load m t0 w0).2 with
    | Suspended t' =>
        launch_args t' = launch_args t
        ∧ (stage_index (at_stage t) < stage_index (at_stage t'))%nat
    | Returned _ =>
        model_uid_launching_guard (before_load m t0 w0).1
          !! model_uid (launch_args t) = None
    end).
  { intros m t0 w0 Ha Hlt. unfold before_load.
    destruct (cancelled t0 w0).
    - destruct (Hfail t0 Cancelled w0) as (r' & -> & H). by rewrite <- Ha.
    - simpl. split; [done|lia]. }
  unfold launch_builtin_model_step. cbv zeta.
  destruct (at_stage t) as [| | |m|m|m|m] eqn:Est.
  - destruct (env_create_virtual_env env); simpl.
    + destruct (create_subpool_devices _ _ _ _ _ _) as [d [devs|e]]; simpl.
      * split; [done|lia].
      * by destruct (Hleave (model_uid (launch_args t)) (@Raise string e)
                       (set_devices d w)) as (r' & -> & H).
    + by destruct (Hleave (model_uid (launch_args t)) (@Raise string Downstream) w)
        as (r' & -> & H).
  - destruct (env_append_sub_pool env); simpl.
    + split; [done|lia].
    + by destruct (Hleave (model_uid (launch_args t)) (@Raise string Downstream) w)
        as (r' & -> & H).
  - destruct (env_create_model_instance env);
      [|by destruct (Hfail t Downstream w) as (r' & -> & H)].
    destruct (cancelled t w); [by destruct (Hfail t Cancelled w) as (r' & -> & H)|].
    destruct (has_virtual_env_manager t); simpl; (split; [done|lia]).
  - destruct (env_prepare_virtual_env env); simpl;
      [|by destruct (Hfail t Downstream w) as (r' & -> & H)].
    destruct (cancelled _ _).
    + match goal with |- context [failure_path t Cancelled ?w0] =>
        by destruct (Hfail t Cancelled w0) as (r' & -> & H) end.
    + simpl. split; [done|lia].
  - destruct (env_create_actor env); simpl;
      [|by destruct (Hfail t Downstream w) as (r' & -> & H)].
    destruct (_ && _); [simpl; split; [done|lia]|].
    apply Hload; rewrite ?Est; simpl; try done; lia.
  - destruct (gathered _) as [pool_addresses|].
    + destruct (env_set_pool_addresses env); simpl.
      * apply Hload; rewrite ?Est; simpl; try done; lia.
      * match goal with |- context [failure_path ?t0 Downstream ?w0] =>
          by destruct (Hfail t0 Downstream w0) as (r' & -> & H) end.
    + match goal with |- context [failure_path ?t0 Downstream ?w0] =>
        by destruct (Hfail t0 Downstream w0) as (r' & -> & H) end.
  - destruct (env_load env).
    + destruct (Hleave (model_uid (launch_args t)) (Ok (subpool_address t))
                  (commit host t m w)) as (r' & Hr & Hl).
      destruct (leave _ _ _) as [w1 p]; simpl in *. subst p.
      destruct r' as [a|e]; [|done].
      pose proof (after_commit_frame env t w1) as Hac.
      destruct (after_commit env t w1) as [w2 r2]. simpl in *. by rewrite Hac.
    + destruct (cancelled t w);
        [by destruct (Hfail t Cancelled w) as (r' & -> & H)
        |by destruct (Hfail t Downstream w) as (r' & -> & H)].
    + by destruct (Hfail t Downstream w) as (r' & -> & H).
Qed.

Lemma cancel_launch_model_frame pushed uid w :
  let w' := (cancel_launch_model host pushed uid w).1 in
  w' = set_status_guard (status_guard w')
         (set_main_pool (main_pool w') (set_launch_infos (launch_infos w') w)).
Proof.
  unfold cancel_launch_model, update_instance_info.
  destruct (model_uid_launching_guard w !! uid) as [ref|]; [|by destruct w].
  set (w1 := update_launch_info ref set_cancel_event w).
  set (pools := default [] _).
  pose proof (gather_remove_sub_pools_fst pools w1) as Hg.
  pose proof (remove_sub_pools_frame pools w1) as Hf.
  destruct (gather_remove_sub_pools pools w1) as [w2 [[]|e]]; simpl in Hg; subst w2.
  - destruct (status_guard_ref _) eqn:E.
    + destruct (parse_replica_model_uid host uid) as [[origin ?]|], pushed;
        simpl; rewrite Hf; by destruct w.
    + simpl. rewrite Hf. by destruct w.
  - simpl. rewrite Hf. by destruct w.
Qed.

Lemma cancel_launch_model_tables pushed uid w :
  let w' := (cancel_launch_model host pushed uid w).1 in
  same_tables w w'
  ∧ model_uid_launching_guard w' = model_uid_launching_guard w
  ∧ devices w' = devices w.
Proof.
  intros w'. subst w'. rewrite cancel_launch_model_frame. by repeat split.
Qed.

Lemma stage_index_le s : (stage_index s ≤ 6)%nat.
Proof. destruct s; simpl; lia. Qed.

(** The launch, once begun, returns within its seven suspension points: its
    guard entry is gone, the other entries are untouched, and the tables are
    as they were or as the commit left them. *)
Lemma run_launch_returns fuel env t w :
  (7 ≤ stage_index (at_stage t) + fuel)%nat →
  ∃ w' r,
    run_launch host fuel env t w = (w', Some r)
    ∧ model_uid_launching_guard w' !! model_uid (launch_args t) = None
    ∧ (∀ u, u ≠ model_uid (launch_args t) →
         model_uid_launching_guard w' !! u = model_uid_launching_guard w !! u)
    ∧ (same_tables w w'
       ∨ ∃ t' m, launch_args t' = launch_args t
                 ∧ same_tables (commit host t' m w) w').
Proof.
  revert t w. induction fuel as [|fuel IH]; intros t w Hfuel.
  { pose proof (stage_index_le (at_stage t)). lia. }
  simpl.
  set (w0 := if env_cancel_at env (stage_index (at_stage t))
             then (cancel_launch_model host (env_cancel_update_instance_info env)
                     (model_uid (launch_args t)) w).1
             else w).
  assert (same_tables w w0
          ∧ model_uid_launching_guard w0 = model_uid_launching_guard w) as [Hs0 Hg0].
  { subst w0. destruct (env_cancel_at _ _).
    - destruct (cancel_launch_model_tables (env_cancel_update_instance_info env)
                  (model_uid (launch_args t)) w) as (?&?&?).
      done.
    - split; [apply same_tables_refl|done]. }
  pose proof (launch_step_tables env t w0) as Htab.
  pose proof (launch_step_progress env t w0) as Hprog.
  destruct (launch_builtin_model_step host env t w0) as [w1 p]. simpl in *.
  assert (Hother : ∀ u, u ≠ model_uid (launch_args t) →
            model_uid_launching_guard w1 !! u = model_uid_launching_guard w !! u).
  { intros u Hu. rewrite <- Hg0.
    destruct Htab as [[_ [->| ->]]|(m & _ & _ & ->)];
      rewrite ?lookup_delete_ne; done. }
  destruct p as [t'|r].
  - destruct Hprog as [Hargs Hlt].
    destruct Htab as [[Hs1 _]|(m & Hst & _)].
    + destruct (IH t' w1) as (w' & r & Hrun & Hg & Ho & Ht); [lia|].
      exists w', r. rewrite Hrun, Hargs in *. split_and!; try done.
      * intros u Hu. rewrite Ho by done. by apply Hother.
      * assert (same_tables w w1) as Hs by (by eapply same_tables_trans).
        destruct Ht as [Ht|(t'' & m & Ha & Ht)].
        -- left. by eapply same_tables_trans.
        -- right. exists t'', m. split; [done|].
           eapply same_tables_trans; [|exact Ht]. by apply same_tables_commit.
    + rewrite Hst in Hlt. pose proof (stage_index_le (at_stage t')). simpl in Hlt. lia.
  - exists w1, r. split_and!; try done.
    destruct Htab as [[Hs1 _]|(m & Hst & Hs1 & _)].
    + left. by eapply same_tables_trans.
    + right. exists t, m. split; [done|].
      eapply same_tables_trans; [|exact Hs1]. by apply same_tables_commit.
Qed.

Lemma get_supervisor_ref_frame reachable w :
  let w' := (get_supervisor_ref reachable w).1 in
  w' = set_refs (supervisor_ref w') (status_guard_ref w') w.
Proof.
  destruct (get_supervisor_ref_fst reachable w) as [H|H]; simpl; rewrite H;
    [by destruct w|done].
Qed.

Lemma pre_validate_refs args sup sg w :
  pre_validate host args (set_refs sup sg w) = pre_validate host args w.
Proof. done. Qed.

Lemma pre_validate_ok args w :
  pre_validate host args w = Ok tt →
  model_uid_to_model w !! model_uid args = None
  ∧ model_uid_launching_guard w !! model_uid args = None.
Proof.
  unfold pre_validate, get_model_launch_status.
  destruct (validate_n_gpu _ _); [|done].
  destruct (validate_peft _); [|done].
  destruct (validate_model_path _ _); [|done].
  destruct (model_uid_to_model w !! model_uid args); [done|].
  destruct (check_model_is_valid _ _ _); [|done].
  destruct (model_uid_launching_guard w !! model_uid args); done.
Qed.

(** [launch_builtin_model] up to its first suspension: an error leaves all
    but the supervisor references as they were; otherwise the uid, which was
    neither launching nor in the Model Table, enters the guard. *)
Lemma launch_begin_spec reachable args w :
  let w' := (launch_builtin_model_begin host reachable args w).1 in
  same_tables w w' ∧ devices w' = devices w ∧ main_pool w' = main_pool w
  ∧ status_guard w' = status_guard w
  ∧ match (launch_builtin_model_begin host reachable args w).2 with
    | Raise _ =>
        model_uid_launching_guard w' = model_uid_launching_guard w
        ∧ launch_infos w' = launch_infos w
    | Ok t =>
        launch_args t = args ∧ at_stage t = AtVirtualEnv
        ∧ model_uid_to_model w !! model_uid args = None
        ∧ model_uid_launching_guard w !! model_uid args = None
        ∧ model_uid_launching_guard w'
          = <[model_uid args := launch_info t]> (model_uid_launching_guard w)
    end.
Proof.
  unfold launch_builtin_model_begin.
  destruct (parse_replica_model_uid host (model_uid args)) as [[origin ?]|];
    [|by repeat split].
  pose proof (get_supervisor_ref_frame reachable w) as Hf. cbv zeta in Hf.
  set (w1 := (get_supervisor_ref reachable w).1) in *.
  destruct (pre_validate host args w1) as [[]|e] eqn:Ev.
  - rewrite Hf, pre_validate_refs in Ev. apply pre_validate_ok in Ev as [Hm Hg].
    simpl. rewrite Hf. simpl. by repeat split.
  - simpl. rewrite Hf. by repeat split.
Qed.

(** ** [launch_rank0_model] *)

Lemma launch_rank0_begin_spec answer uid w :
  let w' := (launch_rank0_model_begin answer uid w).1 in
  same_tables w w' ∧ devices w' = devices w
  ∧ match (launch_rank0_model_begin answer uid w).2 with
    | Raise _ => w' = w
    | Ok t =>
        rep_model_uid t = uid ∧ answer = Some (rank0_subpool_address t)
        ∧ ∃ ref, model_uid_launching_guard w'
                 = <[uid := ref]> (model_uid_launching_guard w)
    end.
Proof.
  unfold launch_rank0_model_begin. destruct answer as [address|]; simpl.
  - repeat split; eauto.
  - by repeat split.
Qed.

Lemma launch_rank0_finish_spec created t w :
  let uid := rep_model_uid t in
  let w' := (launch_rank0_model_finish created t w).1 in
  model_uid_launching_guard w' = delete uid (model_uid_launching_guard w)
  ∧ devices w' = devices w
  ∧ model_uid_to_model_spec w' = model_uid_to_model_spec w
  ∧ model_uid_to_model_status w' = model_uid_to_model_status w
  ∧ model_uid_to_recover_count w' = model_uid_to_recover_count w
  ∧ model_uid_to_launch_args w' = model_uid_to_launch_args w
  ∧ if created
    then model_uid_to_model w'
         = <[uid := mkActorRef Rank0ModelActor uid (rank0_subpool_address t)]>
             (model_uid_to_model w)
         ∧ model_uid_to_addr w'
           = PyDict.set uid (rank0_subpool_address t) (model_uid_to_addr w)
         ∧ main_pool w' = main_pool w
    else same_tables w w'.
Proof.
  unfold launch_rank0_model_finish. cbv zeta. destruct created.
  - match goal with |- context [del_launching_guard ?u ?w0] =>
      pose proof (del_launching_guard_fst u w0) as Hd;
      destruct (del_launching_guard u w0) as [w1 []] end;
      simpl in *; subst w1; by repeat split.
  - pose proof (remove_sub_pool_frame (rank0_subpool_address t) w) as Hr.
    destruct (remove_sub_pool (rank0_subpool_address t) w) as [w1 []];
      simpl in Hr; rewrite Hr;
      match goal with |- context [del_launching_guard ?u ?w0] =>
        pose proof (del_launching_guard_fst u w0) as Hd;
        destruct (del_launching_guard u w0) as [w2 []] end;
      simpl in *; subst w2; by repeat split.
Qed.

(** ** [terminate_model] and [recover_sub_pool] on the tables *)

Lemma terminate_finally_fields env uid origin is_model_die w :
  let w' := (terminate_finally env uid origin is_model_die w).1 in
  model_uid_launching_guard w' = model_uid_launching_guard w
  ∧ model_uid_to_model w' = delete uid (model_uid_to_model w)
  ∧ model_uid_to_recover_count w' = delete uid (model_uid_to_recover_count w)
  ∧ model_uid_to_launch_args w' = delete uid (model_uid_to_launch_args w)
  ∧ model_uid_to_addr w' = PyDict.pop uid (model_uid_to_addr w)
  ∧ devices w' = release_devices uid (devices w).
Proof.
  unfold terminate_finally, get_supervisor_ref, update_instance_info. cbv zeta.
  destruct is_model_die, (term_final_pushed env); simpl;
    destruct (status_guard_ref w) eqn:E1; simpl; rewrite ?E1; simpl;
    try (by repeat split);
    destruct (supervisor_ref w) eqn:E2; simpl; rewrite ?E1; simpl;
    try (by repeat split);
    destruct (term_supervisor env); simpl; by repeat split.
Qed.

(** Whatever it returns, [terminate_model] leaves the guard alone, and either
    changes no table and no device map, or drops the uid's entries. *)
Lemma terminate_model_fields env uid is_model_die w :
  let w' := (terminate_model host env uid is_model_die w).1 in
  model_uid_launching_guard w' = model_uid_launching_guard w
  ∧ ((same_tables w w' ∧ devices w' = devices w)
     ∨ (model_uid_to_model w' = delete uid (model_uid_to_model w)
        ∧ model_uid_to_recover_count w' = delete uid (model_uid_to_recover_count w)
        ∧ model_uid_to_launch_args w' = delete uid (model_uid_to_launch_args w)
        ∧ model_uid_to_addr w' = PyDict.pop uid (model_uid_to_addr w)
        ∧ devices w' = release_devices uid (devices w))).
Proof.
  unfold terminate_model.
  destruct (model_uid_launching_guard w !! uid);
    [split; [done|left; split; [apply same_tables_refl|done]]|].
  destruct (terminate_origin_uid host uid) as [origin|];
    [|split; [done|left; split; [apply same_tables_refl|done]]].
  cbv zeta.
  pose proof (get_supervisor_ref_frame (term_supervisor env) w) as Hf. cbv zeta in Hf.
  set (w1 := (get_supervisor_ref (term_supervisor env) w).1) in *.
  pose proof (update_instance_info_fst (term_terminating_pushed env) origin
                TERMINATING w1) as Hpush.
  destruct (if status_guard_ref w1
            then update_instance_info (term_terminating_pushed env) origin
                   TERMINATING w1
            else (w1, Ok tt)) as [w2 r] eqn:Ew2.
  assert (Hw2 : w2 = set_status_guard (status_guard w2) w1).
  { destruct (status_guard_ref w1).
    - by rewrite Ew2 in Hpush.
    - injection Ew2 as <- _. by destruct w1. }
  destruct r as [[]|e].
  - set (pa := match model_uid_to_model w2 !! uid with
               | Some _ => term_pool_addresses env | None => None end).
    pose proof (terminate_remove_sub_pools_frame uid pa w2) as Hw3.
    set (w3 := terminate_remove_sub_pools uid pa w2) in *.
    destruct (terminate_finally_fields env uid origin is_model_die w3)
      as (Hg & Hm & Hc & Hl & Ha & Hd).
    rewrite Hg, Hm, Hc, Hl, Ha, Hd, Hw3. simpl. rewrite Hw2. simpl. rewrite Hf. simpl.
    split; [done|]. right. done.
  - simpl. rewrite Hw2. simpl. rewrite Hf. simpl.
    split; [done|]. left. by repeat split.
Qed.

Lemma recover_decide_fields env address w :
  let w' := (recover_sub_pool_decide host env address w).1 in
  model_uid_launching_guard w' = model_uid_launching_guard w
  ∧ ∀ u, model_uid_to_model w' !! u = None ∨ model_uid_to_model w' !! u = model_uid_to_model w !! u.
Proof.
  unfold recover_sub_pool_decide. cbv zeta.
  pose proof (remove_sub_pool_frame address w) as Hr.
  set (w1 := (remove_sub_pool address w).1) in *.
  assert (Hgm : model_uid_launching_guard w1 = model_uid_launching_guard w
                ∧ model_uid_to_model w1 = model_uid_to_model w)
    by (rewrite Hr; done).
  destruct Hgm as [Hg1 Hm1].
  destruct (PyDict.first_key_of address (model_uid_to_addr w1)) as [uid|];
    [|simpl; rewrite Hg1, Hm1; auto].
  destruct (model_uid_to_launch_args w1 !! uid) as [args|];
    [|simpl; rewrite Hg1, Hm1; auto].
  destruct (terminate_model_fields env uid true w1) as [Hg Ht].
  set (w2 := (terminate_model host env uid true w1).1) in *.
  assert (Hm2 : ∀ u, model_uid_to_model w2 !! u = None
                     ∨ model_uid_to_model w2 !! u = model_uid_to_model w !! u).
  { intros u. rewrite <- Hm1. destruct Ht as [[(-> & _) _]|(-> & _)]; [auto|].
    destruct (decide (u = uid)) as [->|Hne];
      [left; apply lookup_delete_eq|right; by apply lookup_delete_ne]. }
  destruct (mjoin (model_uid_to_recover_count w1 !! uid)) as [n|]; simpl.
  - destruct (0 <? n); simpl; rewrite Hg, Hg1; auto.
  - rewrite Hg, Hg1; auto.
Qed.

End LaunchFacts.

(** ** Guard and Model Table exclude each other *)

Lemma excludes_shrink w w' :
  guard_excludes_table w →
  (∀ u, model_uid_launching_guard w' !! u = None
        ∨ model_uid_launching_guard w' !! u = model_uid_launching_guard w !! u) →
  (∀ u, model_uid_to_model w' !! u = None
        ∨ model_uid_to_model w' !! u = model_uid_to_model w !! u) →
  guard_excludes_table w'.
Proof.
  intros Hex Hg Hm u. destruct (Hg u) as [->| ->]; [by left|].
  destruct (Hm u) as [->| ->]; [by right|]. apply Hex.
Qed.

Lemma excludes_same w w' :
  guard_excludes_table w →
  model_uid_to_model w' = model_uid_to_model w →
  (model_uid_launching_guard w' = model_uid_launching_guard w
   ∨ ∃ uid, model_uid_launching_guard w' = delete uid (model_uid_launching_guard w)) →
  guard_excludes_table w'.
Proof.
  intros Hex Hm Hg. apply (excludes_shrink w); [done| |rewrite Hm; auto].
  intros u. destruct Hg as [->|[uid ->]]; [auto|].
  destruct (decide (u = uid)) as [->|];
    [left; apply lookup_delete_eq|right; by apply lookup_delete_ne].
Qed.

Lemma excludes_commit uid ref w w' :
  guard_excludes_table w →
  model_uid_to_model w' = <[uid := ref]> (model_uid_to_model w) →
  model_uid_launching_guard w' = delete uid (model_uid_launching_guard w) →
  guard_excludes_table w'.
Proof.
  intros Hex Hm Hg u. rewrite Hm, Hg. destruct (decide (u = uid)) as [->|Hne].
  - left. apply lookup_delete_eq.
  - rewrite lookup_delete_ne, lookup_insert_ne by done. apply Hex.
Qed.

Lemma excludes_enter uid ref w w' :
  guard_excludes_table w →
  model_uid_to_model w !! uid = None →
  model_uid_to_model w' = model_uid_to_model w →
  model_uid_launching_guard w' = <[uid := ref]> (model_uid_launching_guard w) →
  guard_excludes_table w'.
Proof.
  intros Hex Hnone Hm Hg u. rewrite Hm, Hg. destruct (decide (u = uid)) as [->|Hne].
  - by right.
  - rewrite lookup_insert_ne by done. apply Hex.
Qed.

Section SystemFacts.
Context (host : Host).

Lemma launch_step_excludes env t w :
  guard_excludes_table w →
  guard_excludes_table (launch_builtin_model_step host env t w).1.
Proof.
  intros Hex.
  destruct (launch_step_tables host env t w) as [[(Hm & _) Hg]|(m & _ & (Hm & _) & Hg)].
  - apply (excludes_same w); [done|done|]. destruct Hg; eauto.
  - eapply (excludes_commit _ _ w); [done|exact Hm|exact Hg].
Qed.

Lemma spawn_launch_excludes reachable args s :
  guard_excludes_table (worker s) →
  guard_excludes_table (worker (spawn_launch host reachable args s)).
Proof.
  intros Hex. unfold spawn_launch.
  pose proof (launch_begin_spec host reachable args (worker s)) as Hb.
  destruct (launch_builtin_model_begin host reachable args (worker s)) as [w [t|e]];
    simpl in *; destruct Hb as ((Hm & _) & _ & _ & _ & Hb).
  - destruct Hb as (_ & _ & Hnone & _ & Hg).
    by eapply (excludes_enter _ _ (worker s)).
  - destruct Hb as [Hg _]. apply (excludes_same (worker s)); auto.
Qed.

Lemma react_excludes e s :
  match e with
  | ResumeLaunchRank0SubPool i _ =>
      match rank0_calls s !! i with
      | Some uid => model_uid_to_model (worker s) !! uid = None
      | None => True
      end
  | _ => True
  end →
  guard_excludes_table (worker s) →
  guard_excludes_table (worker (react host e s)).
Proof.
  intros Hfresh Hex.
  destruct e as [reachable args|i env|uid|i answer|i created|pushed uid
                |env uid die|env reachable address]; simpl.
  - by apply spawn_launch_excludes.
  - destruct (launches s !! i) as [t|]; [|done].
    pose proof (launch_step_excludes env t (worker s) Hex) as H.
    by destruct (launch_builtin_model_step host env t (worker s)) as [w []].
  - done.
  - destruct (rank0_calls s !! i) as [uid|]; [|done].
    pose proof (launch_rank0_begin_spec answer uid (worker s)) as Hb.
    destruct (launch_rank0_model_begin answer uid (worker s)) as [w [t|e]];
      simpl in *; destruct Hb as ((Hm & _) & _ & Hb).
    + destruct Hb as (_ & _ & ref & Hg). by eapply (excludes_enter _ _ (worker s)).
    + by subst w.
  - destruct (rank0_launches s !! i) as [t|]; [|done]. simpl.
    destruct (launch_rank0_finish_spec created t (worker s))
      as (Hg & _ & _ & _ & _ & _ & Hc).
    destruct created.
    + destruct Hc as (Hm & _). by eapply (excludes_commit _ _ (worker s)).
    + destruct Hc as (Hm & _). apply (excludes_same (worker s)); eauto.
  - destruct (cancel_launch_model_tables host pushed uid (worker s))
      as ((Hm & _) & Hg & _).
    apply (excludes_same (worker s)); auto.
  - destruct (terminate_model_fields host env uid die (worker s)) as [Hg Ht].
    apply (excludes_shrink (worker s)); [done|rewrite Hg; auto|].
    intros u. destruct Ht as [[(-> & _) _]|(-> & _)]; [auto|].
    destruct (decide (u = uid)) as [->|];
      [left; apply lookup_delete_eq|right; by apply lookup_delete_ne].
  - destruct (recover_decide_fields host env address (worker s)) as [Hg Hm].
    assert (Hex1 : guard_excludes_table (recover_sub_pool_decide host env address (worker s)).1).
    { apply (excludes_shrink (worker s)); [done|rewrite Hg; auto|done]. }
    destruct (recover_sub_pool_decide host env address (worker s)) as [w1 [|u|u|u args]];
      simpl in *; try done.
    pose proof (get_supervisor_ref_frame reachable w1) as Hf. cbv zeta in Hf.
    destruct (get_supervisor_ref reachable w1) as [w2 [[]|e]]; simpl in Hf.
    + apply spawn_launch_excludes. simpl. rewrite Hf. exact Hex1.
    + simpl. rewrite Hf. exact Hex1.
Qed.

Lemma run_events_excludes events s :
  rank0_calls_fresh host events s →
  guard_excludes_table (worker s) →
  guard_excludes_table (worker (run_events host events s)).
Proof.
  revert s. induction events as [|e events IH]; intros s Hfresh Hex; [done|].
  destruct Hfresh as [He Hrest]. simpl. apply IH; [done|].
  by apply react_excludes.
Qed.

End SystemFacts.

(** ** The failure path of the launch *)

Lemma main_pool_remove_sub_pool a w :
  main_pool (remove_sub_pool a w).1 = main_pool w ∖ {[a]}.
Proof.
  unfold remove_sub_pool. destruct (decide (a ∈ main_pool w)); simpl; [done|].
  apply set_eq. intros x. rewrite elem_of_difference, elem_of_singleton.
  split; [|tauto]. intros Hx. split; [done|]. by intros ->.
Qed.

Lemma main_pool_remove_sub_pools l w a :
  a ∈ main_pool (remove_sub_pools l w) ↔ a ∈ main_pool w ∧ a ∉ l.
Proof.
  unfold remove_sub_pools. revert w.
  induction l as [|x l IH]; intros w; simpl.
  - split; [|tauto]. intros H. split; [done|]. apply not_elem_of_nil.
  - rewrite IH, main_pool_remove_sub_pool, elem_of_difference, elem_of_singleton,
      not_elem_of_cons. tauto.
Qed.

(** The failure path releases every device of the uid, removes every
    recorded sub-pool, removes the guard entry, leaves the tables alone and
    re-raises. *)
Lemma failure_path_cleans t e w :
  let uid := model_uid (launch_args t) in
  let w' := (failure_path t e w).1 in
  ¬ holds_device uid (devices w')
  ∧ (∀ a, a ∈ all_subpool_addresses t → a ∉ main_pool w')
  ∧ model_uid_launching_guard w' !! uid = None
  ∧ same_tables w w'
  ∧ ∃ e', (failure_path t e w).2 = Returned (Raise e').
Proof.
  intros uid w'. subst w'. rewrite failure_path_fst. simpl. fold uid. split_and!.
  - apply release_devices_clears.
  - intros a Ha Hin. apply main_pool_remove_sub_pools in Hin as [_ Hn]. done.
  - apply lookup_delete_eq.
  - by repeat split.
  - apply failure_path_returns.
Qed.

(** C1 (the code at two failing inputs).  The claim: a launch that raises in
    steps 2 to 8 releases the devices of the uid and leaves no sub-pool of
    the launch behind.  First input: [append_sub_pool] raises inside
    [_create_subpool], after the device was allocated and before the inner
    [try] is entered; the launch re-raises and its guard entry is removed,
    but GPU 0 stays recorded as owned by the uid, which is not in the Model
    Table.  Second input: of the two gathered [append_sub_pool] calls for the
    extra pools the second raises; the sub-pool the first one created is not
    in [all_subpool_addresses] and stays in the pool. *)
Theorem launch_failure_leaks :
  (let r := launch_builtin_model scenario_host env_append_sub_pool_raises
              (scenario_args "m-0") (init_worker [0]) in
   r.2 = Some (Raise Downstream)
   ∧ model_uid_launching_guard r.1 !! "m-0" = None
   ∧ model_uid_to_model r.1 !! "m-0" = None
   ∧ gpu_to_model_uid (devices r.1) !! 0 = Some "m-0")
  ∧ (let r := launch_builtin_model scenario_host env_second_extra_pool_raises
                (scenario_args_gpu "m-0" (Some (NGpuInt 2)) None)
                (init_worker [0; 1]) in
     r.2 = Some (Raise Downstream)
     ∧ model_uid_launching_guard r.1 !! "m-0" = None
     ∧ model_uid_to_model r.1 !! "m-0" = None
     ∧ elements (main_pool r.1) = ["pool-1"]).
Proof. vm_compute. done. Qed.

(** ** Pre-validation of the GPU arguments *)

Section ValidationFacts.
Context (host : Host).

Lemma validate_n_gpu_accepted n :
  validate_n_gpu host n = Ok tt ↔ n_gpu_accepted host n.
Proof.
  destruct n as [[k|s]|]; simpl; [| |done].
  - destruct (Z.leb_spec k 0), (Z.ltb_spec (gpu_count host) k); simpl;
      split; try done; lia.
  - destruct (String.eqb_spec s "auto"); simpl; split; done.
Qed.

Lemma validate_n_gpu_rejected n :
  ¬ n_gpu_accepted host n → validate_n_gpu host n = Raise InvalidArg.
Proof.
  intros Hn. destruct (validate_n_gpu host n) as [[]|e] eqn:E.
  - exfalso. by apply Hn, validate_n_gpu_accepted.
  - destruct n as [[k|s]|]; simpl in E; [| |done].
    + by destruct (_ || _); simplify_eq.
    + by destruct (negb _); simplify_eq.
Qed.

(** C7, as amended.  A scalar [gpu_idx] is coerced to a one-element list and
    a list is kept; when [gpu_idx] is set, [_create_subpool] takes the
    devices from [gpu_idx] alone, whatever [n_gpu] is; pre-validation accepts
    exactly a null [n_gpu], an integer in [[1, gpu_count]] and the string
    "auto"; and when [gpu_idx] is not set, any other [n_gpu] makes the launch
    raise InvalidArg with the tables, the device maps, the sub-pools, the
    guard and the Status Guard's log unchanged. *)
Theorem launch_gpu_pre_validation :
  (∀ i, coerce_gpu_idx (Some (GpuIdxInt i)) = Some [i])
  ∧ (∀ l, coerce_gpu_idx (Some (GpuIdxList l)) = Some l)
  ∧ (∀ uid type n idx d,
       create_subpool_devices host uid type n (Some idx) d
       = allocate_devices_with_gpu_idx (is_model_vllm_backend host) uid type idx d)
  ∧ (∀ n, validate_n_gpu host n = Ok tt ↔ n_gpu_accepted host n)
  ∧ (∀ reachable args w,
       gpu_idx args = None →
       is_Some (parse_replica_model_uid host (model_uid args)) →
       ¬ n_gpu_accepted host (n_gpu args) →
       let w' := (launch_builtin_model_begin host reachable args w).1 in
       (launch_builtin_model_begin host reachable args w).2 = Raise InvalidArg
       ∧ same_tables w w'
       ∧ devices w' = devices w
       ∧ main_pool w' = main_pool w
       ∧ status_guard w' = status_guard w
       ∧ model_uid_launching_guard w' = model_uid_launching_guard w
       ∧ launch_infos w' = launch_infos w)
  ∧ (∀ reachable args w t,
       gpu_idx args = None →
       (launch_builtin_model_begin host reachable args w).2 = Ok t →
       n_gpu_accepted host (n_gpu args)).
Proof.
  split_and!; try done.
  - apply validate_n_gpu_accepted.
  - intros reachable args w _ [[origin idx] Hparse] Hn w'. subst w'.
    pose proof (launch_begin_spec host reachable args w) as Hb.
    assert ((launch_builtin_model_begin host reachable args w).2 = Raise InvalidArg)
      as Hr.
    { unfold launch_builtin_model_begin, pre_validate. rewrite Hparse.
      by rewrite (validate_n_gpu_rejected _ Hn). }
    rewrite Hr in Hb. destruct Hb as (?&?&?&?&?&?). done.
  - intros reachable args w t _ Hok.
    apply validate_n_gpu_accepted.
    unfold launch_builtin_model_begin, pre_validate in Hok.
    destruct (parse_replica_model_uid host (model_uid args)) as [[origin ?]|];
      [|done].
    destruct (validate_n_gpu host (n_gpu args)) as [[]|e]; [done|done].
Qed.

End ValidationFacts.

(** C7, as stated, fails: with [gpu_idx] not set, a null [n_gpu] is neither
    an integer nor "auto" and the launch passes pre-validation; and with
    [gpu_idx = [0]], [n_gpu = 0] is not ignored: pre-validation raises. *)
Lemma n_gpu_validation_counterexample :
  is_ok (launch_builtin_model_begin scenario_host true
           (scenario_args_gpu "m-0" None None) (init_worker [0])).2 = true
  ∧ (validate_n_gpu scenario_host None = Ok tt)
  ∧ is_ok (launch_builtin_model_begin scenario_host true
             (scenario_args_gpu "m-0" (Some (NGpuInt 0)) (Some (GpuIdxList [0])))
             (init_worker [0])).2 = false.
Proof. vm_compute. done. Qed.

(** From the initial worker, along every interleaving of calls and
    resumptions in which no call of [launch_rank0_model] enters the guard
    for a uid that is in the Model Table, no uid is both in the Launching
    Guard and in the Model Table at any point.  And a step of
    [launch_builtin_model] that returns (normally, by an error or by
    cancellation) leaves no guard entry for its uid, a launch that has
    entered the guard returns within its seven suspension points, and
    [launch_rank0_model] leaves no guard entry for its uid when it
    returns. *)
Lemma guard_excludes_table_unless_rank0 (host : Host) :
  (∀ gpu_devices events,
     rank0_calls_fresh host events (start gpu_devices) →
     guard_excludes_table (worker (run_events host events (start gpu_devices))))
  ∧ (∀ env t w r,
       (launch_builtin_model_step host env t w).2 = Returned r →
       model_uid_launching_guard (launch_builtin_model_step host env t w).1
         !! model_uid (launch_args t) = None)
  ∧ (∀ env reachable args w t,
       (launch_builtin_model_begin host reachable args w).2 = Ok t →
       ∃ w' r,
         run_launch host 7 env t (launch_builtin_model_begin host reachable args w).1
         = (w', Some r)
         ∧ model_uid_launching_guard w' !! model_uid args = None)
  ∧ (∀ created t w,
       model_uid_launching_guard (launch_rank0_model_finish created t w).1
         !! rep_model_uid t = None).
Proof.
  split_and!.
  - intros gpu_devices events Hfresh. apply run_events_excludes; [done|].
    intros uid. by left.
  - intros env t w r Hr. pose proof (launch_step_progress host env t w) as Hp.
    by rewrite Hr in Hp.
  - intros env reachable args w t Hok.
    pose proof (launch_begin_spec host reachable args w) as Hb.
    rewrite Hok in Hb. destruct Hb as (_ & _ & _ & _ & Hargs & Hst & _).
    destruct (run_launch_returns host 7 env t
                (launch_builtin_model_begin host reachable args w).1)
      as (w' & r & Hrun & Hg & _).
    { rewrite Hst. simpl. lia. }
    exists w', r. split; [done|]. by rewrite <- Hargs.
  - intros created t w.
    destruct (launch_rank0_finish_spec created t w) as [-> _].
    apply lookup_delete_eq.
Qed.

(** C2 (the code at a failing input).  The claim: a uid is in at most one of
    the Launching Guard and the Model Table at every point between
    operations.  [launch_rank0_model] enters the guard without looking at
    the Model Table, the check that [launch_builtin_model] makes before it
    enters the guard.  Input: [launch_rank0_model] is called for "m-0", gets
    its sub-pool and its actor and returns, and is called for "m-0" again.
    After the first call the uid is in the Model Table and not in the guard,
    and [launch_builtin_model] called for it there is refused by its
    assertion with the guard left alone; when the second call of
    [launch_rank0_model] has got its sub-pool and waits for
    [xo.create_actor], the uid is in the Launching Guard and in the Model
    Table. *)
Theorem launch_rank0_model_misses_table_check :
  let s1 := run_events scenario_host
              [CallLaunchRank0 "m-0";
               ResumeLaunchRank0SubPool 0 (Some "sub-1");
               ResumeLaunchRank0 0 true] (start [0]) in
  let s2 := run_events scenario_host
              [CallLaunchRank0 "m-0";
               ResumeLaunchRank0SubPool 0 (Some "sub-2")] s1 in
  let r := launch_builtin_model_begin scenario_host true (scenario_args "m-0")
             (worker s1) in
  guard_excludes_table (worker s1)
  ∧ model_uid_launching_guard (worker s1) !! "m-0" = None
  ∧ is_Some (model_uid_to_model (worker s1) !! "m-0")
  ∧ r.2 = Raise Conflict
  ∧ model_uid_launching_guard r.1 !! "m-0" = None
  ∧ is_Some (model_uid_launching_guard (worker s2) !! "m-0")
  ∧ is_Some (model_uid_to_model (worker s2) !! "m-0")
  ∧ ¬ guard_excludes_table (worker s2).
Proof.
  cbv zeta.
  assert (model_uid_launching_guard
            (worker (run_events scenario_host
              [CallLaunchRank0 "m-0";
               ResumeLaunchRank0SubPool 0 (Some "sub-1");
               ResumeLaunchRank0 0 true] (start [0]))) = ∅) as H1.
  { vm_compute. reflexivity. }
  split_and!; try (vm_compute; done); try (vm_compute; eexists; reflexivity).
  - intros uid. left. rewrite H1. apply lookup_empty.
  - intros H. destruct (H "m-0") as [Hg|Ht]; [vm_compute in Hg|vm_compute in Ht]; done.
Qed.

(** ** The rank-0 fast path and the recover callback *)



(** ** Stored launch arguments are keyed by their uid in every reachable state *)

Section KeyedFacts.
Context (host : Host).

Lemma keyed_same w w' :
  launch_args_keyed w →
  model_uid_to_launch_args w' = model_uid_to_launch_args w →
  launch_args_keyed w'.
Proof. unfold launch_args_keyed. by intros H ->. Qed.

Lemma keyed_delete uid w w' :
  launch_args_keyed w →
  model_uid_to_launch_args w' = delete uid (model_uid_to_launch_args w) →
  launch_args_keyed w'.
Proof. unfold launch_args_keyed. intros H ->. by apply map_Forall_delete. Qed.

Lemma recover_decide_keyed env address w :
  launch_args_keyed w →
  launch_args_keyed (recover_sub_pool_decide host env address w).1.
Proof.
  intros Hk. unfold recover_sub_pool_decide. cbv zeta.
  pose proof (remove_sub_pool_frame address w) as Hr.
  set (w1 := (remove_sub_pool address w).1) in *.
  assert (Hk1 : launch_args_keyed w1) by (apply (keyed_same w); [done|by rewrite Hr]).
  destruct (PyDict.first_key_of address (model_uid_to_addr w1)) as [uid|]; [|done].
  destruct (model_uid_to_launch_args w1 !! uid) as [args|]; [|done].
  destruct (terminate_model_fields host env uid true w1) as [_ Ht].
  set (w2 := (terminate_model host env uid true w1).1) in *.
  assert (Hk2 : launch_args_keyed w2).
  { destruct Ht as [[(_&_&_&_&_&Ha) _]|(_&_&Ha&_)];
      [by apply (keyed_same w1)|by apply (keyed_delete uid w1)]. }
  destruct (mjoin (model_uid_to_recover_count w1 !! uid)) as [n|]; simpl; [|done].
  destruct (0 <? n); simpl; [|done]. by apply (keyed_same w2).
Qed.

Lemma spawn_launch_keyed reachable args s :
  launch_args_keyed (worker s) →
  launch_args_keyed (worker (spawn_launch host reachable args s)).
Proof.
  intros Hk. unfold spawn_launch.
  pose proof (launch_begin_spec host reachable args (worker s)) as Hb.
  destruct (launch_builtin_model_begin host reachable args (worker s)) as [w [t|e]];
    simpl in *; destruct Hb as ((_&_&_&_&_&Ha) & _); by apply (keyed_same (worker s)).
Qed.

Lemma react_keyed e s :
  launch_args_keyed (worker s) → launch_args_keyed (worker (react host e s)).
Proof.
  intros Hk. destruct e as [reachable args|i env|uid|i answer|i created|pushed uid
                           |env uid die|env reachable address]; simpl.
  - by apply spawn_launch_keyed.
  - destruct (launches s !! i) as [t|]; [|done].
    pose proof (launch_step_tables host env t (worker s)) as Ht.
    destruct (launch_builtin_model_step host env t (worker s)) as [w p].
    assert (launch_args_keyed w) as Hw.
    { simpl in Ht. destruct Ht as [[(_&_&_&_&_&Ha) _]|(m & _ & (_&_&_&_&_&Ha) & _)].
      - by apply (keyed_same (worker s)).
      - unfold launch_args_keyed. rewrite Ha. simpl. by apply map_Forall_insert_2. }
    by destruct p.
  - done.
  - destruct (rank0_calls s !! i) as [uid|]; [|done].
    pose proof (launch_rank0_begin_spec answer uid (worker s)) as Hb.
    destruct (launch_rank0_model_begin answer uid (worker s)) as [w [t|e]];
      simpl in *; destruct Hb as ((_&_&_&_&_&Ha) & _); by apply (keyed_same (worker s)).
  - destruct (rank0_launches s !! i) as [t|]; [|done]. simpl.
    destruct (launch_rank0_finish_spec created t (worker s))
      as (_ & _ & _ & _ & _ & Ha & _).
    by apply (keyed_same (worker s)).
  - destruct (cancel_launch_model_tables host pushed uid (worker s)) as ((_&_&_&_&_&Ha) & _).
    by apply (keyed_same (worker s)).
  - destruct (terminate_model_fields host env uid die (worker s)) as [_ Ht].
    destruct Ht as [[(_&_&_&_&_&Ha) _]|(_&_&Ha&_)];
      [by apply (keyed_same (worker s))|by apply (keyed_delete uid (worker s))].
  - pose proof (recover_decide_keyed env address (worker s) Hk) as Hk1.
    destruct (recover_sub_pool_decide host env address (worker s)) as [w1 [|u|u|u args]];
      simpl in *; try done.
    pose proof (get_supervisor_ref_frame reachable w1) as Hf. cbv zeta in Hf.
    destruct (get_supervisor_ref reachable w1) as [w2 [[]|e]]; simpl in Hf.
    + apply spawn_launch_keyed. simpl. apply (keyed_same w1); [done|by rewrite Hf].
    + simpl. apply (keyed_same w1); [done|by rewrite Hf].
Qed.

(** Every state the worker reaches from its start keeps the launch
    arguments under the uid they were launched with. *)
Lemma run_events_keyed gpu_devices events :
  launch_args_keyed (worker (run_events host events (start gpu_devices))).
Proof.
  assert (∀ s, launch_args_keyed (worker s) →
               launch_args_keyed (worker (run_events host events s))) as H.
  { induction events as [|e events IH]; intros s Hs; [done|].
    simpl. apply IH. by apply react_keyed. }
  apply H. unfold launch_args_keyed. simpl. apply map_Forall_empty.
Qed.

End KeyedFacts.

(** ** The recovery counter *)

Section RecoveryFacts.
Context (host : Host).

Lemma launch_builtin_model_tables env args w :
  let w' := (launch_builtin_model host env args w).1 in
  same_tables w w'
  ∨ ∃ t m, launch_args t = args ∧ same_tables (commit host t m w) w'.
Proof.
  unfold launch_builtin_model.
  pose proof (launch_begin_spec host (env_supervisor env) args w) as Hb.
  destruct (launch_builtin_model_begin host (env_supervisor env) args w)
    as [w1 [t|e]]; simpl in Hb; destruct Hb as (Hs1 & _ & _ & _ & Hb).
  - destruct Hb as (Hargs & Hst & _).
    destruct (run_launch_returns host 7 env t w1) as (w' & r & -> & _ & _ & Ht).
    { rewrite Hst. simpl. lia. }
    simpl. destruct Ht as [Ht|(t' & m & Ha & Ht)].
    + left. by eapply same_tables_trans.
    + right. exists t', m. split; [congruence|].
      eapply same_tables_trans; [|exact Ht]. by apply same_tables_commit.
  - simpl. by left.
Qed.

Lemma recover_model_tables env args w :
  let w' := (recover_model host env args w).1 in
  same_tables w w'
  ∨ ∃ t m, launch_args t = args ∧ same_tables (commit host t m w) w'.
Proof.
  unfold recover_model.
  pose proof (get_supervisor_ref_frame (env_supervisor env) w) as Hf. cbv zeta in Hf.
  destruct (get_supervisor_ref (env_supervisor env) w) as [w1 [[]|e]]; simpl in Hf.
  - assert (same_tables w w1) as Hs1 by (rewrite Hf; by repeat split).
    destruct (launch_builtin_model_tables env args w1) as [Ht|(t & m & Ha & Ht)].
    + left. by eapply same_tables_trans.
    + right. exists t, m. split; [done|].
      eapply same_tables_trans; [|exact Ht]. by apply same_tables_commit.
  - simpl. left. rewrite Hf. by repeat split.
Qed.

Lemma setdefault_lookup {V} (k k' : string) (v : V) (m : gmap string V) :
  setdefault k v m !! k'
  = if decide (k' = k) then Some (default v (m !! k)) else m !! k'.
Proof.
  unfold setdefault. destruct (m !! k) as [x|] eqn:E.
  - destruct (decide (k' = k)) as [->|]; [by rewrite E|done].
  - rewrite lookup_insert. destruct (decide (k = k')) as [->|]; simpl.
    + by rewrite decide_True.
    + by rewrite decide_False.
Qed.

(** The re-launch leaves the counter and the stored arguments of every uid
    as they were, or commits: the counter of the launched uid keeps its value
    ([setdefault]) and its arguments are stored again. *)
Lemma recover_model_counter env args w :
  let w' := (recover_model host env args w).1 in
  ∀ u, (model_uid_to_recover_count w' !! u = model_uid_to_recover_count w !! u
        ∧ model_uid_to_launch_args w' !! u = model_uid_to_launch_args w !! u)
       ∨ (u = model_uid args
          ∧ model_uid_to_recover_count w' !! u
            = Some (default (MODEL_ACTOR_AUTO_RECOVER_LIMIT host)
                      (model_uid_to_recover_count w !! u))
          ∧ model_uid_to_launch_args w' !! u = Some args).
Proof.
  intros w' u. subst w'.
  destruct (recover_model_tables env args w) as [Hs|(t & m & Hta & Hs)];
    destruct Hs as (_&_&_&_&Hc&Ha).
  - left. by rewrite Hc, Ha.
  - simpl in Hc, Ha. rewrite Hta in *.
    rewrite Hc, Ha, setdefault_lookup, lookup_insert.
    destruct (decide (u = model_uid args)) as [->|Hne].
    + right. by rewrite decide_True.
    + left. by rewrite decide_False.
Qed.

Lemma recover_model_keyed env args w :
  launch_args_keyed w → launch_args_keyed (recover_model host env args w).1.
Proof.
  intros Hk. unfold launch_args_keyed in *.
  destruct (recover_model_tables env args w) as [Hs|(t & m & Hta & Hs)];
    destruct Hs as (_&_&_&_&_&Ha); rewrite Ha; [done|].
  simpl. rewrite Hta. by apply map_Forall_insert_2.
Qed.

(** The decision of the recover callback for the uid whose sub-pool died,
    by its counter: decremented and re-launched when positive, stopped when
    not, re-launched when null. *)
Lemma recover_decide_counter uid tenv address w args :
  PyDict.first_key_of address (model_uid_to_addr w) = Some uid →
  model_uid_to_launch_args w !! uid = Some args →
  let w' := (recover_sub_pool_decide host tenv address w).1 in
  let r := (recover_sub_pool_decide host tenv address w).2 in
  match mjoin (model_uid_to_recover_count w !! uid) with
  | Some n =>
      if 0 <? n
      then r = Recreate uid args
           ∧ model_uid_to_recover_count w' !! uid = Some (Some (n - 1))
      else r = StopRecreating uid
           ∧ (model_uid_to_recover_count w' !! uid = None
              ∨ model_uid_to_recover_count w' = model_uid_to_recover_count w)
  | None =>
      r = Recreate uid args
      ∧ (model_uid_to_recover_count w' !! uid = None
         ∨ model_uid_to_recover_count w' = model_uid_to_recover_count w)
  end.
Proof.
  intros Hfirst Hargs. unfold recover_sub_pool_decide. cbv zeta.
  pose proof (remove_sub_pool_frame address w) as Hr.
  set (w1 := (remove_sub_pool address w).1) in *.
  rewrite Hr. simpl. rewrite Hfirst, Hargs. rewrite <- Hr.
  destruct (terminate_model_fields host tenv uid true w1) as [_ Ht].
  set (w2 := (terminate_model host tenv uid true w1).1) in *.
  assert (Hc2 : model_uid_to_recover_count w2 !! uid = None
                ∨ model_uid_to_recover_count w2 = model_uid_to_recover_count w).
  { destruct Ht as [[(_&_&_&_&->&_) _]|(_&->&_)].
    - right. by rewrite Hr.
    - left. apply lookup_delete_eq. }
  destruct (mjoin (model_uid_to_recover_count w !! uid)) as [n|]; simpl.
  - destruct (0 <? n); simpl; [|done]. split; [done|]. apply lookup_insert_eq.
  - done.
Qed.

(** What one death does to the counter and the stored arguments of [uid]:
    a re-launch of [uid] costs one unit of its budget, nothing else raises
    the budget. *)
Lemma recover_sub_pool_budget uid tenv env address w k :
  launch_args_keyed w →
  recover_budget uid k w →
  let w' := (recover_sub_pool host tenv env address w).1 in
  let r := (recover_sub_pool host tenv env address w).2 in
  launch_args_keyed w'
  ∧ (if recreates uid r then 1 ≤ k ∧ recover_budget uid (k - 1) w'
     else recover_budget uid k w').
Proof.
  intros Hkeyed Hbudget. unfold recover_sub_pool, recover_sub_pool_decide. cbv zeta.
  pose proof (remove_sub_pool_frame address w) as Hr.
  set (w1 := (remove_sub_pool address w).1) in *.
  assert (Hc1 : model_uid_to_recover_count w1 = model_uid_to_recover_count w)
    by (by rewrite Hr).
  assert (Ha1 : model_uid_to_launch_args w1 = model_uid_to_launch_args w)
    by (by rewrite Hr).
  assert (Hk1 : launch_args_keyed w1) by (unfold launch_args_keyed; by rewrite Ha1).
  assert (Hb1 : recover_budget uid k w1)
    by (unfold recover_budget; by rewrite Hc1, Ha1).
  clearbody w1. clear Hr Hc1 Ha1 Hkeyed Hbudget w.
  destruct (PyDict.first_key_of address (model_uid_to_addr w1)) as [uid0|];
    [|by simpl].
  destruct (model_uid_to_launch_args w1 !! uid0) as [args|] eqn:Eargs; [|by simpl].
  assert (Huid0 : model_uid args = uid0) by (by apply (Hk1 uid0 args)).
  destruct (terminate_model_fields host tenv uid0 true w1) as [_ Ht].
  set (w2 := (terminate_model host tenv uid0 true w1).1) in *.
  (* the counter and the arguments after terminate_model *)
  assert (Hw2 : (model_uid_to_recover_count w2 = model_uid_to_recover_count w1
                 ∧ model_uid_to_launch_args w2 = model_uid_to_launch_args w1)
                ∨ (model_uid_to_recover_count w2
                   = delete uid0 (model_uid_to_recover_count w1)
                   ∧ model_uid_to_launch_args w2
                     = delete uid0 (model_uid_to_launch_args w1))).
  { destruct Ht as [[(_&_&_&_&?&?) _]|(_&?&?&_)]; auto. }
  assert (Hk2 : launch_args_keyed w2).
  { unfold launch_args_keyed.
    destruct Hw2 as [[_ ->]|[_ ->]]; [done|by apply map_Forall_delete]. }
  (* the state the re-launch starts from, and what the re-launch makes of it *)
  assert (Hlaunch : ∀ w3,
    model_uid_to_launch_args w3 = model_uid_to_launch_args w2 →
    let w' := (recover_model host env args w3).1 in
    launch_args_keyed w'
    ∧ ∀ u, (model_uid_to_recover_count w' !! u = model_uid_to_recover_count w3 !! u
            ∧ model_uid_to_launch_args w' !! u = model_uid_to_launch_args w3 !! u)
           ∨ (u = uid0
              ∧ model_uid_to_recover_count w' !! u
                = Some (default (MODEL_ACTOR_AUTO_RECOVER_LIMIT host)
                          (model_uid_to_recover_count w3 !! u))
              ∧ model_uid_to_launch_args w' !! u = Some args)).
  { intros w3 Ha3 w'. subst w'.
    destruct (recover_model_tables env args w3) as [Hs|(t & m & Hta & Hs)];
      destruct Hs as (_&_&_&_&Hc&Ha).
    - split; [unfold launch_args_keyed; by rewrite Ha, Ha3|]. intros u. left.
      by rewrite Hc, Ha.
    - simpl in Hc, Ha. rewrite Hta, Huid0 in *. split.
      + unfold launch_args_keyed. rewrite Ha, Ha3. by apply map_Forall_insert_2.
      + intros u. rewrite Hc, Ha, setdefault_lookup, lookup_insert.
        destruct (decide (u = uid0)) as [->|Hne].
        * right. by rewrite decide_True.
        * left. by rewrite decide_False. }
  assert (Hext : ∀ w' k', 
    model_uid_to_recover_count w' !! uid = model_uid_to_recover_count w1 !! uid →
    model_uid_to_launch_args w' !! uid = model_uid_to_launch_args w1 !! uid →
    k ≤ k' → recover_budget uid k' w').
  { intros w' k' Hc Ha Hle. unfold recover_budget. rewrite Hc, Ha.
    destruct Hb1 as [(n & Hn & Hle')|Hb]; [left; exists n; split; [done|lia]|by right]. }
  destruct (decide (uid0 = uid)) as [->|Hne].
  - (* the pool of [uid] died *)
    destruct Hb1 as [(n & Hn & Hle)|[_ Hnone]]; [|congruence].
    rewrite Hn. simpl. destruct (Z.ltb_spec 0 n) as [Hpos|Hnpos]; simpl.
    + rewrite bool_decide_eq_true_2 by done.
      match goal with |- context [recover_model host env args ?w0] =>
        destruct (Hlaunch w0 eq_refl) as [Hk' Hu] end.
      split; [done|]. split; [lia|]. left. exists (n - 1). split; [|lia].
      destruct (Hu uid) as [[-> _]|(_ & -> & _)]; simpl;
        by rewrite lookup_insert_eq.
    + split; [done|]. unfold recover_budget.
      destruct Hw2 as [[-> ->]|[-> ->]].
      * left. eauto.
      * right. by rewrite !lookup_delete_eq.
  - (* the pool of another uid died *)
    assert (Hc2 : model_uid_to_recover_count w2 !! uid
                  = model_uid_to_recover_count w1 !! uid).
    { destruct Hw2 as [[-> _]|[-> _]]; [done|by rewrite lookup_delete_ne]. }
    assert (Ha2 : model_uid_to_launch_args w2 !! uid
                  = model_uid_to_launch_args w1 !! uid).
    { destruct Hw2 as [[_ ->]|[_ ->]]; [done|by rewrite lookup_delete_ne]. }
    assert (Hrec : ∀ w3,
      model_uid_to_launch_args w3 = model_uid_to_launch_args w2 →
      model_uid_to_recover_count w3 !! uid = model_uid_to_recover_count w2 !! uid →
      launch_args_keyed (recover_model host env args w3).1
      ∧ recover_budget uid k (recover_model host env args w3).1).
    { intros w3 Ha3 Hc3. destruct (Hlaunch w3 Ha3) as [Hk' Hu]. split; [done|].
      destruct (Hu uid) as [[Hc Ha]|(Heq & _)]; [|congruence].
      apply Hext; [by rewrite Hc, Hc3|by rewrite Ha, Ha3|lia]. }
    destruct (mjoin (model_uid_to_recover_count w1 !! uid0)) as [n0|]; simpl.
    + destruct (0 <? n0); simpl.
      * rewrite bool_decide_eq_false_2 by done. apply Hrec; [done|].
        simpl. by rewrite lookup_insert_ne.
      * split; [done|]. by apply Hext.
    + rewrite bool_decide_eq_false_2 by done. by apply Hrec.
Qed.

Lemma recreations_cons uid r rs :
  recreations uid (r :: rs)
  = ((if recreates uid r then 1 else 0) + recreations uid rs)%nat.
Proof. unfold recreations. simpl. by destruct (recreates uid r). Qed.

Lemma sub_pool_deaths_budget uid deaths w k :
  launch_args_keyed w →
  recover_budget uid k w →
  let w' := (sub_pool_deaths host deaths w).1 in
  let rs := (sub_pool_deaths host deaths w).2 in
  launch_args_keyed w'
  ∧ Z.of_nat (recreations uid rs) ≤ Z.max 0 k
  ∧ recover_budget uid (k - Z.of_nat (recreations uid rs)) w'.
Proof.
  revert w k. induction deaths as [|[[tenv env] address] deaths IH];
    intros w k Hk Hb; simpl.
  - unfold recreations. simpl. split; [done|]. split; [lia|].
    by rewrite Z.sub_0_r.
  - destruct (recover_sub_pool_budget uid tenv env address w k Hk Hb) as [Hk1 Hb1].
    destruct (recover_sub_pool host tenv env address w) as [w1 r].
    cbn [fst snd] in Hk1, Hb1.
    destruct (recreates uid r) eqn:Er.
    + destruct Hb1 as [Hpos Hb1].
      destruct (IH w1 (k - 1) Hk1 Hb1) as (Hk2 & Hle & Hb2).
      destruct (sub_pool_deaths host deaths w1) as [w2 rs].
      cbn [fst snd] in *. rewrite recreations_cons, Er.
      split; [done|]. split; [lia|].
      replace (k - Z.of_nat (1 + recreations uid rs))
        with (k - 1 - Z.of_nat (recreations uid rs)) by lia.
      done.
    + destruct (IH w1 k Hk1 Hb1) as (Hk2 & Hle & Hb2).
      destruct (sub_pool_deaths host deaths w1) as [w2 rs].
      cbn [fst snd] in *. rewrite recreations_cons, Er. done.
Qed.

(** C3.  For a worker whose stored launch arguments are keyed by their own
    uid and a uid with recovery counter [N]: over any sequence of sub-pool
    deaths handled by [recover_sub_pool], with any answers of the
    collaborators, the uid is re-launched at most [max 0 N] times, and
    afterwards its counter is at most [N] minus the number of re-launches (or
    the uid has neither counter nor launch arguments left): it never
    increases.  At each death of the uid's sub-pool: a counter [n > 0] is
    decremented to [n - 1] and the uid is re-launched; a counter [n <= 0] is
    not decremented and nothing is re-launched; a null counter always
    re-launches, and stays null when the configured limit is null. *)
Theorem recover_count_bounds_relaunches
    (uid : string) (N : Z) (deaths : list (TerminateEnv * LaunchEnv * string))
    (w : Worker) :
  launch_args_keyed w →
  model_uid_to_recover_count w !! uid = Some (Some N) →
  let w' := (sub_pool_deaths host deaths w).1 in
  let rs := (sub_pool_deaths host deaths w).2 in
  Z.of_nat (recreations uid rs) ≤ Z.max 0 N
  ∧ recover_budget uid (N - Z.of_nat (recreations uid rs)) w'
  ∧ (∀ tenv address w0 args,
       PyDict.first_key_of address (model_uid_to_addr w0) = Some uid →
       model_uid_to_launch_args w0 !! uid = Some args →
       let w1 := (recover_sub_pool_decide host tenv address w0).1 in
       let r := (recover_sub_pool_decide host tenv address w0).2 in
       match mjoin (model_uid_to_recover_count w0 !! uid) with
       | Some n =>
           if 0 <? n
           then r = Recreate uid args
                ∧ model_uid_to_recover_count w1 !! uid = Some (Some (n - 1))
           else r = StopRecreating uid
                ∧ (model_uid_to_recover_count w1 !! uid = None
                   ∨ model_uid_to_recover_count w1 = model_uid_to_recover_count w0)
       | None =>
           r = Recreate uid args
           ∧ (MODEL_ACTOR_AUTO_RECOVER_LIMIT host = None →
              launch_args_keyed w0 →
              ∀ env, mjoin (model_uid_to_recover_count
                              (recover_sub_pool host tenv env address w0).1 !! uid)
                     = None)
       end).
Proof.
  intros Hk Hn w' rs. subst w' rs.
  destruct (sub_pool_deaths_budget uid deaths w N Hk) as (_ & Hle & Hb).
  { left. exists N. split; [done|lia]. }
  split; [done|]. split; [done|].
  intros tenv address w0 args Hfirst Hargs.
  pose proof (recover_decide_counter uid tenv address w0 args Hfirst Hargs) as Hd.
  cbv zeta in Hd |- *.
  destruct (mjoin (model_uid_to_recover_count w0 !! uid)) as [n|] eqn:Ej; [done|].
  destruct Hd as [Hr Hc]. split; [done|].
  intros Hlimit Hk0 env. unfold recover_sub_pool.
  destruct (recover_sub_pool_decide host tenv address w0) as [w1 r]. simpl in *.
  subst r. cbn [fst snd].
  destruct (recover_model_counter env args w1 uid) as [[-> _]|(_ & -> & _)].
  - destruct Hc as [->| ->]; [done|by rewrite Ej].
  - rewrite Hlimit. simpl. destruct Hc as [->| ->]; [done|].
    destruct (model_uid_to_recover_count w0 !! uid) as [[]|]; done.
Qed.

End RecoveryFacts.

(** * Properties beyond the specification *)

(** ** The device accountant: round trips and placement *)

Lemma py_slice_to_take {A} (l : list A) n : ∃ k, py_slice_to l n = take k l.
Proof. unfold py_slice_to. destruct (0 <=? n); eauto. Qed.

Lemma elem_of_py_slice_to {A} (l : list A) n x : x ∈ py_slice_to l n → x ∈ l.
Proof.
  destruct (py_slice_to_take l n) as [k ->]. apply subseteq_take.
Qed.

Lemma elem_of_free_devices d dev :
  dev ∈ free_devices d ↔
  dev ∈ total_gpu_devices d ∧ gpu_to_model_uid d !! dev = None
  ∧ ∀ infos info, user_specified_gpu_to_model_uids d !! dev = Some infos →
                  info ∈ infos → is_embedding_or_rerank info.2 = true.
Proof.
  unfold free_devices. rewrite list_elem_of_filter.
  unfold user_specified_allocated_devices. rewrite elem_of_dom.
  split.
  - intros [[Hnone Hnot] Htot]. split_and!; [done..|].
    intros infos info Hi Hin.
    destruct (is_embedding_or_rerank info.2) eqn:E; [done|].
    exfalso. apply Hnot. exists infos. apply map_lookup_filter_Some. split; [done|].
    simpl. apply Is_true_true. unfold allocated_non_embedding_rerank_models.
    apply existsb_exists. exists info. split; [|by rewrite E].
    by apply list_elem_of_In, elem_of_elements.
  - intros (Htot & Hnone & Hpin). split; [|done]. split; [done|].
    intros [infos [Hi Hex]%map_lookup_filter_Some]. simpl in Hex.
    apply Is_true_true in Hex. unfold allocated_non_embedding_rerank_models in Hex.
    apply existsb_exists in Hex as (info & Hin & Hne).
    apply list_elem_of_In, elem_of_elements in Hin.
    rewrite (Hpin infos info Hi Hin) in Hne. done.
Qed.

(** What a successful [allocate_devices] chose and wrote. *)
Lemma allocate_devices_ok uid n d d' devs :
  allocate_devices uid n d = (d', Ok devs) →
  ∃ chosen,
    devs = sorted chosen
    ∧ (∀ dev, dev ∈ chosen → dev ∈ free_devices d)
    ∧ d' = set_gpu_to_model_uid (assign_devices uid chosen (gpu_to_model_uid d)) d.
Proof.
  unfold allocate_devices. destruct (_ <? n); [done|]. intros [= <- <-].
  eexists. split_and!; [done| |done]. intros dev. apply elem_of_py_slice_to.
Qed.

Lemma elem_of_sorted l x : x ∈ sorted l ↔ x ∈ l.
Proof. by rewrite (sorted_Permutation l). Qed.

(** X1.  Exclusive allocation followed by release is the identity on the
    device maps: when no device map refers to the uid and
    [allocate_devices uid n] returns, [release_devices uid] gives back exactly
    the device maps from before the allocation. *)
Theorem allocate_devices_release_round_trip
    (uid : string) (n : Z) (d d' : DeviceMaps) (devs : list Z) :
  ¬ holds_device uid d →
  allocate_devices uid n d = (d', Ok devs) →
  release_devices uid d' = d.
Proof.
  intros Habs (chosen & _ & Hfree & ->)%allocate_devices_ok.
  transitivity (release_devices uid d); [|by apply release_devices_absent].
  unfold release_devices. simpl. f_equal.
  apply map_eq. intros dev. rewrite !map_lookup_filter, assign_devices_lookup.
  destruct (decide (dev ∈ chosen)) as [Hin|Hnin]; [|done].
  apply Hfree, elem_of_free_devices in Hin as (_ & -> & _). simpl.
  by rewrite option_guard_False by (by intros []).
Qed.

(** X2.  [allocate_devices] never hands out an occupied GPU: every GPU it
    returns is one of [total_gpus], has no exclusive owner, and every model
    that a user pinned on it is an embedding or a rerank model. *)
Theorem allocate_devices_skips_occupied
    (uid : string) (n : Z) (d d' : DeviceMaps) (devs : list Z) :
  allocate_devices uid n d = (d', Ok devs) →
  ∀ dev, dev ∈ devs →
    dev ∈ total_gpu_devices d
    ∧ gpu_to_model_uid d !! dev = None
    ∧ ∀ infos info, user_specified_gpu_to_model_uids d !! dev = Some infos →
                    info ∈ infos → is_embedding_or_rerank info.2 = true.
Proof.
  intros (chosen & -> & Hfree & _)%allocate_devices_ok dev Hdev.
  apply (proj1 (elem_of_sorted _ _)) in Hdev.
  by apply (proj1 (elem_of_free_devices d dev)), Hfree.
Qed.

(** X3.  [release_devices uid] only concerns its uid.  [total_gpus] is
    unchanged; for every other uid the exclusive ownership, the embedding
    tenancy and the pinned tenancy of every GPU are the same before and after;
    the two defaultdict maps keep their keys (a GPU whose last tenant leaves
    stays bound to an empty set); and releasing a second time changes
    nothing. *)
Theorem release_devices_keeps_other_models (uid : string) (d : DeviceMaps) :
  let d' := release_devices uid d in
  total_gpu_devices d' = total_gpu_devices d
  ∧ (∀ dev u, u ≠ uid →
       gpu_to_model_uid d' !! dev = Some u ↔ gpu_to_model_uid d !! dev = Some u)
  ∧ (∀ dev u, u ≠ uid →
       u ∈ default ∅ (gpu_to_embedding_model_uids d' !! dev)
       ↔ u ∈ default ∅ (gpu_to_embedding_model_uids d !! dev))
  ∧ (∀ dev u type, u ≠ uid →
       (u, type) ∈ default ∅ (user_specified_gpu_to_model_uids d' !! dev)
       ↔ (u, type) ∈ default ∅ (user_specified_gpu_to_model_uids d !! dev))
  ∧ dom (gpu_to_embedding_model_uids d') = dom (gpu_to_embedding_model_uids d)
  ∧ dom (user_specified_gpu_to_model_uids d')
    = dom (user_specified_gpu_to_model_uids d)
  ∧ release_devices uid d' = d'.
Proof.
  intros d'. subst d'. split_and!.
  - done.
  - intros dev u Hu. simpl. rewrite map_lookup_filter_Some. simpl.
    split; [tauto|]. intros H. split; [done|congruence].
  - intros dev u Hu. simpl. rewrite lookup_fmap.
    destruct (gpu_to_embedding_model_uids d !! dev) as [s|]; simpl; [|done].
    rewrite elem_of_difference, elem_of_singleton. tauto.
  - intros dev u type Hu. simpl. rewrite lookup_fmap.
    destruct (user_specified_gpu_to_model_uids d !! dev) as [s|]; simpl; [|done].
    rewrite elem_of_filter. simpl. tauto.
  - simpl. apply dom_fmap_L.
  - simpl. apply dom_fmap_L.
  - apply release_devices_absent, release_devices_clears.
Qed.

(** ** GPUs outside [total_gpus] are never recorded *)

Section WithinTotal.
Variable probe : string → result bool.
Variable order : gset (string * string) → string * string → nat.

Lemma allocate_devices_within uid n d :
  devices_within_total d → devices_within_total (allocate_devices uid n d).1.
Proof.
  intros (Hg & He & Hp).
  destruct (allocate_devices uid n d) as [d' [devs|e]] eqn:E.
  - apply allocate_devices_ok in E as (chosen & _ & Hfree & ->).
    split_and!; [|done..]. intros dev. simpl. rewrite assign_devices_lookup.
    destruct (decide (dev ∈ chosen)) as [Hin|]; [|apply Hg].
    intros _. apply Hfree in Hin.
    by apply (proj1 (elem_of_free_devices _ _)) in Hin as (? & _).
  - unfold allocate_devices in E. destruct (_ <? n); simplify_eq.
    exact (conj Hg (conj He Hp)).
Qed.

Lemma allocate_devices_for_embedding_within uid d :
  devices_within_total d →
  devices_within_total (allocate_devices_for_embedding probe order uid d).1.
Proof.
  intros (Hg & He & Hp).
  destruct (allocate_devices_for_embedding probe order uid d) as [d' [dev|e]] eqn:E.
  - apply allocate_devices_for_embedding_ok in E
      as (candidates & Hc & Hne & -> & ->).
    split_and!; [done| |done]. intros dev. simpl. unfold defaultdict_add.
    rewrite lookup_insert.
    destruct (decide (_ = dev)) as [<-|]; [|apply He]. intros _.
    destruct (pick_device_min d candidates Hne) as [Hin _].
    by apply (proj1 (elem_of_embedding_candidates probe order d _ _ Hc)) in Hin
      as (? & _).
  - apply allocate_devices_for_embedding_raise in E as [-> _].
    exact (conj Hg (conj He Hp)).
Qed.

Lemma allocate_devices_with_gpu_idx_within uid type idx d :
  devices_within_total d →
  devices_within_total (allocate_devices_with_gpu_idx probe uid type idx d).1.
Proof.
  intros (Hg & He & Hp). unfold allocate_devices_with_gpu_idx.
  destruct (decide (list_to_set idx ⊆@{gset Z} list_to_set (total_gpu_devices d)))
    as [Hs|Hns].
  - rewrite bool_decide_eq_true_2 by done. simpl.
    destruct (check_gpu_idx probe d idx); [|done]. simpl.
    split_and!; [done..|]. intros dev. simpl. rewrite pin_devices_lookup.
    destruct (decide (dev ∈ idx)) as [Hin|]; [|apply Hp]. intros _.
    apply (elem_of_list_to_set (C := gset Z)), Hs. by apply elem_of_list_to_set.
  - rewrite bool_decide_eq_false_2 by done. done.
Qed.

Lemma release_devices_within uid d :
  devices_within_total d → devices_within_total (release_devices uid d).
Proof.
  intros (Hg & He & Hp). split_and!; intros dev; simpl.
  - intros [u [H _]%map_lookup_filter_Some]. apply Hg. eauto.
  - rewrite lookup_fmap, fmap_is_Some. apply He.
  - rewrite lookup_fmap, fmap_is_Some. apply Hp.
Qed.

End WithinTotal.

(** ** Ties between embedding candidates *)

Lemma pick_step_next d dev0 x :
  pick_step d (dev0, existing_cnt d dev0) x
  = if existing_cnt d x <? existing_cnt d dev0
    then (x, existing_cnt d x) else (dev0, existing_cnt d dev0).
Proof.
  pose proof (existing_cnt_nonneg d dev0) as H0.
  unfold pick_step. simpl.
  destruct (Z.eqb_spec (existing_cnt d dev0) (-1)) as [Heq|_]; [lia|done].
Qed.

Lemma pick_device_first d l dev0 :
  let r := (foldl (pick_step d) (dev0, existing_cnt d dev0) l).1 in
  (r = dev0 ∧ ∀ c, c ∈ l → existing_cnt d dev0 ≤ existing_cnt d c)
  ∨ (∃ l1 l2, l = l1 ++ r :: l2
       ∧ existing_cnt d r < existing_cnt d dev0
       ∧ (∀ c, c ∈ l1 → existing_cnt d r < existing_cnt d c)
       ∧ (∀ c, c ∈ l2 → existing_cnt d r ≤ existing_cnt d c)).
Proof.
  revert dev0. induction l as [|x l IH]; intros dev0; simpl.
  - left. split; [done|]. intros c Hc. by apply elem_of_nil in Hc.
  - rewrite pick_step_next.
    destruct (Z.ltb_spec (existing_cnt d x) (existing_cnt d dev0)) as [Hlt|Hge].
    + destruct (IH x) as [[Hr Hall]|(l1 & l2 & Hl & Hlt' & H1 & H2)].
      * right. exists [], l. simpl in *. rewrite Hr. split_and!; try done.
        intros c Hc. by apply elem_of_nil in Hc.
      * right. exists (x :: l1), l2. simpl in *. split_and!; [by f_equal|lia| |done].
        intros c [->|Hc]%elem_of_cons; [done|by apply H1].
    + destruct (IH dev0) as [[Hr Hall]|(l1 & l2 & Hl & Hlt' & H1 & H2)].
      * left. simpl in *. split; [done|].
        intros c [->|Hc]%elem_of_cons; [done|by apply Hall].
      * right. exists (x :: l1), l2. simpl in *. split_and!; [by f_equal|done| |done].
        intros c [->|Hc]%elem_of_cons; [lia|by apply H1].
Qed.

(** X4.  Ties between embedding candidates go to the first one.  The GPU
    that [allocate_devices_for_embedding] returns splits the list of
    candidates, which is in the order of [total_gpus]: every candidate before
    it has strictly more tenants, every candidate after it has at least as
    many.  This holds whatever the probe answers and in whatever order the
    pinned models of a GPU are visited. *)
Theorem allocate_devices_for_embedding_first_minimal
    (probe : string → result bool)
    (order : gset (string * string) → string * string → nat)
    (uid : string) (d d' : DeviceMaps) (dev : Z) :
  allocate_devices_for_embedding probe order uid d = (d', Ok dev) →
  ∃ l1 l2,
    embedding_candidates probe order d = Ok (l1 ++ dev :: l2)
    ∧ (∀ c, c ∈ l1 → existing_cnt d dev < existing_cnt d c)
    ∧ (∀ c, c ∈ l2 → existing_cnt d dev ≤ existing_cnt d c).
Proof.
  unfold allocate_devices_for_embedding.
  destruct (embedding_candidates probe order d) as [[|x l]|e] eqn:E; [done| |done].
  simpl length. simpl Nat.eqb. cbv iota. intros [= _ <-].
  unfold pick_device. simpl.
  change (pick_step d (-1, -1) x) with (x, existing_cnt d x).
  destruct (pick_device_first d l x) as [[Hr Hall]|(l1 & l2 & Hl & Hlt & H1 & H2)];
    simpl in *.
  - exists [], l. rewrite Hr. split_and!; [done| |done].
    intros c Hc. by apply elem_of_nil in Hc.
  - exists (x :: l1), l2. split_and!; [simpl; do 2 f_equal; exact Hl| |done].
    intros c [->|Hc]%elem_of_cons; [done|by apply H1].
Qed.

(** ** Embedding placements stay balanced *)

Lemma existing_cnt_embedding_add d dev uid c :
  existing_cnt
    (set_gpu_to_embedding_model_uids
       (defaultdict_add dev uid (gpu_to_embedding_model_uids d)) d) c
  = existing_cnt d c
    + (if decide (c = dev)
       then if decide (uid ∈ default ∅ (gpu_to_embedding_model_uids d !! dev))
            then 0 else 1
       else 0).
Proof.
  unfold existing_cnt, defaultdict_add. simpl. rewrite lookup_insert.
  destruct (decide (dev = c)) as [->|Hne].
  - rewrite decide_True by done.
    destruct (gpu_to_embedding_model_uids d !! c) as [s|] eqn:E; cbn [default from_option id].
    + destruct (decide (uid ∈ s)) as [Hin|Hnin].
      * rewrite (comm_L (∪) s), subseteq_union_1_L by (by apply singleton_subseteq_l).
        lia.
      * rewrite size_union by (by apply disjoint_singleton_r).
        rewrite size_singleton. lia.
    + rewrite decide_False by apply not_elem_of_empty.
      rewrite (left_id_L ∅ (∪)), size_singleton. lia.
  - rewrite decide_False by done. lia.
Qed.

(** X5.  Embedding placement keeps the load balanced.  When every GPU of
    [total_gpus] is a candidate (none carries a vLLM-backed model) and the
    tenant counts of any two GPUs differ by at most one, they still differ by
    at most one after [allocate_devices_for_embedding] has returned. *)
Theorem allocate_devices_for_embedding_balanced
    (probe : string → result bool)
    (order : gset (string * string) → string * string → nat)
    (uid : string) (d d' : DeviceMaps) (candidates : list Z) (dev : Z) :
  embedding_candidates probe order d = Ok candidates →
  (∀ c, c ∈ total_gpu_devices d → c ∈ candidates) →
  balanced d →
  allocate_devices_for_embedding probe order uid d = (d', Ok dev) →
  balanced d'.
Proof.
  intros Hc Hcand Hbal Halloc.
  apply allocate_devices_for_embedding_ok in Halloc
    as (candidates' & Hc' & Hne & Hdev & ->).
  rewrite Hc in Hc'. injection Hc' as <-.
  destruct (pick_device_min d _ Hne) as [_ Hmin].
  set (dv := (pick_device d candidates).1) in *. subst dev.
  intros a b Ha Hb. simpl in Ha, Hb.
  rewrite !existing_cnt_embedding_add.
  pose proof (Hbal a b Ha Hb).
  pose proof (Hmin a (Hcand a Ha)). pose proof (Hmin b (Hcand b Hb)).
  destruct (decide (a = dv)) as [->|], (decide (b = dv)) as [->|];
    try destruct (decide (uid ∈ _)); lia.
Qed.

(** ** Shared allocations and release *)

Lemma difference_singleton_absent `{Countable A} (s : gset A) (x : A) :
  x ∉ s → s ∖ {[x]} = s.
Proof.
  intros Hx. apply set_eq. intros y.
  rewrite elem_of_difference, elem_of_singleton.
  split; [tauto|]. intros Hy. split; [done|]. by intros ->.
Qed.

Lemma union_difference_singleton `{Countable A} (s : gset A) (x : A) :
  x ∉ s → (s ∪ {[x]}) ∖ {[x]} = s.
Proof.
  intros Hx. apply set_eq. intros y.
  rewrite elem_of_difference, elem_of_union, elem_of_singleton.
  split; [tauto|]. intros Hy. split; [by left|]. by intros ->.
Qed.

Lemma same_tenants_refl d : same_tenants d d.
Proof. by repeat split. Qed.

Lemma release_embedding_tenant uid dev d :
  ¬ holds_device uid d →
  same_tenants d
    (release_devices uid
       (set_gpu_to_embedding_model_uids
          (defaultdict_add dev uid (gpu_to_embedding_model_uids d)) d)).
Proof.
  intros Habs. pose proof (release_devices_absent uid d Habs) as Hid.
  assert (Hnot : ∀ dev0, uid ∉ default ∅ (gpu_to_embedding_model_uids d !! dev0)).
  { intros dev0 Hin.
    destruct (gpu_to_embedding_model_uids d !! dev0) as [s|] eqn:E; simpl in Hin.
    - apply Habs. right. left. eauto.
    - by apply not_elem_of_empty in Hin. }
  split_and!.
  - done.
  - change (gpu_to_model_uid (release_devices uid d) = gpu_to_model_uid d).
    by rewrite Hid.
  - intros dev0. simpl. rewrite lookup_fmap. unfold defaultdict_add.
    rewrite lookup_insert. destruct (decide (dev = dev0)) as [->|Hne]; simpl.
    + apply union_difference_singleton, Hnot.
    + specialize (Hnot dev0).
      destruct (gpu_to_embedding_model_uids d !! dev0) as [s|]; simpl in *; [|done].
      by apply difference_singleton_absent.
  - intros dev0.
    change (default ∅ (user_specified_gpu_to_model_uids (release_devices uid d) !! dev0)
            = default ∅ (user_specified_gpu_to_model_uids d !! dev0)).
    by rewrite Hid.
Qed.

Lemma filter_other_uid (uid : string) (s : gset (string * string)) :
  (∀ type, (uid, type) ∉ s) →
  filter (λ info : string * string, info.1 ≠ uid) s = s.
Proof.
  intros Hs. apply set_eq. intros [u ty]. rewrite elem_of_filter. simpl.
  split; [tauto|]. intros Hin. split; [|done]. intros ->. by apply (Hs ty).
Qed.

Lemma filter_other_uid_add (uid type : string) (s : gset (string * string)) :
  (∀ ty, (uid, ty) ∉ s) →
  filter (λ info : string * string, info.1 ≠ uid) (s ∪ {[(uid, type)]}) = s.
Proof.
  intros Hs. apply set_eq. intros [u ty].
  rewrite elem_of_filter, elem_of_union, elem_of_singleton. simpl.
  split.
  - intros [Hne [Hin|[= -> ->]]]; [done|by destruct Hne].
  - intros Hin. split; [|by left]. intros ->. by apply (Hs ty).
Qed.

Lemma release_pinned_tenant uid type idx d :
  ¬ holds_device uid d →
  same_tenants d
    (release_devices uid
       (set_user_specified_gpu_to_model_uids
          (pin_devices uid type idx (user_specified_gpu_to_model_uids d)) d)).
Proof.
  intros Habs. pose proof (release_devices_absent uid d Habs) as Hid.
  assert (Hnot : ∀ dev0 ty,
            (uid, ty) ∉ default ∅ (user_specified_gpu_to_model_uids d !! dev0)).
  { intros dev0 ty Hin.
    destruct (user_specified_gpu_to_model_uids d !! dev0) as [s|] eqn:E; simpl in Hin.
    - apply Habs. right. right. eauto.
    - by apply not_elem_of_empty in Hin. }
  split_and!.
  - done.
  - change (gpu_to_model_uid (release_devices uid d) = gpu_to_model_uid d).
    by rewrite Hid.
  - intros dev0.
    change (default ∅ (gpu_to_embedding_model_uids (release_devices uid d) !! dev0)
            = default ∅ (gpu_to_embedding_model_uids d !! dev0)).
    by rewrite Hid.
  - intros dev0. simpl. rewrite lookup_fmap, pin_devices_lookup.
    destruct (decide (dev0 ∈ idx)) as [Hin|Hnin]; simpl.
    + apply filter_other_uid_add, Hnot.
    + specialize (Hnot dev0).
      destruct (user_specified_gpu_to_model_uids d !! dev0) as [s|]; simpl in *; [|done].
      by apply filter_other_uid.
Qed.

Lemma cnt_default `{Countable A} (o : option (gset A)) :
  match o with Some s => Z.of_nat (size s) | None => 0 end
  = Z.of_nat (size (default ∅ o)).
Proof. destruct o; [done|]. cbn [default from_option]. by rewrite size_empty. Qed.

Lemma iterate_empty order : iterate order ∅ = [].
Proof. unfold iterate. by rewrite elements_empty. Qed.

Lemma has_vllm_model_default probe order d dev :
  has_vllm_model probe order d dev
  = match match gpu_to_model_uid d !! dev with
          | Some u => probe u | None => Ok false end with
    | Raise e => Raise e
    | Ok true => Ok true
    | Ok false =>
        probe_pinned probe
          (iterate order (default ∅ (user_specified_gpu_to_model_uids d !! dev)))
    end.
Proof.
  unfold has_vllm_model.
  destruct (user_specified_gpu_to_model_uids d !! dev);
    cbn [default from_option id]; [done|].
  by rewrite iterate_empty.
Qed.

Lemma embedding_candidates_of_ext probe order d d' devs :
  (∀ dev, embedding_candidate probe order d' dev = embedding_candidate probe order d dev) →
  embedding_candidates_of probe order d' devs = embedding_candidates_of probe order d devs.
Proof.
  intros H. induction devs as [|x l IH]; simpl; [done|]. by rewrite H, IH.
Qed.

(** The allocators read a device map through the tenants of its GPUs only. *)
Lemma same_tenants_observations probe order d d' :
  same_tenants d d' →
  (∀ dev, existing_cnt d' dev = existing_cnt d dev)
  ∧ free_devices d' = free_devices d
  ∧ embedding_candidates probe order d' = embedding_candidates probe order d.
Proof.
  intros (Ht & Hg & He & Hp). split_and!.
  - intros dev. unfold existing_cnt. rewrite !cnt_default, Hg, He, Hp. done.
  - unfold free_devices. rewrite Ht. apply list_filter_iff. intros dev.
    rewrite Hg, !elem_of_user_specified_allocated_devices, Hp. done.
  - unfold embedding_candidates. rewrite Ht. apply embedding_candidates_of_ext.
    intros dev.
    by rewrite !embedding_candidate_has_vllm_model, !has_vllm_model_default, Hg, Hp.
Qed.

(** X6.  A shared allocation followed by release leaves every tenant as
    before.  When no device map refers to the uid,
    [allocate_devices_for_embedding uid] or [allocate_devices_with_gpu_idx uid]
    followed by [release_devices uid] gives device maps with the same
    [total_gpus], the same exclusive owners and, GPU by GPU, the same
    embedding and pinned tenants as before (a key bound to an empty set may
    remain in a defaultdict map).  Device maps that agree in this way give the
    same tenant counts, the same free GPUs and the same embedding
    candidates (or the same error of the probe). *)
Theorem shared_allocation_release_round_trip
    (probe : string → result bool)
    (order : gset (string * string) → string * string → nat)
    (uid : string) (d : DeviceMaps) :
  ¬ holds_device uid d →
  (∀ d' dev,
     allocate_devices_for_embedding probe order uid d = (d', Ok dev) →
     same_tenants d (release_devices uid d'))
  ∧ (∀ type idx d' devs,
       allocate_devices_with_gpu_idx probe uid type idx d = (d', Ok devs) →
       same_tenants d (release_devices uid d'))
  ∧ (∀ d', same_tenants d d' →
       (∀ dev, existing_cnt d' dev = existing_cnt d dev)
       ∧ free_devices d' = free_devices d
       ∧ embedding_candidates probe order d' = embedding_candidates probe order d).
Proof.
  intros Habs. split_and!.
  - intros d' dev (candidates & _ & _ & _ & ->)%allocate_devices_for_embedding_ok.
    by apply release_embedding_tenant.
  - intros type idx d' devs. unfold allocate_devices_with_gpu_idx.
    destruct (negb _); [done|]. destruct (check_gpu_idx _ _ _); [|done].
    intros [= <- _]. by apply release_pinned_tenant.
  - intros d'. apply same_tenants_observations.
Qed.

(** X7.  In [_create_subpool] without [gpu_idx], an embedding or rerank
    model never takes an exclusive GPU: the owner map and the pinned map are
    unchanged, and either no device is allocated and the device maps are
    unchanged, or the one device returned is the one that
    [allocate_devices_for_embedding] chose.  With an integer [n_gpu],
    whatever its value, exactly one device is returned. *)
Theorem create_subpool_embedding_one_shared_device
    (host : Host) (uid type : string) (n : option n_gpu_arg)
    (d d' : DeviceMaps) (devs : list Z) :
  is_embedding_or_rerank type = true →
  create_subpool_devices host uid type n None d = (d', Ok devs) →
  gpu_to_model_uid d' = gpu_to_model_uid d
  ∧ user_specified_gpu_to_model_uids d' = user_specified_gpu_to_model_uids d
  ∧ ((devs = [] ∧ d' = d)
     ∨ ∃ dev, devs = [dev]
         ∧ allocate_devices_for_embedding (is_model_vllm_backend host)
             (set_order host) uid d
           = (d', Ok dev))
  ∧ (∀ k, n = Some (NGpuInt k) → length devs = 1%nat).
Proof.
  intros Htype. unfold create_subpool_devices. rewrite Htype.
  assert (Hemb : ∀ d0 devs0,
    match allocate_devices_for_embedding (is_model_vllm_backend host)
            (set_order host) uid d with
    | (d1, Ok dev) => (d1, Ok [dev])
    | (d1, Raise e) => (d1, Raise e)
    end = (d0, Ok devs0) →
    gpu_to_model_uid d0 = gpu_to_model_uid d
    ∧ user_specified_gpu_to_model_uids d0 = user_specified_gpu_to_model_uids d
    ∧ ∃ dev, devs0 = [dev]
        ∧ allocate_devices_for_embedding (is_model_vllm_backend host)
            (set_order host) uid d
          = (d0, Ok dev)).
  { intros d0 devs0.
    destruct (allocate_devices_for_embedding _ _ uid d) as [d1 [dev|e]] eqn:E; [|done].
    intros [= <- <-].
    pose proof E as (candidates & _ & _ & _ & ->)%allocate_devices_for_embedding_ok.
    eauto. }
  destruct n as [[k|s]|].
  - intros (Hg & Hp & dev & -> & Ha)%Hemb. split_and!; eauto.
  - destruct (_ && _).
    + intros (Hg & Hp & dev & -> & Ha)%Hemb. split_and!; eauto.
    + intros [= <- <-]. split_and!; auto. done.
  - intros [= <- <-]. split_and!; auto. done.
Qed.

(** ** A launch that returns *)

Lemma leave_raise uid e w : ∃ e', (leave uid (@Raise string e) w).2 = Returned (Raise e').
Proof. unfold leave. destruct (del_launching_guard uid w) as [w' []]; simpl; eauto. Qed.

Section StepFacts.
Context (host : Host).

Lemma after_commit_ok env t w w' a :
  after_commit env t w = (w', Ok a) →
  a = subpool_address t ∧ status_guard_ref w' = true
  ∧ status_guard w' = status_guard w ++ [(origin_uid t, READY)]
  ∧ same_tables w w'
  ∧ env_model_ability env = true ∧ env_update_instance_info env = true.
Proof.
  unfold after_commit. destruct (env_model_ability env); [|done]. simpl.
  pose proof (get_supervisor_ref_frame (env_supervisor env) w) as Hf. cbv zeta in Hf.
  destruct (get_supervisor_ref (env_supervisor env) w) as [w1 [[]|e]]; [|done].
  simpl in Hf. destruct (status_guard_ref w1) eqn:E; [|done].
  unfold update_instance_info. destruct (env_update_instance_info env); [|done].
  intros [= <- <-]. simpl. rewrite Hf. by repeat split.
Qed.

Lemma launch_step_follows env t w :
  task_follows env t →
  match (launch_builtin_model_step host env t w).2 with
  | Suspended t' =>
      task_follows env t' ∧ origin_uid t' = origin_uid t
      ∧ launch_info t' = launch_info t
  | Returned (Ok a) =>
      ∃ m, at_stage t = AtLoad m ∧ a = subpool_address t
        ∧ env_append_sub_pool env = Some a
        ∧ env_create_model_instance env = Some m
        ∧ status_guard_ref (launch_builtin_model_step host env t w).1 = true
        ∧ status_guard (launch_builtin_model_step host env t w).1
          = status_guard w ++ [(origin_uid t, READY)]
        ∧ same_tables (commit host t m w) (launch_builtin_model_step host env t w).1
  | Returned (Raise _) => True
  end.
Proof.
  intros Hfol.
  assert (Hfail : ∀ t0 e w0,
    match (failure_path t0 e w0).2 with
    | Suspended _ => False | Returned (Ok _) => False | Returned (Raise _) => True
    end).
  { intros t0 e w0. by destruct (failure_path_returns t0 e w0) as [r ->]. }
  assert (Hleave : ∀ uid e w0,
    match (leave uid (@Raise string e) w0).2 with
    | Suspended _ => False | Returned (Ok _) => False | Returned (Raise _) => True
    end).
  { intros uid e w0. by destruct (leave_raise uid e w0) as [r ->]. }
  unfold task_follows in Hfol.
  unfold launch_builtin_model_step. cbv zeta.
  destruct (at_stage t) as [| | |m|m|m|m] eqn:Est.
  - destruct (env_create_virtual_env env); simpl.
    + destruct (create_subpool_devices _ _ _ _ _ _) as [d [devs|e]]; simpl.
      * unfold task_follows. simpl. done.
      * specialize (Hleave (model_uid (launch_args t)) e (set_devices d w)).
        by destruct (leave _ _ _) as [? [|[]]].
    + specialize (Hleave (model_uid (launch_args t)) Downstream w).
      by destruct (leave _ _ _) as [? [|[]]].
  - destruct (env_append_sub_pool env) as [address|] eqn:Ea; simpl.
    + unfold task_follows. simpl. done.
    + specialize (Hleave (model_uid (launch_args t)) Downstream w).
      by destruct (leave _ _ _) as [? [|[]]].
  - destruct (env_create_model_instance env) as [model|] eqn:Em.
    + destruct (cancelled t w).
      * specialize (Hfail t Cancelled w). by destruct (failure_path _ _ _) as [? [|[]]].
      * destruct (has_virtual_env_manager t); simpl; unfold task_follows; simpl;
          rewrite Em; done.
    + specialize (Hfail t Downstream w). by destruct (failure_path _ _ _) as [? [|[]]].
  - destruct (env_prepare_virtual_env env); simpl.
    + destruct (cancelled _ _).
      * match goal with |- context [failure_path t Cancelled ?w0] =>
          specialize (Hfail t Cancelled w0);
          by destruct (failure_path t Cancelled w0) as [? [|[]]] end.
      * simpl. unfold task_follows. simpl. done.
    + specialize (Hfail t Downstream w). by destruct (failure_path _ _ _) as [? [|[]]].
  - destruct (env_create_actor env); simpl.
    + destruct (_ && _).
      * simpl. unfold task_follows. simpl. done.
      * unfold before_load. destruct (cancelled t w).
        -- specialize (Hfail t Cancelled w).
           by destruct (failure_path _ _ _) as [? [|[]]].
        -- simpl. unfold task_follows. simpl. done.
    + specialize (Hfail t Downstream w). by destruct (failure_path _ _ _) as [? [|[]]].
  - destruct (gathered _) as [pool_addresses|].
    + destruct (env_set_pool_addresses env); simpl.
      * unfold before_load. destruct (cancelled _ _).
        -- match goal with |- context [failure_path ?t0 Cancelled ?w0] =>
             specialize (Hfail t0 Cancelled w0);
             by destruct (failure_path t0 Cancelled w0) as [? [|[]]] end.
        -- simpl. unfold task_follows. simpl. done.
      * match goal with |- context [failure_path ?t0 Downstream ?w0] =>
          specialize (Hfail t0 Downstream w0);
          by destruct (failure_path t0 Downstream w0) as [? [|[]]] end.
    + match goal with |- context [failure_path ?t0 Downstream ?w0] =>
        specialize (Hfail t0 Downstream w0);
        by destruct (failure_path t0 Downstream w0) as [? [|[]]] end.
  - destruct (env_load env).
    + pose proof (leave_fst (model_uid (launch_args t)) (Ok (subpool_address t))
                    (commit host t m w)) as Hl.
      destruct (leave _ _ _) as [w1 [t1|[a|e]]] eqn:El; simpl in Hl; [| |done].
      * unfold leave in El. by destruct (del_launching_guard _ _) as [? []].
      * destruct (after_commit env t w1) as [w2 [a2|e2]] eqn:Eac; [|done].
        apply after_commit_ok in Eac as (-> & Hsg & Hst & Hsame & _).
        destruct Hfol as [Ha Hm]. simpl. exists m. split_and!; try done.
        -- rewrite Hst, Hl. done.
        -- eapply same_tables_trans; [|exact Hsame]. rewrite Hl. by repeat split.
    + destruct (cancelled t w).
      * specialize (Hfail t Cancelled w). by destruct (failure_path _ _ _) as [? [|[]]].
      * specialize (Hfail t Downstream w). by destruct (failure_path _ _ _) as [? [|[]]].
    + specialize (Hfail t Downstream w). by destruct (failure_path _ _ _) as [? [|[]]].
Qed.

Lemma run_launch_ok fuel env t w w' a :
  task_follows env t →
  run_launch host fuel env t w = (w', Some (Ok a)) →
  ∃ t' m,
    launch_args t' = launch_args t ∧ subpool_address t' = a
    ∧ env_append_sub_pool env = Some a
    ∧ env_create_model_instance env = Some m
    ∧ same_tables (commit host t' m w) w'
    ∧ status_guard_ref w' = true
    ∧ ∃ l, status_guard w' = l ++ [(origin_uid t, READY)].
Proof.
  revert t w. induction fuel as [|fuel IH]; intros t w Hfol; [done|].
  simpl.
  set (w0 := if env_cancel_at env (stage_index (at_stage t))
             then (cancel_launch_model host (env_cancel_update_instance_info env)
                     (model_uid (launch_args t)) w).1
             else w).
  assert (same_tables w w0) as Hs0.
  { subst w0. destruct (env_cancel_at _ _); [|apply same_tables_refl].
    by destruct (cancel_launch_model_tables host
                   (env_cancel_update_instance_info env)
                   (model_uid (launch_args t)) w). }
  pose proof (launch_step_follows env t w0 Hfol) as Hstep.
  pose proof (launch_step_tables host env t w0) as Htab.
  pose proof (launch_step_progress host env t w0) as Hprog.
  destruct (launch_builtin_model_step host env t w0) as [w1 p]. simpl in *.
  destruct p as [t'|[a'|e]]; [| |done].
  - destruct Hstep as (Hfol' & Ho & _). destruct Hprog as [Hargs Hlt].
    intros Hrun. destruct (IH t' w1 Hfol' Hrun) as (t'' & m & Ha & Hsa & Hea & Hem & Hst & Hsg & l & Hl).
    assert (same_tables w0 w1) as Hs1.
    { destruct Htab as [[H _]|(m' & Hst' & _)]; [done|].
      rewrite Hst' in Hlt. pose proof (stage_index_le (at_stage t')).
      simpl in Hlt. lia. }
    exists t'', m. split_and!; try done; [congruence| |].
    + eapply same_tables_trans; [|exact Hst]. apply same_tables_commit.
      by eapply same_tables_trans.
    + exists l. by rewrite <- Ho.
  - intros [= <- <-].
    destruct Hstep as (m & Hst & -> & Hea & Hem & Hsg & Hl & Hsame).
    exists t, m. split_and!; try done.
    + eapply same_tables_trans; [|exact Hsame]. by apply same_tables_commit.
    + eauto.
Qed.

Lemma launch_begin_ok reachable args w w1 t :
  launch_builtin_model_begin host reachable args w = (w1, Ok t) →
  ∃ origin idx,
    parse_replica_model_uid host (model_uid args) = Some (origin, idx)
    ∧ origin_uid t = origin ∧ launch_args t = args ∧ at_stage t = AtVirtualEnv
    ∧ launch_info t = length (launch_infos w)
    ∧ launch_infos w1 = launch_infos w ++ [new_launch_info]
    ∧ model_uid_launching_guard w1
      = <[model_uid args := launch_info t]> (model_uid_launching_guard w)
    ∧ model_uid_to_model w !! model_uid args = None
    ∧ model_uid_launching_guard w !! model_uid args = None
    ∧ same_tables w w1 ∧ devices w1 = devices w ∧ main_pool w1 = main_pool w
    ∧ status_guard w1 = status_guard w.
Proof.
  unfold launch_builtin_model_begin.
  destruct (parse_replica_model_uid host (model_uid args)) as [[origin idx]|]; [|done].
  pose proof (get_supervisor_ref_frame reachable w) as Hf. cbv zeta in Hf.
  set (w0 := (get_supervisor_ref reachable w).1) in *.
  destruct (pre_validate host args w0) as [[]|e] eqn:Ev; [|done].
  rewrite Hf, pre_validate_refs in Ev. apply pre_validate_ok in Ev as [Hm Hg].
  simpl. intros [= <- <-]. exists origin, idx. simpl. rewrite Hf. simpl.
  by repeat split.
Qed.

(** A launch that returns an address has committed the model at it. *)
Lemma launch_builtin_model_ok env args w w' a :
  launch_builtin_model host env args w = (w', Some (Ok a)) →
  ∃ t m origin idx,
    launch_args t = args ∧ subpool_address t = a
    ∧ env_append_sub_pool env = Some a
    ∧ env_create_model_instance env = Some m
    ∧ parse_replica_model_uid host (model_uid args) = Some (origin, idx)
    ∧ same_tables (commit host t m w) w'
    ∧ model_uid_launching_guard w' = model_uid_launching_guard w
    ∧ model_uid_to_model w !! model_uid args = None
    ∧ model_uid_launching_guard w !! model_uid args = None
    ∧ status_guard_ref w' = true
    ∧ ∃ l, status_guard w' = l ++ [(origin, READY)].
Proof.
  unfold launch_builtin_model.
  destruct (launch_builtin_model_begin host (env_supervisor env) args w)
    as [w1 [t|e]] eqn:Eb; [|done].
  apply launch_begin_ok in Eb
    as (origin & idx & Hp & Ho & Hargs & Hst & _ & _ & Hg1 & Hm & Hg & Hs1 & _).
  intros Hrun.
  destruct (run_launch_returns host 7 env t w1) as (w2 & r & Hrun' & Hgu & Hgo & _).
  { rewrite Hst. simpl. lia. }
  rewrite Hrun in Hrun'. injection Hrun' as <- <-.
  apply run_launch_ok in Hrun as (t' & m & Ha & Hsa & Hea & Hem & Hsame & Hsg & l & Hl);
    [|unfold task_follows; by rewrite Hst].
  exists t', m, origin, idx. split_and!; try done; [congruence| | |].
  - eapply same_tables_trans; [|exact Hsame]. by apply same_tables_commit.
  - apply map_eq. intros u. rewrite Hargs in *.
    destruct (decide (u = model_uid args)) as [->|Hne]; [by rewrite Hgu, Hg|].
    rewrite Hgo, Hg1 by done. by rewrite lookup_insert_ne.
  - exists l. by rewrite <- Ho.
Qed.

End StepFacts.

(** ** Launch, queries and termination *)


Section SuccessFacts.
Context (host : Host).

(** X8.  What a call of [launch_builtin_model] that returns an address has
    done.  The address is the one [append_sub_pool] gave and the model is the
    one [create_model_instance] gave; the uid had no launch status before and
    has READY after; the Launching Guard is as before the call; the Model
    Table binds the uid to the ModelActor of this uid at this address, and
    the description, a fresh status record, the address and the launch
    arguments are stored under the uid; the recovery counter of the uid keeps
    its value if it had one and is the configured limit otherwise, and the
    counters of other uids are unchanged; [get_model] and [describe_model]
    return the reference and the description; and READY for the origin uid
    is the last status sent to the Status Guard. *)
Theorem launch_builtin_model_success
    (env : LaunchEnv) (args : LaunchArgs) (w w' : Worker) (a : string) :
  launch_builtin_model host env args w = (w', Some (Ok a)) →
  let uid := model_uid args in
  ∃ m origin idx,
    env_append_sub_pool env = Some a
    ∧ env_create_model_instance env = Some m
    ∧ parse_replica_model_uid host uid = Some (origin, idx)
    ∧ get_model_launch_status uid w = None
    ∧ get_model_launch_status uid w' = Some READY
    ∧ model_uid_launching_guard w' = model_uid_launching_guard w
    ∧ model_uid_to_model w' = <[uid := mkActorRef ModelActor uid a]> (model_uid_to_model w)
    ∧ model_uid_to_model_spec w' = <[uid := to_description m]> (model_uid_to_model_spec w)
    ∧ model_uid_to_model_status w'
      = <[uid := mkModelStatus ""]> (model_uid_to_model_status w)
    ∧ model_uid_to_addr w' = PyDict.set uid a (model_uid_to_addr w)
    ∧ model_uid_to_launch_args w' = <[uid := args]> (model_uid_to_launch_args w)
    ∧ model_uid_to_recover_count w' !! uid
      = Some (default (MODEL_ACTOR_AUTO_RECOVER_LIMIT host)
                (model_uid_to_recover_count w !! uid))
    ∧ (∀ u, u ≠ uid →
         model_uid_to_recover_count w' !! u = model_uid_to_recover_count w !! u)
    ∧ get_model uid w' = inr (mkActorRef ModelActor uid a)
    ∧ describe_model uid w' = inr (to_description m)
    ∧ ∃ l, status_guard w' = l ++ [(origin, READY)].
Proof.
  intros (t & m & origin & idx & Hargs & Hsa & Hea & Hem & Hp & Hsame & Hg & Hm & Hgu
          & Hsg & l & Hl)%launch_builtin_model_ok uid.
  destruct Hsame as (Hmo & Hsp & Hst & Had & Hrc & Hla).
  simpl in Hmo, Hsp, Hst, Had, Hrc, Hla. rewrite Hargs, Hsa in *. fold uid in Hmo, Hsp, Hst, Had, Hrc, Hla, Hm, Hgu.
  exists m, origin, idx. split_and!; try done.
  - unfold get_model_launch_status. by rewrite Hgu, Hm.
  - unfold get_model_launch_status. by rewrite Hg, Hgu, Hmo, lookup_insert_eq.
  - by rewrite Hrc, setdefault_lookup, decide_True.
  - intros u Hu. by rewrite Hrc, setdefault_lookup, decide_False.
  - unfold get_model, recorded_error. by rewrite Hst, Hmo, !lookup_insert_eq.
  - unfold describe_model. by rewrite Hsp, lookup_insert_eq.
  - eauto.
Qed.

End SuccessFacts.

Section TerminateCleanup.
Context (host : Host).

Lemma terminate_finally_all env uid origin is_model_die w :
  let w' := (terminate_finally env uid origin is_model_die w).1 in
  model_uid_launching_guard w' = model_uid_launching_guard w
  ∧ launch_infos w' = launch_infos w
  ∧ main_pool w' = main_pool w
  ∧ model_uid_to_model w' = delete uid (model_uid_to_model w)
  ∧ model_uid_to_model_spec w' = delete uid (model_uid_to_model_spec w)
  ∧ model_uid_to_model_status w'
    = (if is_model_die then model_uid_to_model_status w
       else delete uid (model_uid_to_model_status w))
  ∧ model_uid_to_addr w' = PyDict.pop uid (model_uid_to_addr w)
  ∧ model_uid_to_recover_count w' = delete uid (model_uid_to_recover_count w)
  ∧ model_uid_to_launch_args w' = delete uid (model_uid_to_launch_args w)
  ∧ devices w' = release_devices uid (devices w).
Proof.
  unfold terminate_finally, get_supervisor_ref, update_instance_info. cbv zeta.
  destruct is_model_die, (term_final_pushed env); simpl;
    destruct (status_guard_ref w) eqn:E1; simpl; rewrite ?E1; simpl;
    try (by repeat split);
    destruct (supervisor_ref w) eqn:E2; simpl; rewrite ?E1; simpl;
    try (by repeat split);
    destruct (term_supervisor env); simpl; by repeat split.
Qed.



(** When the TERMINATING push raises, [terminate_model] raises there: nothing
    is popped, released or removed, and no status is sent. *)
Lemma terminate_model_push_raises env uid origin is_model_die w :
  model_uid_launching_guard w !! uid = None →
  terminate_origin_uid host uid = Some origin →
  terminating_push_raises env w = true →
  let r := terminate_model host env uid is_model_die w in
  r.2 = Raise Downstream
  ∧ same_tables w r.1 ∧ devices r.1 = devices w ∧ main_pool r.1 = main_pool w
  ∧ model_uid_launching_guard r.1 = model_uid_launching_guard w
  ∧ status_guard r.1 = status_guard w.
Proof.
  intros Hguard Horigin [Hsg Hp%negb_true_iff]%andb_true_iff.
  unfold terminate_model. rewrite Hguard, Horigin. cbv zeta.
  pose proof (get_supervisor_ref_frame (term_supervisor env) w) as Hf. cbv zeta in Hf.
  set (w1 := (get_supervisor_ref (term_supervisor env) w).1) in *.
  rewrite Hsg, Hp. unfold update_instance_info. simpl. rewrite Hf.
  by repeat split.
Qed.

(** [terminate_model] past its two entry checks: whatever it returns, the
    entries of the uid are dropped, its devices released and its sub-pools
    removed. *)
Lemma terminate_model_cleans env uid origin is_model_die w :
  model_uid_launching_guard w !! uid = None →
  terminate_origin_uid host uid = Some origin →
  terminating_push_raises env w = false →
  let w' := (terminate_model host env uid is_model_die w).1 in
  model_uid_launching_guard w' = model_uid_launching_guard w
  ∧ launch_infos w' = launch_infos w
  ∧ model_uid_to_model w' = delete uid (model_uid_to_model w)
  ∧ model_uid_to_model_spec w' = delete uid (model_uid_to_model_spec w)
  ∧ model_uid_to_model_status w'
    = (if is_model_die then model_uid_to_model_status w
       else delete uid (model_uid_to_model_status w))
  ∧ model_uid_to_addr w' = PyDict.pop uid (model_uid_to_addr w)
  ∧ model_uid_to_recover_count w' = delete uid (model_uid_to_recover_count w)
  ∧ model_uid_to_launch_args w' = delete uid (model_uid_to_launch_args w)
  ∧ devices w' = release_devices uid (devices w)
  ∧ main_pool w'
    = match PyDict.get uid (model_uid_to_addr w) with
      | Some a =>
          main_pool
            (remove_sub_pools
               (a :: default [] (match model_uid_to_model w !! uid with
                                 | Some _ => term_pool_addresses env
                                 | None => None
                                 end)) w)
      | None => main_pool w
      end.
Proof.
  intros Hguard Horigin Hpush. unfold terminate_model. rewrite Hguard, Horigin.
  cbv zeta. unfold terminating_push_raises in Hpush.
  pose proof (get_supervisor_ref_frame (term_supervisor env) w) as Hf. cbv zeta in Hf.
  set (w1 := (get_supervisor_ref (term_supervisor env) w).1) in *.
  set (w2 := if status_guard_ref w1
             then set_status_guard (status_guard w1 ++ [(origin, TERMINATING)]) w1
             else w1).
  assert ((if status_guard_ref w1
           then update_instance_info (term_terminating_pushed env) origin
                  TERMINATING w1
           else (w1, Ok tt)) = (w2, Ok tt)) as ->.
  { subst w2. unfold update_instance_info.
    destruct (status_guard_ref w1); [|done].
    by destruct (term_terminating_pushed env). }
  assert (Hw2 : w2 = set_status_guard (status_guard w2) w1).
  { subst w2. destruct (status_guard_ref w1); [done|by destruct w1]. }
  set (pa := match model_uid_to_model w2 !! uid with
             | Some _ => term_pool_addresses env | None => None end).
  pose proof (terminate_remove_sub_pools_frame uid pa w2) as Hw3.
  assert (Hpool : main_pool (terminate_remove_sub_pools uid pa w2)
                  = match PyDict.get uid (model_uid_to_addr w) with
                    | Some a =>
                        main_pool
                          (remove_sub_pools
                             (a :: default [] (match model_uid_to_model w !! uid with
                                               | Some _ => term_pool_addresses env
                                               | None => None
                                               end)) w)
                    | None => main_pool w
                    end).
  { unfold terminate_remove_sub_pools.
    assert (model_uid_to_addr w2 = model_uid_to_addr w) as -> by (by rewrite Hw2, Hf).
    assert (pa = match model_uid_to_model w !! uid with
                 | Some _ => term_pool_addresses env | None => None end) as ->
      by (subst pa; by rewrite Hw2, Hf).
    destruct (PyDict.get uid (model_uid_to_addr w)) as [a|]; [|by rewrite Hw2, Hf].
    rewrite gather_remove_sub_pools_fst.
    set (l := a :: _).
    assert (∀ x, x ∈ main_pool (remove_sub_pools l w2) ↔ x ∈ main_pool (remove_sub_pools l w)) as Hx.
    { intros x. rewrite !main_pool_remove_sub_pools. by rewrite Hw2, Hf. }
    apply set_eq. exact Hx. }
  set (w3 := terminate_remove_sub_pools uid pa w2) in *.
  destruct (terminate_finally_all env uid origin is_model_die w3)
    as (Hg & Hli & Hmp & Hm & Hsp & Hst & Ha & Hc & Hl & Hd).
  rewrite Hg, Hli, Hmp, Hm, Hsp, Hst, Ha, Hc, Hl, Hd, Hpool, Hw3. simpl.
  rewrite Hw2. simpl. rewrite Hf. simpl. by repeat split.
Qed.


End TerminateCleanup.

Section QueryFacts.
Context (host : Host).

(** X10.  [update_model_status] and [get_model].  For a uid without a status
    record the update does nothing.  For a uid with one: after
    [update_model_status] has set [last_error] to a non-empty message,
    [get_model] raises the exception that carries this message, whether or
    not the uid is in the Model Table; after [last_error] is set to the empty
    string, [get_model] returns the model reference, or raises not-found when
    there is none.  An update never changes what [get_model] answers for
    another uid, nor the Model Table, nor the set of uids that have a status
    record. *)
Theorem update_model_status_get_model (uid msg : string) (w : Worker) :
  (model_uid_to_model_status w !! uid = None →
     ∀ kwargs, update_model_status uid kwargs w = w)
  ∧ (is_Some (model_uid_to_model_status w !! uid) → msg ≠ "" →
       get_model uid (update_model_status uid [("last_error", msg)] w)
       = inl (LastError msg))
  ∧ (is_Some (model_uid_to_model_status w !! uid) →
       get_model uid (update_model_status uid [("last_error", "")] w)
       = match model_uid_to_model w !! uid with
         | Some model_ref => inr model_ref
         | None => inl NotFound
         end)
  ∧ (∀ u kwargs, u ≠ uid →
       get_model u (update_model_status uid kwargs w) = get_model u w)
  ∧ (∀ kwargs,
       model_uid_to_model (update_model_status uid kwargs w) = model_uid_to_model w
       ∧ dom (model_uid_to_model_status (update_model_status uid kwargs w))
         = dom (model_uid_to_model_status w)).
Proof.
  split_and!.
  - intros Hnone kwargs. unfold update_model_status. by rewrite Hnone.
  - intros [st Hst] Hmsg. unfold update_model_status, get_model, recorded_error.
    rewrite Hst. simpl. rewrite lookup_insert_eq. simpl.
    destruct (String.eqb_spec msg ""); done.
  - intros [st Hst]. unfold update_model_status, get_model, recorded_error.
    rewrite Hst. simpl. by rewrite lookup_insert_eq.
  - intros u kwargs Hu. unfold update_model_status, get_model, recorded_error.
    destruct (model_uid_to_model_status w !! uid); [|done]. simpl.
    by rewrite lookup_insert_ne.
  - intros kwargs. unfold update_model_status.
    destruct (model_uid_to_model_status w !! uid) as [st|] eqn:E; [|done].
    simpl. split; [done|]. rewrite dom_insert_L.
    apply subseteq_union_1_L, singleton_subseteq_l, elem_of_dom. eauto.
Qed.

(** X11.  [terminate_model] keeps the status record of a model that died
    and pops it otherwise.  For a uid that is not in the Launching Guard,
    whose origin uid can be computed and that has a status record.  When the
    TERMINATING push does not raise: after a termination with
    [is_model_die], [get_model_status] still returns the record and
    [get_model] raises its last error if there is one and not-found
    otherwise; after a termination without it, [get_model_status] returns
    None and [get_model] raises not-found; [describe_model] raises not-found
    in both cases.  When the TERMINATING push raises, the call raises and
    [get_model_status], [get_model] and [describe_model] answer as before
    it. *)
Theorem dead_model_keeps_last_error
    (env : TerminateEnv) (uid origin : string) (st : ModelStatus) (w : Worker) :
  model_uid_launching_guard w !! uid = None →
  terminate_origin_uid host uid = Some origin →
  model_uid_to_model_status w !! uid = Some st →
  let died := (terminate_model host env uid true w).1 in
  let stopped := (terminate_model host env uid false w).1 in
  (terminating_push_raises env w = false →
   get_model_status uid died = Some st
   ∧ get_model uid died
     = inl (if (last_error st =? "")%string then NotFound
            else LastError (last_error st))
   ∧ describe_model uid died = inl NotFound
   ∧ get_model_status uid stopped = None
   ∧ get_model uid stopped = inl NotFound
   ∧ describe_model uid stopped = inl NotFound)
  ∧ (terminating_push_raises env w = true →
     ∀ is_model_die,
       let r := terminate_model host env uid is_model_die w in
       r.2 = Raise Downstream
       ∧ get_model_status uid r.1 = Some st
       ∧ get_model uid r.1 = get_model uid w
       ∧ describe_model uid r.1 = describe_model uid w).
Proof.
  intros Hguard Horigin Hst died stopped. split.
  - intros Hpush.
    destruct (terminate_model_cleans host env uid origin true w Hguard Horigin Hpush)
      as (_ & _ & Hm1 & Hsp1 & Hst1 & _).
    destruct (terminate_model_cleans host env uid origin false w Hguard Horigin Hpush)
      as (_ & _ & Hm2 & Hsp2 & Hst2 & _).
    fold died in Hm1, Hsp1, Hst1. fold stopped in Hm2, Hsp2, Hst2.
    unfold get_model_status, get_model, describe_model, recorded_error.
    rewrite Hm1, Hsp1, Hst1, Hm2, Hsp2, Hst2, Hst, !lookup_delete_eq.
    split_and!; try done. by destruct (last_error st =? "")%string.
  - intros Hpush is_model_die r.
    destruct (terminate_model_push_raises host env uid origin is_model_die w
                Hguard Horigin Hpush) as (Hr & (Hm & Hsp & Hs & _) & _).
    fold r in Hr, Hm, Hsp, Hs.
    unfold get_model_status, get_model, describe_model, recorded_error.
    by rewrite Hm, Hsp, Hs, Hst.
Qed.




(** X13.  A uid that is running or launching cannot be launched again.  When
    the uid is in the Model Table or in the Launching Guard,
    [launch_builtin_model] raises, and the six tables, the device maps, the
    main pool, the Launching Guard, the LaunchInfo objects and the statuses
    sent to the Status Guard are as before the call; the running model and
    the launch in progress are not disturbed.  When the uid parses and the
    validations of [n_gpu], PEFT, [model_path] and the model name pass, the
    error is Conflict. *)
Theorem launch_of_known_uid_rejected (env : LaunchEnv) (args : LaunchArgs) (w : Worker) :
  is_Some (model_uid_to_model w !! model_uid args)
  ∨ is_Some (model_uid_launching_guard w !! model_uid args) →
  let r := launch_builtin_model host env args w in
  (∃ e, r.2 = Some (Raise e))
  ∧ same_tables w r.1 ∧ devices r.1 = devices w ∧ main_pool r.1 = main_pool w
  ∧ model_uid_launching_guard r.1 = model_uid_launching_guard w
  ∧ launch_infos r.1 = launch_infos w
  ∧ status_guard r.1 = status_guard w
  ∧ (is_Some (parse_replica_model_uid host (model_uid args)) →
     validate_n_gpu host (n_gpu args) = Ok tt →
     validate_peft args = Ok tt →
     validate_model_path host args = Ok tt →
     check_model_is_valid host (model_name args) (model_format args) = Ok tt →
     r.2 = Some (Raise Conflict)).
Proof.
  intros Hknown r. subst r. unfold launch_builtin_model.
  pose proof (launch_begin_spec host (env_supervisor env) args w) as Hb.
  destruct (launch_builtin_model_begin host (env_supervisor env) args w)
    as [w1 [t|e]] eqn:Eb; simpl in Hb.
  - destruct Hb as (_ & _ & _ & _ & _ & _ & Hm & Hg & _).
    rewrite Hm, Hg in Hknown. by destruct Hknown as [[]|[]].
  - destruct Hb as (Hs & Hd & Hmp & Hst & Hg & Hli). simpl.
    split_and!; try done; [eauto|].
    intros [[origin idx] Hp] Hn Hpe Hpa Hch.
    unfold launch_builtin_model_begin in Eb. rewrite Hp in Eb.
    rewrite (get_supervisor_ref_frame (env_supervisor env) w) in Eb.
    rewrite pre_validate_refs in Eb. unfold pre_validate in Eb.
    rewrite Hn, Hpe, Hpa, Hch in Eb. unfold get_model_launch_status in Eb.
    destruct (model_uid_to_model w !! model_uid args); [by simplify_eq|].
    destruct (model_uid_launching_guard w !! model_uid args); [by simplify_eq|].
    by destruct Hknown as [[]|[]].
Qed.

End QueryFacts.

(** ** Cancellation of a launch *)

Lemma flags_kept_same w w' : launch_infos w' = launch_infos w → flags_kept w w'.
Proof. intros H ref i Hi. exists i. by rewrite H. Qed.

Lemma flags_kept_trans w1 w2 w3 :
  flags_kept w1 w2 → flags_kept w2 w3 → flags_kept w1 w3.
Proof.
  intros H12 H23 ref i Hi. destruct (H12 ref i Hi) as (i2 & Hi2 & Hc2).
  destruct (H23 ref i2 Hi2) as (i3 & Hi3 & Hc3). exists i3. split; [done|]. auto.
Qed.

Lemma flags_kept_update ref f w w' :
  (∀ i, cancel_event i = true → cancel_event (f i) = true) →
  launch_infos w' = launch_infos (update_launch_info ref f w) →
  flags_kept w w'.
Proof.
  intros Hf Hw r i Hi. rewrite Hw. simpl. rewrite list_lookup_alter.
  destruct (decide (ref = r)) as [->|]; [|eauto].
  rewrite Hi. simpl. eauto.
Qed.

Lemma cancelled_kept t t' w w' :
  flags_kept w w' → launch_info t' = launch_info t →
  cancelled t w = true → cancelled t' w' = true.
Proof.
  unfold cancelled. intros Hk ->.
  destruct (launch_infos w !! launch_info t) as [i|] eqn:E; [|done].
  intros Hc. destruct (Hk _ _ E) as (i' & -> & Hc'). auto.
Qed.

Section CancelFacts.
Context (host : Host).

Lemma cancel_launch_model_launching pushed uid ref w :
  model_uid_launching_guard w !! uid = Some ref →
  let w' := (cancel_launch_model host pushed uid w).1 in
  launch_infos w' = alter set_cancel_event ref (launch_infos w)
  ∧ main_pool w'
    = main_pool (remove_sub_pools
                   (default [] (launch_infos w !! ref ≫= sub_pools)) w).
Proof.
  intros Hg. unfold cancel_launch_model. rewrite Hg.
  set (w1 := update_launch_info ref set_cancel_event w).
  assert (launch_infos w1 !! ref ≫= sub_pools = launch_infos w !! ref ≫= sub_pools)
    as Hpools.
  { subst w1. simpl. rewrite list_lookup_alter, decide_True by done.
    by destruct (launch_infos w !! ref). }
  rewrite Hpools. set (pools := default [] _).
  pose proof (gather_remove_sub_pools_fst pools w1) as Hgr.
  pose proof (remove_sub_pools_frame pools w1) as Hf.
  assert (main_pool (remove_sub_pools pools w1) = main_pool (remove_sub_pools pools w))
    as Hmp.
  { apply set_eq. intros x. by rewrite !main_pool_remove_sub_pools. }
  destruct (gather_remove_sub_pools pools w1) as [w2 [[]|e]]; simpl in Hgr; subst w2.
  - destruct (status_guard_ref _) eqn:E.
    + unfold update_instance_info.
      destruct (parse_replica_model_uid host uid) as [[origin ?]|], pushed;
        simpl; rewrite Hf; simpl; by rewrite Hmp.
    + simpl. rewrite Hf. simpl. by rewrite Hmp.
  - simpl. rewrite Hf. simpl. by rewrite Hmp.
Qed.

Lemma cancel_launch_model_flags pushed uid w :
  flags_kept w (cancel_launch_model host pushed uid w).1.
Proof.
  destruct (model_uid_launching_guard w !! uid) as [ref|] eqn:Hg.
  - destruct (cancel_launch_model_launching pushed uid ref w Hg) as [Hli _].
    apply (flags_kept_update ref set_cancel_event); [done|]. by rewrite Hli.
  - unfold cancel_launch_model. rewrite Hg. by apply flags_kept_same.
Qed.


(** A step that suspends the launch again. *)
Lemma launch_step_suspended env t w t' :
  (launch_builtin_model_step host env t w).2 = Suspended t' →
  let w' := (launch_builtin_model_step host env t w).1 in
  model_uid_launching_guard w' = model_uid_launching_guard w
  ∧ launch_info t' = launch_info t
  ∧ flags_kept w w'
  ∧ ((stage_index (at_stage t) < 2)%nat →
     stage_index (at_stage t') = S (stage_index (at_stage t)))
  ∧ ((stage_index (at_stage t) < 4)%nat → (stage_index (at_stage t') ≤ 4)%nat)
  ∧ (cancelled t w = true → (stage_index (at_stage t') ≤ 5)%nat).
Proof.
  assert (Hfail : ∀ t0 e w0, (failure_path t0 e w0).2 = Suspended t' → False).
  { intros t0 e w0. by destruct (failure_path_returns t0 e w0) as [r ->]. }
  assert (Hleave : ∀ uid r w0, (leave uid r w0).2 = Suspended t' → False).
  { intros uid r w0. by destruct (leave_returns uid r w0) as [r' ->]. }
  unfold launch_builtin_model_step. cbv zeta.
  destruct (at_stage t) as [| | |m|m|m|m] eqn:Est.
  - destruct (env_create_virtual_env env); simpl; [|by intros ?%Hleave].
    destruct (create_subpool_devices _ _ _ _ _ _) as [d [devs|e]]; simpl;
      [|by intros ?%Hleave].
    intros [= <-]. simpl. split_and!; try done; try lia. by apply flags_kept_same.
  - destruct (env_append_sub_pool env) as [address|]; simpl; [|by intros ?%Hleave].
    intros [= <-]. simpl. split_and!; try done; try lia.
    by apply (flags_kept_update (launch_info t) set_downloader).
  - destruct (env_create_model_instance env) as [model|]; [|by intros ?%Hfail].
    destruct (cancelled t w) eqn:Ec; [by intros ?%Hfail|].
    destruct (has_virtual_env_manager t); simpl; intros [= <-]; simpl;
      (split_and!; try done; try lia; by apply flags_kept_same).
  - destruct (env_prepare_virtual_env env); simpl; [|by intros ?%Hfail].
    destruct (cancelled _ _) eqn:Ec; [by intros ?%Hfail|].
    simpl. intros [= <-]. simpl. split_and!; try done; try lia.
    by apply (flags_kept_update (launch_info t) set_virtual_env_manager).
  - destruct (env_create_actor env); simpl; [|by intros ?%Hfail].
    destruct (_ && _).
    + simpl. intros [= <-]. simpl. split_and!; try done; try lia.
      by apply flags_kept_same.
    + unfold before_load. destruct (cancelled t w) eqn:Ec; [by intros ?%Hfail|].
      simpl. intros [= <-]. simpl. split_and!; try done; try lia.
      by apply (flags_kept_update (launch_info t)
                  (set_sub_pools (all_subpool_addresses t))).
  - pose proof (gather_append_sub_pools_frame (extra_pool_answers env t) w) as Hga.
    set (w1 := gather_append_sub_pools _ w) in *.
    destruct (gathered _) as [pool_addresses|]; [|by intros ?%Hfail].
    destruct (env_set_pool_addresses env); simpl; [|by intros ?%Hfail].
    unfold before_load.
    match goal with |- context [cancelled ?t0 w1] =>
      destruct (cancelled t0 w1) eqn:Ec; [by intros ?%Hfail|] end.
    simpl. intros [= <-]. simpl. rewrite Hga. simpl.
    split_and!; try done; try lia.
    + eapply (flags_kept_update (launch_info t)); [|reflexivity]. done.
    + intros Hc. exfalso. unfold cancelled in Ec, Hc. simpl in Ec.
      rewrite Hga in Ec. simpl in Ec. congruence.
  - destruct (env_load env).
    + destruct (leave _ _ _) as [w1 [t1|[a|e]]] eqn:El; simpl.
      * unfold leave in El. by destruct (del_launching_guard _ _) as [? []].
      * by destruct (after_commit env t w1).
      * done.
    + destruct (cancelled t w); by intros ?%Hfail.
    + by intros ?%Hfail.
Qed.

(** Only the step that follows the load returns an address. *)
Lemma launch_step_ok_at_load env t w a :
  (launch_builtin_model_step host env t w).2 = Returned (Ok a) →
  stage_index (at_stage t) = 6%nat.
Proof.
  assert (Hfail : ∀ t0 e w0, (failure_path t0 e w0).2 = Returned (Ok a) → False).
  { intros t0 e w0. by destruct (failure_path_returns t0 e w0) as [r ->]. }
  assert (Hleave : ∀ uid e w0,
            (leave uid (@Raise string e) w0).2 = Returned (Ok a) → False).
  { intros uid e w0. by destruct (leave_raise uid e w0) as [r ->]. }
  unfold launch_builtin_model_step. cbv zeta.
  destruct (at_stage t) as [| | |m|m|m|m] eqn:Est; [..|done].
  - destruct (env_create_virtual_env env); simpl; [|by intros ?%Hleave].
    destruct (create_subpool_devices _ _ _ _ _ _) as [d [devs|e]]; simpl;
      [done|by intros ?%Hleave].
  - destruct (env_append_sub_pool env) as [address|]; simpl;
      [done|by intros ?%Hleave].
  - destruct (env_create_model_instance env) as [model|]; [|by intros ?%Hfail].
    destruct (cancelled t w); [by intros ?%Hfail|].
    by destruct (has_virtual_env_manager t).
  - destruct (env_prepare_virtual_env env); simpl; [|by intros ?%Hfail].
    destruct (cancelled _ _); [by intros ?%Hfail|done].
  - destruct (env_create_actor env); simpl; [|by intros ?%Hfail].
    destruct (_ && _); [done|].
    unfold before_load. destruct (cancelled t w); [by intros ?%Hfail|done].
  - destruct (gathered _) as [pool_addresses|]; [|by intros ?%Hfail].
    destruct (env_set_pool_addresses env); simpl; [|by intros ?%Hfail].
    unfold before_load. destruct (cancelled _ _); [by intros ?%Hfail|done].
Qed.

Lemma run_launch_cancelled fuel env t w :
  let uid := model_uid (launch_args t) in
  cancelled t w = true
  ∨ (env_cancel_at env (stage_index (at_stage t)) = true
     ∧ model_uid_launching_guard w !! uid = Some (launch_info t)
     ∧ is_Some (launch_infos w !! launch_info t)) →
  (stage_index (at_stage t) ≤ 5)%nat →
  (7 ≤ stage_index (at_stage t) + fuel)%nat →
  ∃ w' e,
    run_launch host fuel env t w = (w', Some (Raise e))
    ∧ same_tables w w'
    ∧ model_uid_launching_guard w' !! uid = None.
Proof.
  intros uid. subst uid. revert t w.
  induction fuel as [|fuel IH]; intros t w Hc Hle Hfuel; [lia|].
  simpl.
  set (w0 := if env_cancel_at env (stage_index (at_stage t))
             then (cancel_launch_model host (env_cancel_update_instance_info env)
                     (model_uid (launch_args t)) w).1
             else w).
  assert (same_tables w w0) as Hs0.
  { subst w0. destruct (env_cancel_at _ _); [|apply same_tables_refl].
    by destruct (cancel_launch_model_tables host
                   (env_cancel_update_instance_info env)
                   (model_uid (launch_args t)) w). }
  assert (cancelled t w0 = true) as Hc0.
  { subst w0. destruct Hc as [Hc|(-> & Hg & [i Hi])].
    - destruct (env_cancel_at _ _); [|done].
      eapply cancelled_kept; [apply cancel_launch_model_flags|done|done].
    - destruct (cancel_launch_model_launching
                  (env_cancel_update_instance_info env) _ _ _ Hg) as [Hli _].
      unfold cancelled. by rewrite Hli, list_lookup_alter, decide_True, Hi. }
  clearbody w0. clear Hc.
  pose proof (launch_step_tables host env t w0) as Htab.
  pose proof (launch_step_progress host env t w0) as Hprog.
  pose proof (launch_step_suspended env t w0) as Hsus.
  pose proof (launch_step_ok_at_load env t w0) as Hok.
  destruct (launch_builtin_model_step host env t w0) as [w1 p]. simpl in *.
  assert (same_tables w0 w1) as Hs1.
  { destruct Htab as [[H _]|(m & Hst & _)]; [done|]. rewrite Hst in Hle.
    simpl in Hle. lia. }
  destruct p as [t'|[a|e]].
  - destruct (Hsus t' eq_refl) as (Hg & Hli & Hk & _ & _ & Hle').
    destruct Hprog as [Hargs Hlt].
    destruct (IH t' w1) as (w' & e & Hrun & Hs & Hgu); [|by apply Hle'|lia|].
    { left. by eapply cancelled_kept. }
    exists w', e. rewrite <- Hargs. split_and!; [done| |done].
    eapply same_tables_trans; [exact Hs0|]. by eapply same_tables_trans.
  - specialize (Hok a eq_refl). lia.
  - exists w1, e. split_and!; [done| |done]. by eapply same_tables_trans.
Qed.

(** A launch that is still to pass the suspension point [i] at which the
    cancellation arrives. *)
Lemma run_launch_cancel_reached fuel env t w i :
  let uid := model_uid (launch_args t) in
  env_cancel_at env i = true →
  (i ≤ 2 ∨ i = 4)%nat →
  (stage_index (at_stage t) ≤ i)%nat →
  model_uid_launching_guard w !! uid = Some (launch_info t) →
  is_Some (launch_infos w !! launch_info t) →
  (7 ≤ stage_index (at_stage t) + fuel)%nat →
  ∃ w' e,
    run_launch host fuel env t w = (w', Some (Raise e))
    ∧ same_tables w w'
    ∧ model_uid_launching_guard w' !! uid = None.
Proof.
  intros uid Hcancel Hi. subst uid. revert t w.
  induction fuel as [|fuel IH]; intros t w Hle Hg Hinfo Hfuel; [lia|].
  destruct (env_cancel_at env (stage_index (at_stage t))) eqn:Enow.
  { apply run_launch_cancelled; [right; done|lia|done]. }
  assert (stage_index (at_stage t) < i)%nat as Hlt.
  { destruct (decide (stage_index (at_stage t) = i)) as [Heq|]; [|lia].
    rewrite Heq in Enow. congruence. }
  simpl. rewrite Enow.
  pose proof (launch_step_tables host env t w) as Htab.
  pose proof (launch_step_progress host env t w) as Hprog.
  pose proof (launch_step_suspended env t w) as Hsus.
  pose proof (launch_step_ok_at_load env t w) as Hok.
  destruct (launch_builtin_model_step host env t w) as [w1 p]. simpl in *.
  assert (same_tables w w1) as Hs1.
  { destruct Htab as [[H _]|(m & Hst & _)]; [done|]. rewrite Hst in Hlt.
    simpl in Hlt. lia. }
  destruct p as [t'|[a|e]].
  - destruct (Hsus t' eq_refl) as (Hg1 & Hli & Hk & Hnext & Hfour & _).
    destruct Hprog as [Hargs Hlt'].
    destruct Hinfo as [info Hinfo]. destruct (Hk _ _ Hinfo) as (info' & Hinfo' & _).
    destruct (IH t' w1) as (w' & e & Hrun & Hs & Hgu).
    + destruct Hi as [Hi| ->]; [rewrite Hnext by lia; lia|apply Hfour; lia].
    + by rewrite Hargs, Hg1, Hli.
    + rewrite Hli. eauto.
    + lia.
    + exists w', e. rewrite <- Hargs. split_and!; [done| |done].
      by eapply same_tables_trans.
  - specialize (Hok a eq_refl). lia.
  - exists w1, e. by split_and!.
Qed.

(** X15.  A cancelled launch never commits.  A launch whose cancel event is
    set while it is suspended at or before the creation of the extra pools,
    resumed until it returns, raises, leaves the six tables as they were and
    leaves no guard entry for its uid.  And when [cancel_launch_model] is
    called while [launch_builtin_model] waits for the virtual environment
    manager, for the sub-pool, for the model instance or for the creation of
    the actor, the launch raises, with the six tables and the guard entry of
    the uid as before the call. *)
Theorem cancelled_launch_never_commits :
  (∀ fuel env t w,
     cancelled t w = true →
     (stage_index (at_stage t) ≤ 5)%nat →
     (7 ≤ stage_index (at_stage t) + fuel)%nat →
     ∃ w' e,
       run_launch host fuel env t w = (w', Some (Raise e))
       ∧ same_tables w w'
       ∧ model_uid_launching_guard w' !! model_uid (launch_args t) = None)
  ∧ (∀ env args w i,
       env_cancel_at env i = true → (i ≤ 2 ∨ i = 4)%nat →
       ∃ w' e,
         launch_builtin_model host env args w = (w', Some (Raise e))
         ∧ same_tables w w'
         ∧ model_uid_launching_guard w' !! model_uid args
           = model_uid_launching_guard w !! model_uid args).
Proof.
  split.
  - intros fuel env t w Hc Hle Hfuel. apply run_launch_cancelled; auto.
  - intros env args w i Hcancel Hi. unfold launch_builtin_model.
    pose proof (launch_begin_spec host (env_supervisor env) args w) as Hb.
    destruct (launch_builtin_model_begin host (env_supervisor env) args w)
      as [w1 [t|e]] eqn:Eb.
    + apply launch_begin_ok in Eb
        as (origin & idx & _ & _ & Hargs & Hst & Hli & Hlis & Hg1 & _ & Hg & Hs1 & _).
      destruct (run_launch_cancel_reached 7 env t w1 i Hcancel Hi)
        as (w' & e & Hrun & Hs & Hgu).
      * rewrite Hst. simpl. lia.
      * by rewrite Hargs, Hg1, lookup_insert_eq.
      * rewrite Hli, Hlis. rewrite lookup_app_r by done.
        rewrite Nat.sub_diag. simpl. eauto.
      * rewrite Hst. simpl. lia.
      * exists w', e. rewrite Hargs in Hgu. rewrite Hgu, Hg. split_and!; [done| |done].
        by eapply same_tables_trans.
    + simpl in Hb. destruct Hb as (Hs & _ & _ & _ & Hg & _).
      exists w1, e. split_and!; [done|done|by rewrite Hg].
Qed.

End CancelFacts.

(** ** Invariants of the reachable states *)

Section Reachability.
Context (host : Host).

(** A property of the worker state that each operation keeps is kept by
    every event, hence holds in every state reached from a state with it. *)
Lemma react_preserves (P : Worker → Prop) :
  (∀ reachable args w, P w → P (launch_builtin_model_begin host reachable args w).1) →
  (∀ env t w, P w → P (launch_builtin_model_step host env t w).1) →
  (∀ answer uid w, P w → P (launch_rank0_model_begin answer uid w).1) →
  (∀ created t w, P w → P (launch_rank0_model_finish created t w).1) →
  (∀ pushed uid w, P w → P (cancel_launch_model host pushed uid w).1) →
  (∀ env uid die w, P w → P (terminate_model host env uid die w).1) →
  (∀ address w, P w → P (remove_sub_pool address w).1) →
  (∀ uid n w, P w →
     P (set_model_uid_to_recover_count (<[uid := n]> (model_uid_to_recover_count w)) w)) →
  (∀ reachable w, P w → P (get_supervisor_ref reachable w).1) →
  ∀ e s, P (worker s) → P (worker (react host e s)).
Proof.
  intros Hbegin Hstep Hr0b Hr0f Hcancel Hterm Hremove Hcount Hsup e s HP.
  assert (Hspawn : ∀ reachable args s0, P (worker s0) →
            P (worker (spawn_launch host reachable args s0))).
  { intros reachable args s0 H0. unfold spawn_launch.
    specialize (Hbegin reachable args (worker s0) H0).
    by destruct (launch_builtin_model_begin host reachable args (worker s0)) as [w []]. }
  destruct e as [reachable args|i env|uid|i answer|i created|pushed uid
                |env uid die|env reachable address]; simpl.
  - by apply Hspawn.
  - destruct (launches s !! i) as [t|]; [|done].
    specialize (Hstep env t (worker s) HP).
    by destruct (launch_builtin_model_step host env t (worker s)) as [w []].
  - done.
  - destruct (rank0_calls s !! i) as [uid|]; [|done].
    specialize (Hr0b answer uid (worker s) HP).
    by destruct (launch_rank0_model_begin answer uid (worker s)) as [w []].
  - destruct (rank0_launches s !! i) as [t|]; [|done]. simpl. by apply Hr0f.
  - by apply Hcancel.
  - by apply Hterm.
  - assert (P (recover_sub_pool_decide host env address (worker s)).1) as Hdec.
    { unfold recover_sub_pool_decide. cbv zeta.
      specialize (Hremove address (worker s) HP).
      set (w1 := (remove_sub_pool address (worker s)).1) in *.
      destruct (PyDict.first_key_of address (model_uid_to_addr w1)) as [uid|]; [|done].
      destruct (model_uid_to_launch_args w1 !! uid) as [args|]; [|done].
      specialize (Hterm env uid true w1 Hremove).
      destruct (mjoin (model_uid_to_recover_count w1 !! uid)) as [n|]; [|done].
      destruct (0 <? n); [|done]. simpl. by apply Hcount. }
    destruct (recover_sub_pool_decide host env address (worker s)) as [w1 [|u|u|u args]];
      simpl in *; try done.
    specialize (Hsup reachable w1 Hdec).
    destruct (get_supervisor_ref reachable w1) as [w2 [[]|e]]; simpl in *; [|done].
    by apply Hspawn.
Qed.

Lemma run_events_preserves (P : Worker → Prop) :
  (∀ e s, P (worker s) → P (worker (react host e s))) →
  ∀ events s, P (worker s) → P (worker (run_events host events s)).
Proof.
  intros Hreact events. induction events as [|e events IH]; intros s HP; [done|].
  simpl. apply IH. by apply Hreact.
Qed.

(** ** The tables go together *)

Lemma consistent_same w w' :
  same_tables w w' → tables_consistent w → tables_consistent w'.
Proof.
  intros (Hm & Hsp & Hst & Ha & Hc & Hl) H uid.
  rewrite Hm, Hsp, Hst, Ha, Hc, Hl. apply H.
Qed.

Lemma consistent_commit t m w :
  tables_consistent w → tables_consistent (commit host t m w).
Proof.
  intros H uid. specialize (H uid). unfold commit. simpl.
  rewrite setdefault_lookup, PyDict_get_set, !lookup_insert.
  destruct (decide (model_uid (launch_args t) = uid)) as [->|Hne].
  - rewrite !decide_True by done. by repeat split; eauto.
  - rewrite !decide_False by done. done.
Qed.

Lemma terminate_model_tables env uid is_model_die w :
  let w' := (terminate_model host env uid is_model_die w).1 in
  same_tables w w'
  ∨ (model_uid_to_model w' = delete uid (model_uid_to_model w)
     ∧ model_uid_to_model_spec w' = delete uid (model_uid_to_model_spec w)
     ∧ model_uid_to_model_status w'
       = (if is_model_die then model_uid_to_model_status w
          else delete uid (model_uid_to_model_status w))
     ∧ model_uid_to_addr w' = PyDict.pop uid (model_uid_to_addr w)
     ∧ model_uid_to_recover_count w' = delete uid (model_uid_to_recover_count w)
     ∧ model_uid_to_launch_args w' = delete uid (model_uid_to_launch_args w)).
Proof.
  destruct (model_uid_launching_guard w !! uid) as [ref|] eqn:Hg.
  { left. unfold terminate_model. rewrite Hg. apply same_tables_refl. }
  destruct (terminate_origin_uid host uid) as [origin|] eqn:Ho.
  - destruct (terminating_push_raises env w) eqn:Hpush.
    + left.
      by destruct (terminate_model_push_raises host env uid origin is_model_die w
                     Hg Ho Hpush) as (_ & Hs & _).
    + right.
      destruct (terminate_model_cleans host env uid origin is_model_die w Hg Ho Hpush)
        as (_ & _ & Hm & Hsp & Hst & Ha & Hc & Hl & _).
      by split_and!.
  - left. unfold terminate_model. rewrite Hg, Ho. apply same_tables_refl.
Qed.

Lemma consistent_terminate env uid is_model_die w :
  tables_consistent w →
  tables_consistent (terminate_model host env uid is_model_die w).1.
Proof.
  intros H.
  destruct (terminate_model_tables env uid is_model_die w)
    as [Hs|(Hm & Hsp & Hst & Ha & Hc & Hl)]; [by apply (consistent_same w)|].
  intros u. specialize (H u). rewrite Hm, Hsp, Hst, Ha, Hc, Hl, PyDict_get_pop.
  destruct (decide (u = uid)) as [->|Hne].
  - rewrite !lookup_delete_eq.
    split_and!; try (by intros []); done.
  - rewrite !lookup_delete_ne by done.
    destruct is_model_die; [done|]. by rewrite lookup_delete_ne.
Qed.

Lemma consistent_rank0_finish created t w :
  tables_consistent w →
  tables_consistent (launch_rank0_model_finish created t w).1.
Proof.
  intros H.
  destruct (launch_rank0_finish_spec created t w)
    as (_ & _ & Hsp & Hst & Hc & Hl & Hrest).
  destruct created; [|by apply (consistent_same w)].
  destruct Hrest as (Hm & Ha & _).
  intros u. specialize (H u). rewrite Hm, Hsp, Hst, Ha, Hc, Hl, PyDict_get_set.
  rewrite lookup_insert.
  destruct (decide (rep_model_uid t = u)) as [->|Hne].
  - rewrite decide_True by done. destruct H as (H1 & H2 & H3 & H4 & H5).
    split_and!; eauto. split; eauto.
  - by rewrite decide_False.
Qed.

Lemma react_consistent e s :
  tables_consistent (worker s) → tables_consistent (worker (react host e s)).
Proof.
  apply react_preserves.
  - intros reachable args w H.
    destruct (launch_begin_spec host reachable args w) as (Hs & _).
    by apply (consistent_same w).
  - intros env t w H.
    destruct (launch_step_tables host env t w) as [[Hs _]|(m & _ & Hs & _)].
    + by apply (consistent_same w).
    + apply (consistent_same (commit host t m w)); [done|]. by apply consistent_commit.
  - intros answer uid w H.
    destruct (launch_rank0_begin_spec answer uid w) as (Hs & _).
    by apply (consistent_same w).
  - intros created t w H. by apply consistent_rank0_finish.
  - intros pushed uid w H.
    destruct (cancel_launch_model_tables host pushed uid w) as (Hs & _).
    by apply (consistent_same w).
  - intros env uid die w H. by apply consistent_terminate.
  - intros address w H. apply (consistent_same w); [|done].
    rewrite (remove_sub_pool_frame address w). by repeat split.
  - intros uid n w H u. specialize (H u). simpl. rewrite lookup_insert.
    destruct (decide (uid = u)); [|done].
    destruct H as (H1 & H2 & H3 & H4 & H5). split_and!; eauto.
  - intros reachable w H. apply (consistent_same w); [|done].
    rewrite (get_supervisor_ref_frame reachable w). by repeat split.
Qed.

(** X16.  The tables written at the commit point go together.  In every
    state that the worker reaches from its construction through calls and
    resumptions of launches, rank-0 launches, cancellations, terminations and
    sub-pool deaths: a uid with a description has a model reference, a status
    record and stored launch arguments, a uid has stored launch arguments
    exactly when it has a description, one with launch arguments has a
    recovery counter, and the Model Table and the address map bind the same
    uids.  So a uid that [describe_model] answers for is listed by
    [list_models], has a launch status, a status record and an address, and
    [get_model] does not raise not-found for it. *)
Theorem tables_consistent_invariant (gpu_devices : list Z) (events : list event) :
  let w := worker (run_events host events (start gpu_devices)) in
  tables_consistent w
  ∧ ∀ uid desc,
      describe_model uid w = inr desc →
      list_models w !! uid = Some desc
      ∧ get_model_launch_status uid w ≠ None
      ∧ get_model uid w ≠ inl NotFound
      ∧ is_Some (get_model_status uid w)
      ∧ is_Some (PyDict.get uid (model_uid_to_addr w)).
Proof.
  intros w.
  assert (tables_consistent w) as H.
  { apply (run_events_preserves _ react_consistent). intros uid. simpl.
    rewrite !lookup_empty. split_and!; try (by intros []); done. }
  split; [done|]. intros uid desc Hd. specialize (H uid).
  unfold describe_model in Hd. unfold list_models.
  destruct (model_uid_to_model_spec w !! uid) as [d|] eqn:E; [|done].
  injection Hd as ->. destruct H as (H1 & H2 & H3 & H4 & H5).
  destruct (H1 (mk_is_Some _ _ eq_refl)) as [ref Href].
  split_and!.
  - done.
  - unfold get_model_launch_status.
    destruct (model_uid_launching_guard w !! uid); [done|]. by rewrite Href.
  - unfold get_model. destruct (recorded_error uid w); [done|]. by rewrite Href.
  - by apply H2.
  - apply H5. eauto.
Qed.

(** ** Recorded GPUs are GPUs of the worker *)

Lemma create_subpool_devices_within uid type n idx d :
  devices_within_total d →
  devices_within_total (create_subpool_devices host uid type n idx d).1.
Proof.
  intros H. unfold create_subpool_devices.
  assert (Hemb : devices_within_total
            (match allocate_devices_for_embedding (is_model_vllm_backend host)
                     (set_order host) uid d with
             | (d', Ok dev) => (d', Ok [dev])
             | (d', Raise e) => (d', Raise e)
             end).1).
  { pose proof (allocate_devices_for_embedding_within
                  (is_model_vllm_backend host) (set_order host) uid d H) as He.
    by destruct (allocate_devices_for_embedding _ _ uid d) as [d' []]. }
  destruct idx as [gpu_idx|]; [by apply allocate_devices_with_gpu_idx_within|].
  destruct n as [[k|s]|]; [| |done].
  - destruct (is_embedding_or_rerank type); [done|]. by apply allocate_devices_within.
  - destruct (_ && _); [|done].
    destruct (is_embedding_or_rerank type); [done|]. by apply allocate_devices_within.
Qed.

(** What a step of the launch does to the device maps. *)
Lemma launch_step_devices env t w :
  let uid := model_uid (launch_args t) in
  let d' := devices (launch_builtin_model_step host env t w).1 in
  d' = devices w
  ∨ d' = (create_subpool_devices host uid (model_type (launch_args t))
            (n_gpu (launch_args t)) (coerce_gpu_idx (gpu_idx (launch_args t)))
            (devices w)).1
  ∨ d' = release_devices uid (devices w).
Proof.
  intros uid d'. subst d'. unfold launch_builtin_model_step. cbv zeta. fold uid.
  assert (Hfail : ∀ t0 e w0, model_uid (launch_args t0) = uid →
            devices w0 = devices w →
            devices (failure_path t0 e w0).1 = release_devices uid (devices w)).
  { intros t0 e w0 Hu Hd. rewrite failure_path_fst. simpl. by rewrite Hu, Hd. }
  assert (Hload : ∀ m t0 w0, model_uid (launch_args t0) = uid →
            devices w0 = devices w →
            devices (before_load m t0 w0).1 = devices w
            ∨ devices (before_load m t0 w0).1 = release_devices uid (devices w)).
  { intros m t0 w0 Hu Hd. unfold before_load. destruct (cancelled t0 w0).
    - right. by apply Hfail.
    - left. done. }
  destruct (at_stage t) as [| | |m|m|m|m].
  - destruct (env_create_virtual_env env); simpl.
    + destruct (create_subpool_devices _ _ _ _ _ _) as [d [devs|e]]; simpl.
      * right. by left.
      * rewrite leave_fst. right. by left.
    + rewrite leave_fst. by left.
  - destruct (env_append_sub_pool env); simpl; [by left|].
    rewrite leave_fst. by left.
  - destruct (env_create_model_instance env).
    + destruct (cancelled t w); [right; right; by apply Hfail|].
      destruct (has_virtual_env_manager t); by left.
    + right; right; by apply Hfail.
  - destruct (env_prepare_virtual_env env); simpl.
    + destruct (cancelled _ _); [right; right; by apply Hfail|by left].
    + right; right; by apply Hfail.
  - destruct (env_create_actor env); simpl; [|right; right; by apply Hfail].
    destruct (_ && _); [by left|].
    destruct (Hload m t w eq_refl eq_refl) as [->| ->]; auto.
  - pose proof (gather_append_sub_pools_frame (extra_pool_answers env t) w) as Hga.
    set (w1 := gather_append_sub_pools _ w) in *.
    assert (devices w1 = devices w) as Hd1 by (by rewrite Hga).
    destruct (gathered _) as [pool_addresses|]; [|right; right; by apply Hfail].
    destruct (env_set_pool_addresses env); simpl; [|right; right; by apply Hfail].
    match goal with |- context [before_load m ?t0 w1] =>
      destruct (Hload m t0 w1 eq_refl Hd1) as [->| ->] end; auto.
  - destruct (env_load env).
    + left.
      pose proof (leave_fst uid (Ok (subpool_address t)) (commit host t m w)) as Hl.
      destruct (leave uid (Ok (subpool_address t)) (commit host t m w))
        as [w1 [t1|[a|e]]] eqn:El; simpl in Hl; subst w1; [done| |done].
      pose proof (after_commit_frame env t
        (set_model_uid_launching_guard
           (delete uid (model_uid_launching_guard (commit host t m w)))
           (commit host t m w))) as Hac.
      destruct (after_commit env t _) as [w2 r2]. simpl in Hac. by rewrite Hac.
    + destruct (cancelled t w); right; right; by apply Hfail.
    + right; right; by apply Hfail.
Qed.

Lemma allocate_devices_total uid n d :
  total_gpu_devices (allocate_devices uid n d).1 = total_gpu_devices d.
Proof. unfold allocate_devices. by destruct (_ <? n). Qed.

Lemma allocate_devices_for_embedding_total probe order uid d :
  total_gpu_devices (allocate_devices_for_embedding probe order uid d).1
  = total_gpu_devices d.
Proof.
  unfold allocate_devices_for_embedding.
  destruct (embedding_candidates probe order d); [|done].
  by destruct (_ =? _)%nat.
Qed.

Lemma allocate_devices_with_gpu_idx_total probe uid type idx d :
  total_gpu_devices (allocate_devices_with_gpu_idx probe uid type idx d).1
  = total_gpu_devices d.
Proof.
  unfold allocate_devices_with_gpu_idx. destruct (negb _); [done|].
  by destruct (check_gpu_idx _ _ _).
Qed.

Lemma create_subpool_devices_total uid type n idx d :
  total_gpu_devices (create_subpool_devices host uid type n idx d).1
  = total_gpu_devices d.
Proof.
  unfold create_subpool_devices.
  assert (Hemb : total_gpu_devices
            (match allocate_devices_for_embedding (is_model_vllm_backend host)
                     (set_order host) uid d with
             | (d', Ok dev) => (d', Ok [dev])
             | (d', Raise e) => (d', Raise e)
             end).1 = total_gpu_devices d).
  { pose proof (allocate_devices_for_embedding_total
                  (is_model_vllm_backend host) (set_order host) uid d) as He.
    by destruct (allocate_devices_for_embedding _ _ uid d) as [d' []]. }
  destruct idx as [gpu_idx|]; [by apply allocate_devices_with_gpu_idx_total|].
  destruct n as [[k|s]|]; [| |done].
  - destruct (is_embedding_or_rerank type); [done|]. by apply allocate_devices_total.
  - destruct (_ && _); [|done].
    destruct (is_embedding_or_rerank type); [done|]. by apply allocate_devices_total.
Qed.

Lemma react_within gpu_devices e s :
  devices_within_total (devices (worker s))
  ∧ total_gpu_devices (devices (worker s)) = gpu_devices →
  devices_within_total (devices (worker (react host e s)))
  ∧ total_gpu_devices (devices (worker (react host e s))) = gpu_devices.
Proof.
  apply (react_preserves
           (λ w, devices_within_total (devices w)
                 ∧ total_gpu_devices (devices w) = gpu_devices)).
  - intros reachable args w H.
    destruct (launch_begin_spec host reachable args w) as (_ & -> & _). done.
  - intros env t w [H Ht].
    destruct (launch_step_devices env t w) as [->|[->| ->]]; [done| |].
    + split; [by apply create_subpool_devices_within|].
      by rewrite create_subpool_devices_total.
    + split; [by apply release_devices_within|done].
  - intros answer uid w H.
    destruct (launch_rank0_begin_spec answer uid w) as (_ & -> & _). done.
  - intros created t w H.
    destruct (launch_rank0_finish_spec created t w) as (_ & -> & _). done.
  - intros pushed uid w H.
    destruct (cancel_launch_model_tables host pushed uid w) as (_ & _ & ->).
    done.
  - intros env uid die w [H Ht].
    destruct (terminate_model_fields host env uid die w)
      as [_ [[_ ->]|(_ & _ & _ & _ & ->)]]; [done|].
    split; [by apply release_devices_within|done].
  - intros address w H. by rewrite (remove_sub_pool_frame address w).
  - done.
  - intros reachable w H. by rewrite (get_supervisor_ref_frame reachable w).
Qed.

(** X17.  The worker never records a GPU that it cannot see.  Each of
    [allocate_devices], [allocate_devices_for_embedding],
    [allocate_devices_with_gpu_idx] and [release_devices], whether it returns
    or raises, keeps every key of the three device maps inside [total_gpus];
    and in every state that the worker reaches from its construction,
    [total_gpus] is the list it was constructed with and every key of the
    three device maps is in it. *)
Theorem devices_within_total_invariant :
  (∀ probe order uid type n idx d,
     devices_within_total d →
     devices_within_total (allocate_devices uid n d).1
     ∧ devices_within_total (allocate_devices_for_embedding probe order uid d).1
     ∧ devices_within_total (allocate_devices_with_gpu_idx probe uid type idx d).1
     ∧ devices_within_total (release_devices uid d))
  ∧ (∀ gpu_devices events,
       let w := worker (run_events host events (start gpu_devices)) in
       devices_within_total (devices w)
       ∧ total_gpu_devices (devices w) = gpu_devices).
Proof.
  split.
  - intros probe order uid type n idx d H. split_and!.
    + by apply allocate_devices_within.
    + by apply allocate_devices_for_embedding_within.
    + by apply allocate_devices_with_gpu_idx_within.
    + by apply release_devices_within.
  - intros gpu_devices events w. subst w.
    apply (run_events_preserves
             (λ w, devices_within_total (devices w)
                   ∧ total_gpu_devices (devices w) = gpu_devices)
             (react_within gpu_devices)).
    split; [|done].
    split_and!; intros dev; simpl; rewrite lookup_empty; by intros [].
Qed.

End Reachability.

(** ** Edge cases: model names, rank-0 models, recovery *)







Lemma prefix_app (s1 s2 : string) :
  String.prefix s1 s2 = true ↔ ∃ b, s2 = s1 +:+ b.
Proof.
  revert s2. induction s1 as [|c s1 IH]; intros s2.
  - split; [intros _; by exists s2|]. intros _. by destruct s2.
  - destruct s2 as [|c2 s2]; simpl.
    + split; [done|]. by intros [b ?].
    + destruct (Ascii.ascii_dec c c2) as [->|Hne].
      * rewrite IH. split; intros [b Hb]; exists b; [by rewrite Hb|].
        by injection Hb.
      * split; [done|]. intros [b Hb]. injection Hb as -> _. done.
Qed.

Lemma contains_eq (sub s : string) :
  contains sub s
  = String.prefix sub s
    || match s with EmptyString => false | String _ s' => contains sub s' end.
Proof. by destruct s. Qed.

Lemma contains_app (sub s : string) :
  contains sub s = true ↔ ∃ a b, s = a +:+ sub +:+ b.
Proof.
  split.
  - induction s as [|c s IH]; rewrite contains_eq.
    + rewrite orb_false_r. intros [b Hb]%prefix_app. by exists EmptyString, b.
    + intros [[b Hb]%prefix_app|Hc]%orb_true_iff.
      * by exists EmptyString, b.
      * destruct (IH Hc) as (a & b & ->). by exists (String c a), b.
  - intros (a & b & ->). induction a as [|c a IH]; rewrite contains_eq.
    + apply orb_true_iff. left. apply prefix_app. by exists b.
    + apply orb_true_iff. by right.
Qed.

Section EdgeFacts.
Context (host : Host).

(** X18.  [_check_model_is_valid] raises exactly when the platform is
    Darwin, the model format is pytorch and the model name contains baichuan,
    in lower case, as a substring; in every other case it returns.
    When it raises for a launch whose uid parses, whose earlier validations
    pass and whose uid is not in the Model Table, [launch_builtin_model]
    raises this error before it enters the guard: the six tables, the device
    maps, the main pool and the Launching Guard are unchanged. *)
Theorem check_model_is_valid_baichuan_on_darwin
    (name : string) (format : option string) :
  (check_model_is_valid host name format = Raise Unsupported
   ↔ platform_is_darwin host = true ∧ format = Some "pytorch"
     ∧ ∃ a b, name = a +:+ "baichuan" +:+ b)
  ∧ (check_model_is_valid host name format = Ok tt
     ∨ check_model_is_valid host name format = Raise Unsupported)
  ∧ ∀ reachable args w,
      model_name args = name → model_format args = format →
      check_model_is_valid host name format = Raise Unsupported →
      is_Some (parse_replica_model_uid host (model_uid args)) →
      validate_n_gpu host (n_gpu args) = Ok tt →
      validate_peft args = Ok tt →
      validate_model_path host args = Ok tt →
      model_uid_to_model w !! model_uid args = None →
      let r := launch_builtin_model_begin host reachable args w in
      r.2 = Raise Unsupported
      ∧ same_tables w r.1 ∧ devices r.1 = devices w ∧ main_pool r.1 = main_pool w
      ∧ model_uid_launching_guard r.1 = model_uid_launching_guard w.
Proof.
  split_and!.
  - unfold check_model_is_valid.
    destruct (platform_is_darwin host); simpl; [|split; [done|by intros [? _]]].
    destruct (decide (format = Some "pytorch")) as [->|Hne].
    + rewrite bool_decide_eq_true_2 by done. simpl.
      destruct (contains "baichuan" name) eqn:E.
      * split; [|done]. intros _. split_and!; [done..|]. by apply contains_app.
      * split; [done|]. intros (_ & _ & Hc%contains_app). congruence.
    + rewrite bool_decide_eq_false_2 by done. simpl.
      split; [done|]. by intros (_ & ? & _).
  - unfold check_model_is_valid. destruct (_ && _); auto.
  - intros reachable args w Hname Hformat Hch [[origin idx] Hp] Hn Hpe Hpa Hm r.
    subst r.
    pose proof (launch_begin_spec host reachable args w) as Hb.
    assert ((launch_builtin_model_begin host reachable args w).2 = Raise Unsupported)
      as Hr.
    { unfold launch_builtin_model_begin. rewrite Hp.
      rewrite (get_supervisor_ref_frame reachable w), pre_validate_refs.
      unfold pre_validate. by rewrite Hn, Hpe, Hpa, Hm, Hname, Hformat, Hch. }
    rewrite Hr in Hb. destruct Hb as (Hs & Hd & Hmp & _ & Hg & _). done.
Qed.




(** X22.  A recovery that succeeds.  When the sub-pool of a model with
    stored launch arguments (stored under their own uid) and a positive
    recovery counter [n] dies and the re-launch returns an address,
    [recover_sub_pool] recreates the model from the stored arguments: the
    address is the one [append_sub_pool] gave to the new launch, the Model
    Table and the address map bind the uid to it, the status record is
    fresh, the launch arguments are stored again, the recovery counter is
    [n - 1], and the launch status is READY. *)
Theorem recover_sub_pool_relaunches
    (tenv : TerminateEnv) (env : LaunchEnv) (address uid a' : string)
    (args : LaunchArgs) (n : Z) (w w' : Worker) :
  PyDict.first_key_of address (model_uid_to_addr w) = Some uid →
  model_uid_to_launch_args w !! uid = Some args →
  model_uid args = uid →
  model_uid_to_recover_count w !! uid = Some (Some n) →
  0 < n →
  recover_model host env args (recover_sub_pool_decide host tenv address w).1
  = (w', Some (Ok a')) →
  recover_sub_pool host tenv env address w = (w', Recreate uid args)
  ∧ env_append_sub_pool env = Some a'
  ∧ model_uid_to_model w' !! uid = Some (mkActorRef ModelActor uid a')
  ∧ PyDict.get uid (model_uid_to_addr w') = Some a'
  ∧ model_uid_to_model_status w' !! uid = Some (mkModelStatus "")
  ∧ model_uid_to_launch_args w' !! uid = Some args
  ∧ model_uid_to_recover_count w' !! uid = Some (Some (n - 1))
  ∧ get_model_launch_status uid w' = Some READY.
Proof.
  intros Hfirst Hargs Hkey Hcount Hn Hrec.
  pose proof (recover_decide_counter host uid tenv address w args Hfirst Hargs) as Hd.
  cbv zeta in Hd. rewrite Hcount in Hd. simpl in Hd.
  rewrite (proj2 (Z.ltb_lt 0 n) Hn) in Hd. destruct Hd as [Hr Hc1].
  assert (recover_sub_pool host tenv env address w = (w', Recreate uid args)) as Hsub.
  { unfold recover_sub_pool.
    destruct (recover_sub_pool_decide host tenv address w) as [w1 r]. simpl in *.
    subst r. by rewrite Hrec. }
  split; [done|].
  set (w1 := (recover_sub_pool_decide host tenv address w).1) in *.
  unfold recover_model in Hrec.
  pose proof (get_supervisor_ref_frame (env_supervisor env) w1) as Hf. cbv zeta in Hf.
  destruct (get_supervisor_ref (env_supervisor env) w1) as [w2 [[]|e]]; [|done].
  simpl in Hf.
  apply launch_builtin_model_ok in Hrec
    as (t & m & origin & idx & Hta & Hsa & Hea & Hem & Hp & Hsame & Hg & Hm & Hgu & _).
  destruct Hsame as (Hmo & _ & Hst & Had & Hrc & Hla).
  simpl in Hmo, Hst, Had, Hrc, Hla. rewrite Hta, Hsa, Hkey in *.
  split_and!; try done.
  - by rewrite Hmo, lookup_insert_eq.
  - by rewrite Had, PyDict_get_set, decide_True.
  - by rewrite Hst, lookup_insert_eq.
  - by rewrite Hla, lookup_insert_eq.
  - rewrite Hrc, setdefault_lookup, decide_True by done.
    rewrite Hf. simpl. by rewrite Hc1.
  - unfold get_model_launch_status. by rewrite Hg, Hgu, Hmo, lookup_insert_eq.
Qed.

Lemma after_commit_raises env t w :
  env_model_ability env = false
  ∨ (supervisor_ref w = false ∧ env_supervisor env = false)
  ∨ env_update_instance_info env = false →
  ∃ e s g, after_commit env t w = (set_refs s g w, Raise e).
Proof.
  assert (w = set_refs (supervisor_ref w) (status_guard_ref w) w) as Hid
    by (by destruct w).
  assert (∀ e, ∃ e' s g, (w, @Raise string e) = (set_refs s g w, Raise e')) as Hsame.
  { intros e. exists e, (supervisor_ref w), (status_guard_ref w). by rewrite <- Hid. }
  unfold after_commit, get_supervisor_ref, update_instance_info.
  intros [->|[[Hs ->]| ->]]; simpl.
  - apply Hsame.
  - destruct (env_model_ability env); simpl; rewrite ?Hs; apply Hsame.
  - destruct (env_model_ability env); simpl; [|apply Hsame].
    destruct (supervisor_ref w) eqn:Es; simpl.
    + destruct (status_guard_ref w) eqn:Eg; apply Hsame.
    + destruct (env_supervisor env); simpl; [|apply Hsame].
      eexists _, true, true. reflexivity.
Qed.

(** X23.  [launch_builtin_model] can raise after it has committed.  When
    [model_ref.load()] has returned and then [_get_model_ability] raises, or
    the supervisor cannot be reached, or the push of the READY status
    raises, the call raises although the commit has been made: the six
    tables are those of the commit, the uid is in the Model Table at the
    address of its sub-pool with launch status READY, and nothing has been
    sent to the Status Guard. *)
Theorem launch_raises_after_commit (env : LaunchEnv) (t : Task) (m : ModelObj) (w : Worker) :
  at_stage t = AtLoad m →
  env_load env = LoadOk →
  is_Some (model_uid_launching_guard w !! model_uid (launch_args t)) →
  env_model_ability env = false
  ∨ (supervisor_ref w = false ∧ env_supervisor env = false)
  ∨ env_update_instance_info env = false →
  let uid := model_uid (launch_args t) in
  let r := launch_builtin_model_step host env t w in
  (∃ e, r.2 = Returned (Raise e))
  ∧ same_tables (commit host t m w) r.1
  ∧ model_uid_to_model r.1 !! uid
    = Some (mkActorRef ModelActor uid (subpool_address t))
  ∧ get_model_launch_status uid r.1 = Some READY
  ∧ status_guard r.1 = status_guard w.
Proof.
  intros Hst Hload [ref Hg] Hfail uid r. subst r uid.
  unfold launch_builtin_model_step. cbv zeta. rewrite Hst, Hload.
  assert (leave (model_uid (launch_args t)) (Ok (subpool_address t))
            (commit host t m w)
          = (set_model_uid_launching_guard
               (delete (model_uid (launch_args t)) (model_uid_launching_guard w))
               (commit host t m w),
             Returned (Ok (subpool_address t)))) as ->.
  { unfold leave, del_launching_guard. simpl. by rewrite Hg. }
  set (w1 := set_model_uid_launching_guard _ (commit host t m w)).
  destruct (after_commit_raises env t w1) as (e & s & g & ->).
  { destruct Hfail as [?|[[? ?]|?]]; auto. }
  subst w1. simpl. split_and!; [eauto|by repeat split|by rewrite lookup_insert_eq| |done].
  unfold get_model_launch_status. simpl.
  by rewrite lookup_delete_eq, lookup_insert_eq.
Qed.

End EdgeFacts.

(** ** The installation into the virtual environment *)

Lemma getattr_setattr k k' v fields :
  getattr k' (setattr k v fields)
  = if decide (k' = k) then (λ _, v) <$> getattr k fields else getattr k' fields.
Proof.
  induction fields as [|[k0 v0] fields IH]; cbn [getattr setattr].
  - by destruct (decide (k' = k)).
  - destruct (decide (k = k0)) as [->|Hne]; cbn [getattr setattr].
    + by destruct (decide (k' = k0)) as [->|].
    + rewrite IH. destruct (decide (k' = k0)) as [->|]; [|done].
      by rewrite decide_False.
Qed.

Lemma setattr_keys k v fields : (setattr k v fields).*1 = fields.*1.
Proof.
  induction fields as [|[k0 v0] fields IH]; cbn [setattr]; [done|].
  destruct (decide (k = k0)) as [->|]; rewrite !fmap_cons; [done|].
  by rewrite IH.
Qed.

Lemma inherit_item_keys fields kv : (inherit_pip_config_item fields kv).*1 = fields.*1.
Proof.
  unfold inherit_pip_config_item. destruct (_ || _); [done|].
  destruct (getattr kv.1 fields) as [v|]; [|done].
  destruct (truthy v); [done|]. apply setattr_keys.
Qed.

Lemma inherit_item_other fields kv k :
  k ≠ kv.1 → getattr k (inherit_pip_config_item fields kv) = getattr k fields.
Proof.
  intros Hne. unfold inherit_pip_config_item. destruct (_ || _); [done|].
  destruct (getattr kv.1 fields) as [v|]; [|done].
  destruct (truthy v); [done|]. by rewrite getattr_setattr, decide_False.
Qed.

Lemma inherit_item_explicit fields kv k v :
  getattr k fields = Some v → truthy v = true →
  getattr k (inherit_pip_config_item fields kv) = Some v.
Proof.
  intros Hk Hv. destruct (decide (k = kv.1)) as [->|Hne];
    [|by rewrite inherit_item_other].
  unfold inherit_pip_config_item. destruct (_ || _); [done|].
  by rewrite Hk, Hv.
Qed.

Lemma inherit_fold_keys pip fields :
  (foldl inherit_pip_config_item fields pip).*1 = fields.*1.
Proof.
  revert fields. induction pip as [|kv pip IH]; intros fields; simpl; [done|].
  by rewrite IH, inherit_item_keys.
Qed.

Lemma inherit_fold_explicit pip fields k v :
  getattr k fields = Some v → truthy v = true →
  getattr k (foldl inherit_pip_config_item fields pip) = Some v.
Proof.
  revert fields. induction pip as [|kv pip IH]; intros fields Hk Hv; simpl; [done|].
  apply IH; [|done]. by apply inherit_item_explicit.
Qed.

Lemma inherit_fold_other pip fields k :
  k ∉ pip.*1 →
  getattr k (foldl inherit_pip_config_item fields pip) = getattr k fields.
Proof.
  revert fields. induction pip as [|kv pip IH]; intros fields Hk; simpl; [done|].
  rewrite fmap_cons in Hk. apply not_elem_of_cons in Hk as [Hne Hk].
  rewrite IH by done. by apply inherit_item_other.
Qed.

Lemma inherit_fold_unset pip fields k v pv :
  NoDup pip.*1 →
  k ≠ "packages" → k ≠ "inherit_pip_config" →
  getattr k fields = Some v → truthy v = false →
  getattr k pip = Some pv →
  getattr k (foldl inherit_pip_config_item fields pip) = Some pv.
Proof.
  intros Hnd Hp Hi. revert fields v.
  induction pip as [|[k0 v0] pip IH]; intros fields v Hk Hv Hpip; [done|].
  rewrite fmap_cons in Hnd. apply NoDup_cons in Hnd as [Hk0 Hnd].
  cbn [getattr foldl] in *. simpl in Hk0.
  destruct (decide (k = k0)) as [->|Hne].
  - injection Hpip as ->. rewrite inherit_fold_other by done.
    unfold inherit_pip_config_item. simpl.
    rewrite (proj2 (String.eqb_neq _ _) Hp), (proj2 (String.eqb_neq _ _) Hi). simpl.
    rewrite Hk, Hv, getattr_setattr, decide_True by done. by rewrite Hk.
  - eapply IH; [done| |done|done]. by rewrite inherit_item_other.
Qed.

(** X24.  [_prepare_virtual_env] installs nothing unless the settings list
    a package.  [install_packages] is not called exactly when the settings
    are None or their [packages] are None or empty, also when
    [virtual_env_packages] is not empty, and then the settings are
    unchanged.  When it is called, the packages passed are those of the
    settings followed by [virtual_env_packages], and the [packages] of the
    settings are as before. *)
Theorem prepare_virtual_env_needs_model_packages
    (pip_config : list (string * pyval)) (settings : option VirtualEnvSettings)
    (virtual_env_packages : option (list string)) :
  let r := prepare_virtual_env pip_config settings virtual_env_packages in
  (r.2 = None
   ↔ settings = None
     ∨ ∃ s, settings = Some s ∧ (packages s = None ∨ packages s = Some []))
  ∧ (r.2 = None → r.1 = settings)
  ∧ (∀ pkgs conf, r.2 = Some (pkgs, conf) →
       ∃ s own, settings = Some s ∧ packages s = Some own ∧ own ≠ []
         ∧ pkgs = own ++ default [] virtual_env_packages
         ∧ (packages <$> r.1) = Some (Some own)).
Proof.
  intros r. subst r. unfold prepare_virtual_env.
  destruct settings as [s|]; [|split_and!; [split; auto|done|done]].
  destruct (packages s) as [[|p own]|] eqn:E; simpl.
  - split_and!; [|done|done]. split; [|done]. intros _. right. exists s. auto.
  - split_and!; [|done|].
    + split; [done|]. intros [|(s' & [= <-] & [|])]; congruence.
    + intros pkgs conf [= <- <-]. exists s, (p :: own). by split_and!.
  - split_and!; [|done|done]. split; [|done]. intros _. right. exists s. auto.
Qed.

(** X25.  What [_prepare_virtual_env] installs, and with which options.
    When the settings list at least one package, [install_packages] gets
    these packages followed by [virtual_env_packages], and as keyword
    options the fields of the settings other than [packages] and
    [inherit_pip_config], with the same names in the same order.  Without
    [inherit_pip_config] the options are the fields as they are.  An option
    that the settings set to a true value is never overridden by the pip
    configuration, an option that the pip configuration does not name keeps
    its value, and with [inherit_pip_config] an option that the settings
    leave unset takes the value that the pip configuration, a dict, gives
    it. *)
Theorem prepare_virtual_env_install_arguments
    (pip_config : list (string * pyval)) (s : VirtualEnvSettings)
    (own : list string) (virtual_env_packages : option (list string)) :
  packages s = Some own → own ≠ [] →
  ∃ conf,
    prepare_virtual_env pip_config (Some s) virtual_env_packages
    = (Some (mkVirtualEnvSettings (Some own) (inherit_pip_config s) conf),
       Some (own ++ default [] virtual_env_packages, conf))
    ∧ conf.*1 = (pip_options s).*1
    ∧ (inherit_pip_config s = false → conf = pip_options s)
    ∧ (∀ k v, getattr k (pip_options s) = Some v → truthy v = true →
         getattr k conf = Some v)
    ∧ (∀ k, k ∉ pip_config.*1 → getattr k conf = getattr k (pip_options s))
    ∧ (∀ k v pv,
         inherit_pip_config s = true → NoDup pip_config.*1 →
         k ≠ "packages" → k ≠ "inherit_pip_config" →
         getattr k (pip_options s) = Some v → truthy v = false →
         getattr k pip_config = Some pv →
         getattr k conf = Some pv).
Proof.
  intros Hown Hne. unfold prepare_virtual_env. rewrite Hown.
  destruct own as [|p own]; [done|].
  eexists. split; [reflexivity|].
  destruct (inherit_pip_config s); split_and!; try done.
  - apply inherit_fold_keys.
  - intros k v Hk Hv. by apply inherit_fold_explicit.
  - intros k Hk. by apply inherit_fold_other.
  - intros k v pv _ Hnd Hp Hi Hk Hv Hpip. by eapply inherit_fold_unset.
Qed.

(** * Witnesses

    Each theorem above that has hypotheses is applied here at a concrete
    input, with its hypotheses discharged by evaluation. *)

(** C4 at three GPUs where an LLM is pinned on GPU 0 and an embedding model
    on GPU 1: GPUs 1 and 2 are free, so three GPUs are refused and two are
    granted, GPU 0 being skipped. *)
Lemma allocate_devices_first_fit_witness :
  NoDup (total_gpu_devices pinned_scenario)
  ∧ allocate_devices "A" 3 pinned_scenario = (pinned_scenario, Raise NoSlot)
  ∧ (allocate_devices "A" 2 pinned_scenario).2 = Ok [1; 2]
  ∧ gpu_to_model_uid (allocate_devices "A" 2 pinned_scenario).1 !! 1 = Some "A"
  ∧ gpu_to_model_uid (allocate_devices "A" 2 pinned_scenario).1 !! 0 = None
  ∧ devices_within_total pinned_scenario
  ∧ ∃ d', allocate_devices "A" 2 pinned_scenario = (d', Ok [1; 2]).
Proof.
  assert (NoDup (total_gpu_devices pinned_scenario)) as Hnd.
  { apply (bool_decide_unpack _). vm_compute. exact I. }
  assert ((allocate_devices "A" 2 pinned_scenario).2 = Ok [1; 2]) as Hr.
  { vm_compute. reflexivity. }
  assert (devices_within_total pinned_scenario) as Hwithin.
  { unfold pinned_scenario. split_and!; intros dev [x Hx].
    - cbn [gpu_to_model_uid] in Hx. by rewrite lookup_empty in Hx.
    - cbn [gpu_to_embedding_model_uids] in Hx. by rewrite lookup_empty in Hx.
    - cbn [user_specified_gpu_to_model_uids] in Hx. cbn [total_gpu_devices].
      apply lookup_insert_Some in Hx as [[<- _]|[_ Hx]];
        [apply list_elem_of_here|].
      apply lookup_singleton_Some in Hx as [<- _].
      apply list_elem_of_further, list_elem_of_here. }
  split_and!; [exact Hnd| |exact Hr| | |exact Hwithin|].
  - destruct (proj2 allocate_devices_first_fit "A" 3 pinned_scenario Hnd)
      as [Hraise _]; [lia|].
    apply Hraise. vm_compute. reflexivity.
  - destruct (proj2 allocate_devices_first_fit "A" 2 pinned_scenario Hnd)
      as (_ & _ & Hok); [lia|].
    destruct (allocate_devices "A" 2 pinned_scenario) as [d' r] eqn:E.
    cbn [fst snd] in *. subst r.
    destruct (Hok d' _ eq_refl) as (_ & _ & _ & _ & Hdevs & _).
    apply Hdevs, list_elem_of_here.
  - destruct (proj2 allocate_devices_first_fit "A" 2 pinned_scenario Hnd)
      as (_ & _ & Hok); [lia|].
    destruct (allocate_devices "A" 2 pinned_scenario) as [d' r] eqn:E.
    cbn [fst snd] in *. subst r.
    destruct (Hok d' _ eq_refl) as (_ & _ & _ & _ & _ & Hrest & _).
    rewrite Hrest; [apply lookup_empty|].
    intros [?|[?|?%elem_of_nil]%elem_of_cons]%elem_of_cons; done.
  - destruct (proj2 allocate_devices_first_fit "A" 2 pinned_scenario Hnd)
      as (_ & Hreturns & _); [lia|].
    destruct (Hreturns Hwithin) as [d' Hd']; [vm_compute; congruence|].
    exists d'. rewrite Hd' in Hr. cbn [snd] in Hr. rewrite Hd'.
    exact (f_equal (pair d') Hr).
Defined.

(** C5 at the occupants of the specification, "A_llm" being vLLM-backed, and
    at two GPUs of which the first carries an embedding model: both are
    candidates and the second, with fewer tenants, is chosen. *)
Lemma allocate_devices_for_embedding_witness :
  let probe := is_model_vllm_backend scenario_host in
  let order := set_order scenario_host in
  probe "A_llm" = Ok true
  ∧ (allocate_devices_for_embedding probe order "X" embedding_scenario).2 = Ok 1
  ∧ (allocate_devices_for_embedding probe order "X" balanced_scenario).2 = Ok 1
  ∧ tenant_count balanced_scenario 1 ≤ tenant_count balanced_scenario 0.
Proof.
  pose proof allocate_devices_for_embedding_fewest_tenants as [Hgeneral Hscenario].
  assert (is_model_vllm_backend scenario_host "A_llm" = Ok true) as Hprobe
    by reflexivity.
  assert ((allocate_devices_for_embedding (is_model_vllm_backend scenario_host)
             (set_order scenario_host) "X" balanced_scenario).2 = Ok 1) as Hr.
  { vm_compute. reflexivity. }
  split_and!; [exact Hprobe| |exact Hr|].
  { exact (Hscenario (is_model_vllm_backend scenario_host) (set_order scenario_host)
             Hprobe). }
  destruct (allocate_devices_for_embedding (is_model_vllm_backend scenario_host)
              (set_order scenario_host) "X" balanced_scenario) as [d' r] eqn:E.
  cbn [fst snd] in Hr. subst r.
  destruct (Hgeneral (is_model_vllm_backend scenario_host) (set_order scenario_host)
              "X" balanced_scenario) as (Hok & _).
  destruct (Hok d' 1 E) as (_ & Hmin & _).
  apply Hmin. clear. unfold balanced_scenario. split; [apply list_elem_of_here|].
  intros u [Ho|[type Hp]].
  - cbn [gpu_to_model_uid] in Ho. by rewrite lookup_empty in Ho.
  - cbn [user_specified_gpu_to_model_uids] in Hp.
    rewrite lookup_empty in Hp. by apply not_elem_of_empty in Hp.
Defined.

(** C8 at a worker where the launch of "t-0" has entered the guard. *)
Lemma terminate_model_while_launching_witness :
  let w := (launch_builtin_model_begin scenario_host true (scenario_args "t-0")
              (init_worker [0])).1 in
  is_Some (model_uid_launching_guard w !! "t-0")
  ∧ terminate_model scenario_host scenario_terminate_env "t-0" false w
    = (w, Raise Busy).
Proof.
  assert (is_Some (model_uid_launching_guard
            (launch_builtin_model_begin scenario_host true (scenario_args "t-0")
               (init_worker [0])).1 !! "t-0")) as Hguard.
  { eexists. vm_compute. reflexivity. }
  split; [exact Hguard|].
  exact (terminate_model_while_launching scenario_host scenario_terminate_env
           "t-0" false _ Hguard).
Defined.


(** C3 at recover limit 1: "r-0" is launched, its sub-pool dies, the
    re-launched one dies again. *)
Lemma recover_count_bounds_relaunches_witness :
  let w := (launch_builtin_model scenario_host (scenario_env "sub-0")
              (scenario_args "r-0") (init_worker [0])).1 in
  let deaths := [(scenario_terminate_env, scenario_env "sub-1", "sub-0");
                 (scenario_terminate_env, scenario_env "sub-2", "sub-1")] in
  launch_args_keyed w
  ∧ model_uid_to_recover_count w !! "r-0" = Some (Some 1)
  ∧ Z.of_nat (recreations "r-0" (sub_pool_deaths scenario_host deaths w).2) ≤ 1.
Proof.
  set (w := (launch_builtin_model scenario_host (scenario_env "sub-0")
               (scenario_args "r-0") (init_worker [0])).1).
  set (deaths := [(scenario_terminate_env, scenario_env "sub-1", "sub-0");
                  (scenario_terminate_env, scenario_env "sub-2", "sub-1")]).
  assert (launch_args_keyed w) as Hkeyed.
  { apply (bool_decide_unpack _). vm_compute. exact I. }
  assert (model_uid_to_recover_count w !! "r-0" = Some (Some 1)) as Hcount.
  { vm_compute. reflexivity. }
  split_and!; [exact Hkeyed|exact Hcount|].
  exact (proj1 (recover_count_bounds_relaunches scenario_host "r-0" 1 deaths w
                  Hkeyed Hcount)).
Defined.

(** C7 at [n_gpu = 0] with no [gpu_idx]. *)
Lemma launch_gpu_pre_validation_witness :
  let args := scenario_args_gpu "m-0" (Some (NGpuInt 0)) None in
  gpu_idx args = None
  ∧ is_Some (parse_replica_model_uid scenario_host (model_uid args))
  ∧ ¬ n_gpu_accepted scenario_host (n_gpu args)
  ∧ (launch_builtin_model_begin scenario_host true args (init_worker [0])).2
    = Raise InvalidArg.
Proof.
  set (args := scenario_args_gpu "m-0" (Some (NGpuInt 0)) None).
  assert (is_Some (parse_replica_model_uid scenario_host (model_uid args))) as Hparse.
  { eexists. vm_compute. reflexivity. }
  assert (¬ n_gpu_accepted scenario_host (n_gpu args)) as Hn.
  { simpl. lia. }
  split_and!; [reflexivity|exact Hparse|exact Hn|].
  destruct (launch_gpu_pre_validation scenario_host) as (_ & _ & _ & _ & Hraise & _).
  exact (proj1 (Hraise true args (init_worker [0]) eq_refl Hparse Hn)).
Defined.

(** ** Witnesses of the properties beyond the specification *)

Lemma pair_snd {A B} (p : A * B) (b : B) : p.2 = b → p = (p.1, b).
Proof. destruct p. simpl. by intros ->. Qed.

Lemma holds_device_empty uid gpus : ¬ holds_device uid (mkDeviceMaps gpus ∅ ∅ ∅).
Proof.
  intros [(dev & H)|[(dev & uids & H & _)|(dev & infos & ty & H & _)]];
    simpl in H; by rewrite lookup_empty in H.
Qed.

(** X1 at four free GPUs: two are allocated to A and released again. *)
Lemma allocate_devices_release_round_trip_witness :
  ¬ holds_device "A" four_gpus
  ∧ (allocate_devices "A" 2 four_gpus).2 = Ok [0; 1]
  ∧ release_devices "A" (allocate_devices "A" 2 four_gpus).1 = four_gpus.
Proof.
  assert ((allocate_devices "A" 2 four_gpus).2 = Ok [0; 1]) as H2
    by (vm_compute; reflexivity).
  split_and!; [apply holds_device_empty|exact H2|].
  exact (allocate_devices_release_round_trip "A" 2 four_gpus _ [0; 1]
           (holds_device_empty "A" _) (pair_snd _ _ H2)).
Defined.

(** X2 at three GPUs, an LLM pinned on GPU 0 and an embedding model pinned on
    GPU 1: GPUs 1 and 2 are handed out. *)
Lemma allocate_devices_skips_occupied_witness :
  (allocate_devices "A" 2 pinned_scenario).2 = Ok [1; 2]
  ∧ gpu_to_model_uid pinned_scenario !! 1 = None.
Proof.
  assert ((allocate_devices "A" 2 pinned_scenario).2 = Ok [1; 2]) as H2
    by (vm_compute; reflexivity).
  split; [exact H2|].
  destruct (allocate_devices_skips_occupied "A" 2 pinned_scenario _ [1; 2]
              (pair_snd _ _ H2) 1) as (_ & Hnone & _); [|exact Hnone].
  apply (bool_decide_unpack _). vm_compute. exact I.
Defined.

(** X4 at two GPUs with an embedding model on the first: the second is chosen. *)
Lemma allocate_devices_for_embedding_first_minimal_witness :
  (allocate_devices_for_embedding (is_model_vllm_backend scenario_host)
     (set_order scenario_host) "X" balanced_scenario).2 = Ok 1
  ∧ ∃ l1 l2,
      embedding_candidates (is_model_vllm_backend scenario_host)
        (set_order scenario_host) balanced_scenario
      = Ok (l1 ++ 1 :: l2)
      ∧ (∀ c, c ∈ l1 → existing_cnt balanced_scenario 1 < existing_cnt balanced_scenario c).
Proof.
  assert ((allocate_devices_for_embedding (is_model_vllm_backend scenario_host)
             (set_order scenario_host) "X" balanced_scenario).2 = Ok 1) as H2
    by (vm_compute; reflexivity).
  split; [exact H2|].
  destruct (allocate_devices_for_embedding_first_minimal _ _ "X" balanced_scenario _ 1
              (pair_snd _ _ H2)) as (l1 & l2 & Hl & H1 & _).
  exists l1, l2. split; [exact Hl|exact H1].
Defined.

Lemma balanced_scenario_candidates :
  embedding_candidates (is_model_vllm_backend scenario_host)
    (set_order scenario_host) balanced_scenario = Ok [0; 1].
Proof. vm_compute. reflexivity. Qed.

Lemma balanced_scenario_balanced : balanced balanced_scenario.
Proof.
  intros a b Ha Hb.
  assert (∀ c, c ∈ total_gpu_devices balanced_scenario →
               0 ≤ existing_cnt balanced_scenario c ≤ 1) as Hc.
  { intros c Hc. change (total_gpu_devices balanced_scenario) with [0; 1] in Hc.
    apply elem_of_cons in Hc as [->|Hc];
      [|apply elem_of_cons in Hc as [->|Hc]; [|by apply elem_of_nil in Hc]].
    - assert (existing_cnt balanced_scenario 0 = 1) as -> by (vm_compute; reflexivity).
      lia.
    - assert (existing_cnt balanced_scenario 1 = 0) as -> by (vm_compute; reflexivity).
      lia. }
  apply Hc in Ha, Hb. lia.
Qed.

(** X5 at two GPUs with an embedding model on the first. *)
Lemma allocate_devices_for_embedding_balanced_witness :
  embedding_candidates (is_model_vllm_backend scenario_host)
    (set_order scenario_host) balanced_scenario = Ok [0; 1]
  ∧ balanced balanced_scenario
  ∧ balanced
      (allocate_devices_for_embedding (is_model_vllm_backend scenario_host)
         (set_order scenario_host) "X" balanced_scenario).1.
Proof.
  split; [exact balanced_scenario_candidates|].
  split; [exact balanced_scenario_balanced|].
  refine (allocate_devices_for_embedding_balanced _ _ "X" balanced_scenario _ [0; 1] 1
            balanced_scenario_candidates (λ c Hc, Hc) balanced_scenario_balanced
            (pair_snd _ _ _)).
  vm_compute. reflexivity.
Defined.

(** X6 at four free GPUs: an embedding placement of X and its release. *)
Lemma shared_allocation_release_round_trip_witness :
  ¬ holds_device "X" four_gpus
  ∧ (allocate_devices_for_embedding (is_model_vllm_backend scenario_host)
       (set_order scenario_host) "X" four_gpus).2 = Ok 0
  ∧ same_tenants four_gpus
      (release_devices "X"
         (allocate_devices_for_embedding (is_model_vllm_backend scenario_host)
            (set_order scenario_host) "X" four_gpus).1).
Proof.
  assert ((allocate_devices_for_embedding (is_model_vllm_backend scenario_host)
             (set_order scenario_host) "X" four_gpus).2 = Ok 0) as H2
    by (vm_compute; reflexivity).
  split_and!; [apply holds_device_empty|exact H2|].
  exact (proj1 (shared_allocation_release_round_trip
                  (is_model_vllm_backend scenario_host) (set_order scenario_host)
                  "X" four_gpus
                  (holds_device_empty "X" _)) _ 0 (pair_snd _ _ H2)).
Defined.

(** X7 at four free GPUs, for an embedding model launched with [n_gpu = 2]. *)
Lemma create_subpool_embedding_one_shared_device_witness :
  is_embedding_or_rerank "embedding" = true
  ∧ (create_subpool_devices scenario_host "e-1" "embedding" (Some (NGpuInt 2)) None
       four_gpus).2 = Ok [0].
Proof.
  assert ((create_subpool_devices scenario_host "e-1" "embedding" (Some (NGpuInt 2))
             None four_gpus).2 = Ok [0]) as H2 by (vm_compute; reflexivity).
  split; [reflexivity|].
  destruct (create_subpool_embedding_one_shared_device scenario_host "e-1" "embedding"
              (Some (NGpuInt 2)) four_gpus _ [0] eq_refl (pair_snd _ _ H2))
    as (_ & _ & _ & Hlen).
  exact H2.
Defined.

Lemma launched_scenario_returns :
  launch_builtin_model scenario_host (scenario_env "sub-0") (scenario_args "m-0")
    (init_worker [0])
  = (launched_scenario, Some (Ok "sub-0")).
Proof.
  unfold launched_scenario. apply (pair_snd (launch_builtin_model _ _ _ _)).
  vm_compute. reflexivity.
Qed.

(** X8 at the launch of m-0 on a worker with one GPU. *)
Lemma launch_builtin_model_success_witness :
  launch_builtin_model scenario_host (scenario_env "sub-0") (scenario_args "m-0")
    (init_worker [0])
  = (launched_scenario, Some (Ok "sub-0"))
  ∧ get_model "m-0" launched_scenario = inr (mkActorRef ModelActor "m-0" "sub-0")
  ∧ get_model_launch_status "m-0" launched_scenario = Some READY.
Proof.
  split; [exact launched_scenario_returns|].
  destruct (launch_builtin_model_success scenario_host (scenario_env "sub-0")
              (scenario_args "m-0") (init_worker [0]) launched_scenario "sub-0"
              launched_scenario_returns)
    as (m & origin & idx & _ & _ & _ & _ & Hready & _ & _ & _ & _ & _ & _ & _ & _
        & Hget & _).
  split; [exact Hget|exact Hready].
Defined.


(** X11 at the worker that runs m-0, after an error has been recorded for it. *)
Lemma dead_model_keeps_last_error_witness :
  let w := update_model_status "m-0" [("last_error", "out of memory")]
             launched_scenario in
  let push_raises := mkTerminateEnv true None false true in
  model_uid_to_model_status w !! "m-0" = Some (mkModelStatus "out of memory")
  ∧ get_model "m-0" (terminate_model scenario_host scenario_terminate_env "m-0" true w).1
    = inl (LastError "out of memory")
  ∧ get_model "m-0" (terminate_model scenario_host scenario_terminate_env "m-0" false w).1
    = inl NotFound
  ∧ (terminate_model scenario_host push_raises "m-0" false w).2 = Raise Downstream
  ∧ get_model_status "m-0" (terminate_model scenario_host push_raises "m-0" false w).1
    = Some (mkModelStatus "out of memory").
Proof.
  set (w := update_model_status "m-0" [("last_error", "out of memory")]
              launched_scenario).
  assert (model_uid_to_model_status w !! "m-0" = Some (mkModelStatus "out of memory"))
    as Hst by (vm_compute; reflexivity).
  assert (model_uid_launching_guard w !! "m-0" = None) as Hguard
    by (vm_compute; reflexivity).
  destruct (dead_model_keeps_last_error scenario_host scenario_terminate_env "m-0" "m"
              _ w Hguard eq_refl Hst)
    as (Hreturns & _).
  destruct Hreturns as (_ & Hdied & _ & _ & Hstopped & _); [vm_compute; reflexivity|].
  destruct (dead_model_keeps_last_error scenario_host
              (mkTerminateEnv true None false true) "m-0" "m"
              _ w Hguard eq_refl Hst)
    as (_ & Hraises).
  destruct (Hraises ltac:(vm_compute; reflexivity) false) as (Hr & Hkept & _).
  split_and!; [exact Hst|exact Hdied|exact Hstopped|exact Hr|exact Hkept].
Defined.


(** X13 at a second launch of m-0 on the worker that runs it. *)
Lemma launch_of_known_uid_rejected_witness :
  is_Some (model_uid_to_model launched_scenario !! "m-0")
  ∧ (launch_builtin_model scenario_host (scenario_env "sub-1") (scenario_args "m-0")
       launched_scenario).2 = Some (Raise Conflict).
Proof.
  assert (is_Some (model_uid_to_model launched_scenario !! "m-0")) as Hknown
    by (eexists; vm_compute; reflexivity).
  split; [exact Hknown|].
  destruct (launch_of_known_uid_rejected scenario_host (scenario_env "sub-1")
              (scenario_args "m-0") launched_scenario (or_introl Hknown))
    as (_ & _ & _ & _ & _ & _ & _ & Hconflict).
  apply Hconflict; [eexists; vm_compute; reflexivity|reflexivity..].
Defined.


(** X15 at a launch of m-0 that is cancelled while it waits for its sub-pool. *)
Lemma cancelled_launch_never_commits_witness :
  ∃ w' e,
    launch_builtin_model scenario_host env_cancelled_early (scenario_args "m-0")
      (init_worker [0])
    = (w', Some (Raise e))
    ∧ same_tables (init_worker [0]) w'.
Proof.
  destruct (proj2 (cancelled_launch_never_commits scenario_host) env_cancelled_early
              (scenario_args "m-0") (init_worker [0]) 1%nat eq_refl)
    as (w' & e & Hr & Hsame & _); [left; lia|].
  exists w', e. split; [exact Hr|exact Hsame].
Defined.



(** X22 at the worker that runs m-0 at sub-0 with one recovery left. *)
Lemma recover_sub_pool_relaunches_witness :
  model_uid_to_recover_count launched_scenario !! "m-0" = Some (Some 1)
  ∧ ∃ w',
      recover_sub_pool scenario_host scenario_terminate_env (scenario_env "sub-1")
        "sub-0" launched_scenario
      = (w', Recreate "m-0" (scenario_args "m-0"))
      ∧ PyDict.get "m-0" (model_uid_to_addr w') = Some "sub-1"
      ∧ model_uid_to_recover_count w' !! "m-0" = Some (Some 0).
Proof.
  assert (model_uid_to_recover_count launched_scenario !! "m-0" = Some (Some 1))
    as Hcount by (vm_compute; reflexivity).
  assert ((recover_model scenario_host (scenario_env "sub-1") (scenario_args "m-0")
             (recover_sub_pool_decide scenario_host scenario_terminate_env "sub-0"
                launched_scenario).1).2 = Some (Ok "sub-1")) as Hre
    by (vm_compute; reflexivity).
  split; [exact Hcount|].
  destruct (recover_sub_pool_relaunches scenario_host scenario_terminate_env
              (scenario_env "sub-1") "sub-0" "m-0" "sub-1" (scenario_args "m-0") 1
              launched_scenario
              (recover_model scenario_host (scenario_env "sub-1") (scenario_args "m-0")
                 (recover_sub_pool_decide scenario_host scenario_terminate_env "sub-0"
                    launched_scenario).1).1)
    as (Hr & _ & _ & Haddr & _ & _ & Hn & _);
    [vm_compute; reflexivity|vm_compute; reflexivity|reflexivity|exact Hcount|lia
    |exact (pair_snd _ _ Hre)|].
  eexists. split_and!; [exact Hr|exact Haddr|exact Hn].
Defined.

(** X23 at the launch of m-0 at its last suspension point, when
    [_get_model_ability] raises. *)
Lemma launch_raises_after_commit_witness :
  let w := (launch_builtin_model_begin scenario_host true (scenario_args "m-0")
              (init_worker [0])).1 in
  let t := mkTask (scenario_args "m-0") "m" (AtLoad (mkModelObj false [])) 0 false
             "sub-0" [0] ["sub-0"] in
  let r := launch_builtin_model_step scenario_host env_ability_raises t w in
  is_Some (model_uid_launching_guard w !! "m-0")
  ∧ (∃ e, r.2 = Returned (Raise e))
  ∧ model_uid_to_model r.1 !! "m-0" = Some (mkActorRef ModelActor "m-0" "sub-0").
Proof.
  set (w := (launch_builtin_model_begin scenario_host true (scenario_args "m-0")
               (init_worker [0])).1).
  set (t := mkTask (scenario_args "m-0") "m" (AtLoad (mkModelObj false [])) 0 false
              "sub-0" [0] ["sub-0"]).
  assert (is_Some (model_uid_launching_guard w !! "m-0")) as Hguard
    by (eexists; vm_compute; reflexivity).
  destruct (launch_raises_after_commit scenario_host env_ability_raises t
              (mkModelObj false []) w eq_refl eq_refl Hguard (or_introl eq_refl))
    as (Hraise & _ & Hmodel & _).
  split_and!; [exact Hguard|exact Hraise|exact Hmodel].
Defined.

(** X25 at settings with one package, an unset and a set option. *)
Lemma prepare_virtual_env_install_arguments_witness :
  packages scenario_settings = Some ["torch"]
  ∧ ∃ conf,
      (prepare_virtual_env scenario_pip_config (Some scenario_settings)
         (Some ["numpy"])).2 = Some (["torch"; "numpy"], conf)
      ∧ getattr "index_url" conf = Some (PyStr "https://pip")
      ∧ getattr "extra_index_url" conf = Some (PyStr "https://own").
Proof.
  split; [reflexivity|].
  destruct (prepare_virtual_env_install_arguments scenario_pip_config scenario_settings
              ["torch"] (Some ["numpy"]) eq_refl)
    as (conf & Hr & _ & _ & Hown & _ & Hpip); [done|].
  exists conf. split_and!.
  - rewrite Hr. reflexivity.
  - apply (Hpip "index_url" PyNone); try done.
    apply (bool_decide_unpack _). vm_compute. exact I.
  - apply Hown; reflexivity.
Defined.

